(** * Rental orders and invoices: a shallow embedding of [src/api/server.js]

    The server keeps customers, rental orders and order items in a relational
    store and prints an order as a paginated invoice.  This development
    embeds the request handlers that write orders ([/api/new-customer],
    [/api/generate-bill], [/api/update-order]), the one that renders the
    invoice ([/api/invoice/:orderId]) and those that read, relabel and
    delete customers, and states the properties of the specification over
    them.  An exception that a handler lets through to its [catch] block
    is an outcome of the model: a property read on [null], a value that
    [Number] cannot convert, a parameter that the store cannot read as a
    key.

    JavaScript numbers are IEEE 754 doubles: they are embedded as the
    primitive binary64 floats, so every product and sum below is the one the
    program computes.  Layout coordinates are embedded as rationals. *)

From Stdlib Require Import ZArith QArith List String Ascii Bool Lia Lqa.
From Stdlib Require Import Floats DecimalString.
From Stdlib Require Import Permutation.
Import ListNotations.

#[local] Set Warnings "-register-all".
Local Open Scope string_scope.
Local Open Scope Z_scope.

(** ** JavaScript values *)

Module JS.

(** What [express.json()] hands to a handler: the values of a parsed JSON
    text, and [undefined] for a property that is not there. *)
Inductive value : Type :=
| VUndefined
| VNull
| VBool (b : bool)
| VNum (x : float)
| VStr (s : string)
| VArr (elems : list value)
| VObj (props : list (string * value)).

(** The part of the language runtime and of the imported packages whose
    result the handlers only pass along: the conversions between numbers
    and strings, the date parser and printer of [dayjs], the cursor that
    [pdfkit] keeps while it lays text out, and the way the store reads a
    bound parameter as a key or compares it with a column. *)
Record host : Type := Host {
  StringToNumber : string -> float;
  NumberToString : float -> string;
  (* [dayjs(v)]: the wall-clock instant in milliseconds, [None] for an
     invalid date *)
  dayjs : value -> option Z;
  (* [dayjs(v).format(pattern)] *)
  dayjs_format : string -> value -> string;
  (* [doc.y] once a centred line of text has been laid out from [y] *)
  doc_y_below : string -> Q -> Q;
  (* [WHERE id=$1]: the key a bound parameter denotes; the statement raises
     for a parameter that denotes none *)
  pg_key : value -> option Z;
  (* [WHERE phone=$1]: a stored column against a bound parameter *)
  sql_eq : value -> value -> bool;
  (* a [SELECT] without [ORDER BY]: where, among the matching rows taken in
     the order of their keys, the store begins to list them; this may
     change from one request to the next, and the model lets it depend on
     the number of orders created so far and on the matching keys *)
  pg_first : Z -> list Z -> nat
}.

(** [ToBoolean]: the values a condition or [||] treats as false. *)
Definition ToBoolean (v : value) : bool :=
  match v with
  | VUndefined | VNull => false
  | VBool b => b
  | VNum x => negb (PrimFloat.is_zero x || PrimFloat.is_nan x)
  | VStr s => negb (String.eqb s "")
  | VArr _ | VObj _ => true
  end.

(** [a || b] *)
Definition or_else (a b : value) : value := if ToBoolean a then a else b.

(** Own property lookup in a parsed object, whose keys are distinct: a key
    that is not there reads as [undefined]. *)
Fixpoint lookup (k : string) (props : list (string * value)) : value :=
  match props with
  | [] => VUndefined
  | (k', v) :: rest => if String.eqb k k' then v else lookup k rest
  end.

(** [v.k]; [None] is the [TypeError] of reading a property of [null] or
    [undefined], and a primitive or an array has no such own property. *)
Definition prop (v : value) (k : string) : option value :=
  match v with
  | VUndefined | VNull => None
  | VObj props => Some (lookup k props)
  | _ => Some VUndefined
  end.

(** [ToPrimitive] on what a JSON text holds.  An object converts through
    [Object.prototype.toString] unless a property of its own named
    [toString] hides it: no value of a JSON text is callable, so the
    conversion then finds no method and throws a [TypeError].  An array
    converts through [Array.prototype.join], which converts each element
    and so throws when one of them does. *)
Fixpoint unconvertible (v : value) : bool :=
  match v with
  | VObj props => existsb (fun kv => String.eqb (fst kv) "toString") props
  | VArr elems => existsb unconvertible elems
  | _ => false
  end.

Section Conversions.
Variable h : host.

(** [ToString], with [Array.prototype.join] for arrays: what the
    conversion returns when it does not throw. *)
Fixpoint ToString (v : value) : string :=
  match v with
  | VUndefined => "undefined"
  | VNull => "null"
  | VBool true => "true"
  | VBool false => "false"
  | VNum x => NumberToString h x
  | VStr s => s
  | VArr elems =>
      String.concat ","
        (map (fun e => match e with
                       | VUndefined | VNull => ""
                       | _ => ToString e
                       end) elems)
  | VObj _ => "[object Object]"
  end.

(** [Number(v)]: what the conversion returns when it does not throw. *)
Definition Number (v : value) : float :=
  match v with
  | VUndefined => PrimFloat.nan
  | VNull => PrimFloat.zero
  | VBool true => PrimFloat.one
  | VBool false => PrimFloat.zero
  | VNum x => x
  | VStr s => StringToNumber h s
  | VArr _ | VObj _ => StringToNumber h (ToString v)
  end.

(** [function safeNumber(v)]: what a call returns when [Number(v)] does
    not throw. *)
Definition safeNumber (v : value) : float :=
  let n := Number v in
  if PrimFloat.is_finite n then n else PrimFloat.zero.

(** A call [safeNumber(v)] on a value of the request: [None] is the
    [TypeError] that [Number(v)] throws, which the function does not
    catch. *)
Definition call_safeNumber (v : value) : option float :=
  if unconvertible v then None else Some (safeNumber v).

(** [a || b] on numbers *)
Definition num_or (a b : float) : float :=
  if PrimFloat.is_zero a || PrimFloat.is_nan a then b else a.

(** The decimal digits of an integer, as [ToString] prints a whole
    number below 1e21. *)
Definition string_of_Z (z : Z) : string := NilZero.string_of_int (Z.to_int z).

Definition digit (d : Z) : ascii := ascii_of_nat (48 + Z.to_nat d).

(** The last [f] decimal digits of [n]. *)
Fixpoint fraction_digits (f : nat) (n : Z) : string :=
  match f with
  | O => ""
  | S f' => fraction_digits f' (n / 10) ++ String (digit (n mod 10)) ""
  end.

(** [Number.prototype.toFixed(f)]: the integer [n] for which [n / 10^f]
    is nearest to the exact value of [x] (the larger one of two), printed
    with the point before its last [f] digits; a number that is not
    finite or is at least 1e21 is printed as [ToString] prints it. *)
Definition toFixed (x : float) (f : nat) : string :=
  match Prim2SF x with
  | S754_nan => "NaN"
  | S754_infinity s => if s then "-Infinity" else "Infinity"
  | S754_zero _ =>
      "0" ++ match f with O => "" | _ => "." ++ fraction_digits f 0 end
  | S754_finite s m e =>
      if (1e21 <=? PrimFloat.abs x)%float then NumberToString h x
      else
        let scaled := Zpos m * 10 ^ Z.of_nat f in
        let n := if 0 <=? e then scaled * 2 ^ e
                 else (2 * scaled + 2 ^ (- e)) / (2 * 2 ^ (- e)) in
        (if s then "-" else "")
        ++ string_of_Z (n / 10 ^ Z.of_nat f)
        ++ match f with O => "" | _ => "." ++ fraction_digits f n end
  end.

(** The double nearest to an integer. *)
Definition float_of_Z (z : Z) : float :=
  SF2Prim (binary_normalize prec emax z 0 false).

End Conversions.

End JS.

(** ** The relational store *)

Module Store.
Import JS.

(** The tables, with the columns the statements of the handlers name.  The
    schema is not part of the repository: a row keeps each parameter as it
    was bound, keys are integers handed out by a counter per table, and a
    table lists its rows in insertion order. *)
Record customer : Type := Customer {
  c_id : Z;
  c_name : value;
  c_phone : value;
  c_alt_phone : value;
  c_address : value;
  c_rent_status : value
}.

Record order : Type := Order {
  o_id : Z;
  o_invoice_no : value;
  o_customer_id : Z;
  o_order_date : value;
  o_rent_start : value;
  o_rent_end : value;
  o_total : value
}.

Record order_item : Type := OrderItem {
  i_id : Z;
  i_order_id : Z;
  i_product : value;
  i_price : value;
  i_quantity : value;
  i_line_total : value
}.

Record store : Type := Db {
  customers : list customer;
  orders : list order;
  order_items : list order_item;
  next_customer : Z;
  next_order : Z;
  next_item : Z
}.

Definition empty : store := Db [] [] [] 1 1 1.

(** A parameter is bound as [NULL] when it is [undefined]. *)
Definition param (v : value) : value :=
  match v with VUndefined => VNull | _ => v end.

(** [COALESCE($n, column)] *)
Definition COALESCE (param column : value) : value :=
  match param with VUndefined | VNull => column | _ => param end.

(** [ROLLBACK]: the rows of the snapshot come back; the counters keep
    what the aborted transaction drew from them. *)
Definition rollback (snapshot now : store) : store :=
  Db (customers snapshot) (orders snapshot) (order_items snapshot)
     (next_customer now) (next_order now) (next_item now).

(** [INSERT INTO customers (...) VALUES (...) RETURNING id] *)
Definition insert_customer (name phone alt_phone address rent_status : value)
    (st : store) : Z * store :=
  let id := next_customer st in
  (id,
   Db (customers st ++
         [Customer id (param name) (param phone) (param alt_phone) (param address)
                   (param rent_status)])
      (orders st) (order_items st)
      (id + 1) (next_order st) (next_item st)).

(** [INSERT INTO orders (...) VALUES (...) RETURNING id] *)
Definition insert_order (invoice_no : value) (customer_id : Z)
    (order_date rent_start rent_end total : value) (st : store) : Z * store :=
  let id := next_order st in
  (id,
   Db (customers st)
      (orders st ++
         [Order id (param invoice_no) customer_id (param order_date)
                (param rent_start) (param rent_end) (param total)])
      (order_items st)
      (next_customer st) (id + 1) (next_item st)).

(** [INSERT INTO order_items (...) VALUES (...)] *)
Definition insert_item (order_id : Z) (product price quantity line_total : value)
    (st : store) : store :=
  Db (customers st) (orders st)
     (order_items st ++
        [OrderItem (next_item st) order_id (param product) (param price)
                   (param quantity) (param line_total)])
     (next_customer st) (next_order st) (next_item st + 1).

(** [UPDATE orders SET total=$1 WHERE id=$2] *)
Definition set_total (total : value) (id : Z) (st : store) : store :=
  Db (customers st)
     (map (fun o =>
             if o_id o =? id
             then Order (o_id o) (o_invoice_no o) (o_customer_id o)
                        (o_order_date o) (o_rent_start o) (o_rent_end o)
                        (param total)
             else o) (orders st))
     (order_items st)
     (next_customer st) (next_order st) (next_item st).

(** [UPDATE orders SET total=$1, order_date = COALESCE($2, order_date),
    rent_start = COALESCE($3, rent_start), rent_end = COALESCE($4, rent_end)
    WHERE id=$5] *)
Definition update_order_meta (total order_date rent_start rent_end : value)
    (id : Z) (st : store) : store :=
  Db (customers st)
     (map (fun o =>
             if o_id o =? id
             then Order (o_id o) (o_invoice_no o) (o_customer_id o)
                        (COALESCE (param order_date) (o_order_date o))
                        (COALESCE (param rent_start) (o_rent_start o))
                        (COALESCE (param rent_end) (o_rent_end o))
                        (param total)
             else o) (orders st))
     (order_items st)
     (next_customer st) (next_order st) (next_item st).

(** [UPDATE customers SET name=$1, alt_phone=$2, address=$3 WHERE id=$4] *)
Definition update_customer (name alt_phone address : value) (id : Z)
    (st : store) : store :=
  Db (map (fun c =>
             if c_id c =? id
             then Customer (c_id c) (param name) (c_phone c) (param alt_phone)
                           (param address) (c_rent_status c)
             else c) (customers st))
     (orders st) (order_items st)
     (next_customer st) (next_order st) (next_item st).

(** [DELETE FROM order_items WHERE order_id=$1] *)
Definition delete_items (order_id : Z) (st : store) : store :=
  Db (customers st) (orders st)
     (filter (fun it => negb (i_order_id it =? order_id)) (order_items st))
     (next_customer st) (next_order st) (next_item st).

(** [SELECT id FROM orders WHERE id=$1 LIMIT 1] *)
Definition select_order_id (id : Z) (st : store) : list Z :=
  firstn 1 (map o_id (filter (fun o => o_id o =? id) (orders st))).

Section Queries.
Variable h : host.

(** [SELECT id FROM customers WHERE phone=$1]: the keys of the matching
    customers, listed from where the store begins; the statement does not
    order them. *)
Definition select_customer_by_phone (phone : value) (st : store) : list Z :=
  let matching :=
    map c_id (filter (fun c => sql_eq h (c_phone c) (param phone)) (customers st)) in
  let first := pg_first h (next_order st) matching in
  (skipn first matching ++ firstn first matching)%list.

End Queries.

(** The items of an order, as a reader of the store sees them. *)
Definition items_of (order_id : Z) (st : store) : list order_item :=
  filter (fun it => i_order_id it =? order_id) (order_items st).

End Store.

(** ** The handlers that write orders *)

Module Orders.
Import JS Store.

(** What a handler answers. *)
Inductive reply : Type :=
| Created (customerId orderId : Z)        (* [{success: true, customerId, orderId}] *)
| Billed (orderId : Z) (invoiceNo : value) (* [{success: true, orderId, invoiceNo}] *)
| Replaced (total : float)                (* [{success: true, total}] *)
| Refused (error : string)                (* [{success: false, error}], from a guard *)
| Thrown.                                 (* [{success: false, error: err.message}], from [catch] *)

(** The statements between [BEGIN] and [COMMIT]: each runs on the store the
    previous one left, and an exception ([None]) skips the rest. *)
Definition tx (A : Type) : Type := store -> option A * store.

Definition ret_tx {A} (a : A) : tx A := fun st => (Some a, st).

Definition bind_tx {A B} (m : tx A) (k : A -> tx B) : tx B :=
  fun st => match m st with
            | (Some a, st') => k a st'
            | (None, st') => (None, st')
            end.

Definition throw {A} : tx A := fun st => (None, st).

(** A statement that returns rows, one that returns none, and a property
    read or a call that may raise. *)
Definition query {A} (q : store -> A * store) : tx A :=
  fun st => let (a, st') := q st in (Some a, st').

Definition exec (q : store -> store) : tx unit := fun st => (Some tt, q st).

Definition read {A} (v : option A) : tx A :=
  match v with Some x => ret_tx x | None => throw end.

Declare Scope tx_scope.
Delimit Scope tx_scope with tx.
Notation "x <- m ;; k" := (bind_tx m (fun x => k))
  (at level 61, m at next level, right associativity) : tx_scope.
Notation "m ;; k" := (bind_tx m (fun _ => k))
  (at level 61, right associativity) : tx_scope.

(** [try { BEGIN ... COMMIT; reply } catch { ROLLBACK; error }] *)
Definition transaction (body : tx reply) (st : store) : reply * store :=
  match body st with
  | (Some r, st') => (r, st')
  | (None, st') => (Thrown, rollback st st')
  end.

Section Handlers.
Variable h : host.

(** [let total = 0; for (const it of items) { ... }]: the loop shared by
    the three handlers, from a running total to the final one. *)
Fixpoint insert_items (orderId : Z) (items : list value) (total : float)
    : tx float :=
  match items with
  | [] => ret_tx total
  | it :: rest =>
      (p <- read (prop it "price") ;;
       price <- read (call_safeNumber h p) ;;
       q <- read (prop it "quantity") ;;
       qty <- read (call_safeNumber h q) ;;
       let line := (price * qty)%float in
       let total := (total + line)%float in
       product <- read (prop it "product") ;;
       exec (insert_item orderId product (VNum price) (VNum qty) (VNum line)) ;;
       insert_items orderId rest total)%tx
  end.

Definition missing_fields : string :=
  "Missing required fields (name, phone, address)".

(** [app.post("/api/new-customer", ...)]: an order for a customer row
    that is always new.  [today] is [dayjs().format("YYYY-MM-DD")] and
    [uuid] is [uuidv4()]. *)
Definition new_customer (today uuid : string) (body : list (string * value))
    (st : store) : reply * store :=
  let name := lookup "name" body in
  let phone := lookup "phone" body in
  let alt_phone := lookup "alt_phone" body in
  let address := lookup "address" body in
  let rent_start := lookup "rent_start" body in
  let rent_end := lookup "rent_end" body in
  let items := match lookup "items" body with VUndefined => VArr [] | v => v end in
  let order_date := lookup "order_date" body in
  if negb (ToBoolean name) || negb (ToBoolean phone) || negb (ToBoolean address)
  then (Refused missing_fields, st)
  else
    match items with
    | VArr ((_ :: _) as items) =>
        transaction
          (customerId <- query (insert_customer name phone (or_else alt_phone VNull)
                                  address (VStr "ACTIVE")) ;;
           let finalOrderDate := or_else order_date (VStr today) in
           orderId <- query (insert_order (VStr uuid) customerId finalOrderDate
                               (or_else rent_start VNull) (or_else rent_end VNull)
                               (VNum 0)) ;;
           total <- insert_items orderId items 0 ;;
           exec (set_total (VNum total) orderId) ;;
           ret_tx (Created customerId orderId))%tx st
    | _ => (Refused "No product items found", st)
    end.

(** [app.post("/api/generate-bill", ...)]: an order for the customer
    found by phone, or for a new one. *)
Definition generate_bill (today uuid : string) (body : list (string * value))
    (st : store) : reply * store :=
  let name := lookup "name" body in
  let phone := lookup "phone" body in
  let alt_phone := lookup "alt_phone" body in
  let address := lookup "address" body in
  let rent_start := lookup "rent_start" body in
  let rent_end := lookup "rent_end" body in
  let items := match lookup "items" body with VUndefined => VArr [] | v => v end in
  if negb (ToBoolean name) || negb (ToBoolean phone) || negb (ToBoolean address)
  then (Refused missing_fields, st)
  else
    match items with
    | VArr ((_ :: _) as items) =>
        transaction
          (c <- query (fun st => (select_customer_by_phone h phone st, st)) ;;
           customerId <-
             match c with
             | id :: _ =>
                 exec (update_customer name (or_else alt_phone VNull) address id) ;;
                 ret_tx id
             | [] =>
                 query (insert_customer name phone (or_else alt_phone VNull)
                          address (VStr "ACTIVE"))
             end ;;
           let orderDate := VStr today in
           orderId <- query (insert_order (VStr uuid) customerId orderDate
                               (or_else rent_start VNull) (or_else rent_end VNull)
                               (VNum 0)) ;;
           total <- insert_items orderId items 0 ;;
           exec (set_total (VNum total) orderId) ;;
           ret_tx (Billed orderId (VStr uuid)))%tx st
    | _ => (Refused "No product items found", st)
    end.

(** [app.post("/api/update-order", ...)]: the items of an order are
    replaced, its total rewritten and its dates patched.  The parameter
    [orderId] is bound in four statements and read as a key once; the
    first of them raises for a parameter that the store cannot read as a
    key, and the handler answers with the error. *)
Definition update_order (body : list (string * value)) (st : store)
    : reply * store :=
  let orderId := lookup "orderId" body in
  let order_date := lookup "order_date" body in
  let rent_start := lookup "rent_start" body in
  let rent_end := lookup "rent_end" body in
  let items := lookup "items" body in
  if negb (ToBoolean orderId) then (Refused "Missing orderId", st)
  else
    match items with
    | VArr ((_ :: _) as items) =>
        match pg_key h orderId with
        | None => (Thrown, rollback st st)
        | Some id =>
            match select_order_id id st with
            | [] => (Refused "Order not found", rollback st st)
            | _ :: _ =>
                transaction
                  (exec (delete_items id) ;;
                   total <- insert_items id items 0 ;;
                   exec (update_order_meta (VNum total) (or_else order_date VNull)
                           (or_else rent_start VNull) (or_else rent_end VNull) id) ;;
                   ret_tx (Replaced total))%tx st
            end
        end
    | _ => (Refused "No items provided", st)
    end.

End Handlers.

End Orders.

(** ** The document writer *)

Module Pdf.

(** What the handler asks of [pdfkit]: text in the current font, size and
    colour, rules and boxes in the current stroke colour and width, and
    pages.  A text is placed at coordinates or left to the cursor of the
    document. *)
Record style : Type := Style {
  font : string;
  fontSize : Z;
  fillColor : string
}.

Inductive placement : Type :=
| At (x : Z) (y : Q)
| Flow.

Inductive shape : Type :=
| Segment (x1 : Z) (y1 : Q) (x2 : Z) (y2 : Q)
| Rect (x : Z) (y : Q) (w ht : Z).

Inductive drawn : Type :=
| Text (s : style) (content : string) (place : placement) (centred : bool)
| Stroke (colour : string) (width : Z) (sh : shape)
| MoveDown (lines : Z)
| NewPage.

(** The graphics state of the document between two calls. *)
Record gstate : Type := GState {
  g_style : style;
  g_strokeColor : string;
  g_lineWidth : Z;
  g_pen : Z * Q;
  g_path : list shape
}.

(** [new PDFDocument({ size: "A4", margin: 40 })] *)
Definition initial : gstate :=
  GState (Style "Helvetica" 12 "black") "black" 1 (0, 0%Q) [].

(** The height of an A4 page, [doc.page.height]. *)
Definition page_height : Q := 841.89%Q.

(** A call on the document: it reads and changes the graphics state and
    adds to what is drawn. *)
Definition pdf (A : Type) : Type := gstate -> A * gstate * list drawn.

Definition ret_pdf {A} (a : A) : pdf A := fun g => (a, g, []).

Definition bind_pdf {A B} (m : pdf A) (k : A -> pdf B) : pdf B :=
  fun g => let '(a, g1, out1) := m g in
           let '(b, g2, out2) := k a g1 in
           (b, g2, (out1 ++ out2)%list).

Declare Scope pdf_scope.
Delimit Scope pdf_scope with pdf.
Notation "x <- m ;; k" := (bind_pdf m (fun x => k))
  (at level 61, m at next level, right associativity) : pdf_scope.
Notation "m ;; k" := (bind_pdf m (fun _ => k))
  (at level 61, right associativity) : pdf_scope.

Definition set_style (f : style -> style) : pdf unit :=
  fun g => (tt, GState (f (g_style g)) (g_strokeColor g) (g_lineWidth g)
                       (g_pen g) (g_path g), []).

Definition setFont (name : string) : pdf unit :=
  set_style (fun s => Style name (fontSize s) (fillColor s)).

Definition setFontSize (n : Z) : pdf unit :=
  set_style (fun s => Style (font s) n (fillColor s)).

Definition setFillColor (c : string) : pdf unit :=
  set_style (fun s => Style (font s) (fontSize s) c).

Definition strokeColor (c : string) : pdf unit :=
  fun g => (tt, GState (g_style g) c (g_lineWidth g) (g_pen g) (g_path g), []).

Definition lineWidth (w : Z) : pdf unit :=
  fun g => (tt, GState (g_style g) (g_strokeColor g) w (g_pen g) (g_path g), []).

Definition moveTo (x : Z) (y : Q) : pdf unit :=
  fun g => (tt, GState (g_style g) (g_strokeColor g) (g_lineWidth g) (x, y)
                       (g_path g), []).

Definition lineTo (x : Z) (y : Q) : pdf unit :=
  fun g => (tt, GState (g_style g) (g_strokeColor g) (g_lineWidth g) (x, y)
                       (g_path g ++ [Segment (fst (g_pen g)) (snd (g_pen g)) x y])%list,
            []).

Definition rect (x : Z) (y : Q) (w ht : Z) : pdf unit :=
  fun g => (tt, GState (g_style g) (g_strokeColor g) (g_lineWidth g) (g_pen g)
                       (g_path g ++ [Rect x y w ht])%list, []).

Definition stroke : pdf unit :=
  fun g => (tt, GState (g_style g) (g_strokeColor g) (g_lineWidth g) (g_pen g) [],
            map (Stroke (g_strokeColor g) (g_lineWidth g)) (g_path g)).

(** [doc.text(s, x, y)] and [doc.text(s, x, y, { align: "center" })] *)
Definition text (s : string) (x : Z) (y : Q) : pdf unit :=
  fun g => (tt, g, [Text (g_style g) s (At x y) false]).

Definition text_centred (s : string) (x : Z) (y : Q) : pdf unit :=
  fun g => (tt, g, [Text (g_style g) s (At x y) true]).

(** [doc.text(s, { align: "center" })] *)
Definition text_flow_centred (s : string) : pdf unit :=
  fun g => (tt, g, [Text (g_style g) s Flow true]).

Definition moveDown (lines : Z) : pdf unit := fun g => (tt, g, [MoveDown lines]).

Definition addPage : pdf unit := fun g => (tt, g, [NewPage]).

(** What a run of calls draws on a fresh document. *)
Definition output {A} (m : pdf A) : list drawn := snd (m initial).

(** The pages of a document: what is drawn before the first page break, and
    after each one. *)
Fixpoint pages_from (current : list drawn) (out : list drawn) : list (list drawn) :=
  match out with
  | [] => [current]
  | NewPage :: rest => current :: pages_from [] rest
  | d :: rest => pages_from (current ++ [d])%list rest
  end.

Definition pages (out : list drawn) : list (list drawn) := pages_from [] out.

End Pdf.

(** ** The invoice *)

Module Invoice.
Import JS Store Pdf.

(** A row of [SELECT o.*, c.name AS cname, c.phone AS cphone, c.address AS
    caddress FROM orders o JOIN customers c ON o.customer_id = c.id]. *)
Record order_row : Type := OrderRow {
  o : order;
  cname : value;
  cphone : value;
  caddress : value
}.

(** [... WHERE o.id=$1 LIMIT 1] *)
Definition select_order (id : Z) (st : store) : list order_row :=
  firstn 1
    (flat_map
       (fun ord =>
          if o_id ord =? id
          then map (fun c => OrderRow ord (c_name c) (c_phone c) (c_address c))
                   (filter (fun c => c_id c =? o_customer_id ord) (customers st))
          else [])
       (orders st)).

(** [ORDER BY id ASC] *)
Fixpoint insert_by_id (it : order_item) (sorted : list order_item) : list order_item :=
  match sorted with
  | [] => [it]
  | x :: rest => if i_id it <? i_id x then it :: sorted else x :: insert_by_id it rest
  end.

Definition order_by_id (rows : list order_item) : list order_item :=
  fold_right insert_by_id [] rows.

(** [SELECT * FROM order_items WHERE order_id=$1 ORDER BY id ASC] *)
Definition select_items (id : Z) (st : store) : list order_item :=
  order_by_id (items_of id st).

Definition teal : string := "#006666".

Definition MILLISECONDS_A_DAY : Z := 86400000.

(** [end.diff(start, "day")]: the whole days between two wall-clock
    instants, cut towards zero; [None] is [NaN], when a date is invalid. *)
Definition diff_day (end_ start : option Z) : option Z :=
  match end_, start with
  | Some e, Some s => Some (Z.quot (e - s) MILLISECONDS_A_DAY)
  | _, _ => None
  end.

(** What the host draws with: the text of a value handed to [doc.text]. *)
Definition text_of (h : host) (v : value) : string :=
  match v with
  | VUndefined | VNull => ""
  | _ => ToString h v
  end.

Section Render.
Variable h : host.

(** [let daysCount = 1; if (order.rent_start && order.rent_end) { ... }] *)
Definition daysCount (rent_start rent_end : value) : Z :=
  if ToBoolean rent_start && ToBoolean rent_end
  then
    let start := dayjs h rent_start in
    let end_ := dayjs h rent_end in
    match diff_day end_ start with
    | Some d => let diff := d + 1 in if diff >? 0 then diff else 1
    | None => 1
    end
  else 1.

(** [(safeNumber(it.line_total) || (price * qty)) * daysCount] *)
Definition amount_of (days : Z) (it : order_item) : float :=
  let price := safeNumber h (i_price it) in
  let qty := safeNumber h (i_quantity it) in
  (num_or (safeNumber h (i_line_total it)) (price * qty) * float_of_Z days)%float.

(** The column header row and its rule. *)
Definition column_headers (y : Q) : pdf unit :=
  (setFont "Helvetica-Bold" ;; setFontSize 11 ;; setFillColor teal ;;
   text "DESCRIPTION" 40 y ;;
   text "PRICE" 260 y ;;
   text "QTY" 350 y ;;
   text "AMOUNT" 450 y ;;
   moveTo 40 (y + 15) ;; lineTo 550 (y + 15) ;; strokeColor teal ;; stroke)%pdf.

(** [if (y + 50 > doc.page.height - 60) { ... }]: the cursor the row is
    drawn at. *)
Definition page_break (y : Q) : pdf Q :=
  if negb (Qle_bool (y + 50) (page_height - 60))
  then
    (addPage ;;
     let y := 40%Q in
     column_headers y ;;
     let y := (y + 25)%Q in
     setFont "Helvetica" ;; setFontSize 10 ;; setFillColor "#000" ;;
     ret_pdf y)%pdf
  else ret_pdf y.

(** The row of an item: its four fields and the breakdown beneath. *)
Definition print_row (days : Z) (it : order_item) (y : Q) : pdf unit :=
  let price := safeNumber h (i_price it) in
  let qty := safeNumber h (i_quantity it) in
  let amount := amount_of days it in
  (text (text_of h (i_product it)) 40 y ;;
   text (toFixed h price 2) 260 y ;;
   text (NumberToString h qty) 350 y ;;
   text (toFixed h amount 2) 450 y ;;
   setFontSize 8 ;; setFillColor "#555" ;;
   text ("(" ++ NumberToString h price ++ " × " ++ NumberToString h qty
           ++ " × " ++ string_of_Z days ++ ")") 450 (y + 10) ;;
   setFontSize 10 ;; setFillColor "#000")%pdf.

(** The block headed [PRICE CALCULATION SUMMARY]; it returns the cursor
    below it. *)
Definition summary (days : Z) (price qty amount : float) (y : Q) : pdf Q :=
  (let y := (y + 20)%Q in
   setFont "Helvetica-Bold" ;; setFontSize 11 ;; setFillColor teal ;;
   text "PRICE CALCULATION SUMMARY" 40 y ;;
   let y := (y + 18)%Q in
   setFont "Helvetica" ;; setFontSize 10 ;; setFillColor "#000" ;;
   text ("Products Total (Per-day): ₹ " ++ toFixed h (price * qty) 2) 40 y ;;
   let y := (y + 16)%Q in
   text ("Number of days: " ++ string_of_Z days) 40 y ;;
   let y := (y + 16)%Q in
   text ("Final Total: ₹ " ++ toFixed h amount 2) 40 y ;;
   let y := (y + 30)%Q in
   setFontSize 10 ;; setFillColor "#000" ;;
   moveTo 40 y ;; lineTo 550 y ;; strokeColor "#ddd" ;; stroke ;;
   ret_pdf y)%pdf.

(** One turn of [for (const it of itemsQ.rows)], from the cursor and the
    running total to the next ones. *)
Definition item (days : Z) (it : order_item) (y : Q) (grand : float)
    : pdf (Q * float) :=
  let price := safeNumber h (i_price it) in
  let qty := safeNumber h (i_quantity it) in
  let amount := amount_of days it in
  (y <- page_break y ;;
   print_row days it y ;;
   let grand := (grand + amount)%float in
   let y := (y + 22)%Q in
   moveTo 40 y ;; lineTo 550 y ;; strokeColor "#ddd" ;; stroke ;;
   let y := (y + 8)%Q in
   y <- summary days price qty amount y ;;
   ret_pdf (y, grand))%pdf.

Fixpoint items_loop (days : Z) (rows : list order_item) (y : Q) (grand : float)
    : pdf (Q * float) :=
  match rows with
  | [] => ret_pdf (y, grand)
  | it :: rest =>
      (yg <- item days it y grand ;;
       items_loop days rest (fst yg) (snd yg))%pdf
  end.

(** The box with the grand total. *)
Definition total_box (y : Q) (grand : float) : pdf unit :=
  (strokeColor teal ;; rect 350 y 200 50 ;; stroke ;;
   setFont "Helvetica-Bold" ;; setFontSize 13 ;; setFillColor teal ;;
   text "TOTAL" 360 (y + 8) ;;
   setFontSize 16 ;; setFillColor teal ;;
   text ("₹ " ++ toFixed h grand 2) 360 (y + 28))%pdf.

Definition footer : pdf unit :=
  (moveDown 4 ;;
   setFont "Helvetica" ;; setFontSize 10 ;; setFillColor teal ;;
   text_flow_centred
     "5TH CROSS, CANNEL RIGHT SIDE, VENKATESHA NAGAR, SHIMOGA | 577202 | PHONE: 6363499137" ;;
   moveDown 1 ;;
   setFont "Helvetica-Bold" ;; setFontSize 11 ;; setFillColor teal ;;
   text_flow_centred "THANK YOU FOR YOUR BUSINESS!")%pdf.

(** The head of the first page, down to the rental period line; it
    returns the day count and the top of the table. *)
Definition letterhead (order : order_row) : pdf (Z * Q) :=
  (setFontSize 12 ;; setFillColor teal ;; text "9916067960, 8073024022" 40 30 ;;
   setFontSize 26 ;; setFillColor teal ;;
   text_centred "SUBRAMANI ENTERPRISES" 0 60 ;;
   moveTo 40 95 ;; lineTo 550 95 ;; lineWidth 2 ;; strokeColor teal ;; stroke ;;
   let cy := 130%Q in
   setFont "Helvetica" ;; setFontSize 12 ;; setFillColor "#000" ;;
   text_centred ("DATE: " ++ dayjs_format h "DD/MM/YYYY" (o_order_date (o order)))
                0 cy ;;
   let cy := (cy + 25)%Q in
   text_centred ("CUSTOMER NAME: " ++ ToString h (cname order)) 0 cy ;;
   let cy := (cy + 25)%Q in
   text_centred ("PHONE: " ++ ToString h (cphone order)) 0 cy ;;
   let cy := (cy + 25)%Q in
   text_centred ("ADDRESS: " ++ ToString h (caddress order)) 0 cy ;;
   let cy := (cy + 25)%Q in
   let rentStartStr :=
     if ToBoolean (o_rent_start (o order))
     then dayjs_format h "DD/MM/YYYY" (o_rent_start (o order)) else "-" in
   let rentEndStr :=
     if ToBoolean (o_rent_end (o order))
     then dayjs_format h "DD/MM/YYYY" (o_rent_end (o order)) else "-" in
   let days := daysCount (o_rent_start (o order)) (o_rent_end (o order)) in
   let rent_line :=
     "RENT: " ++ rentStartStr ++ " - " ++ rentEndStr ++ " (" ++ string_of_Z days
       ++ " Day" ++ (if days >? 1 then "s" else "") ++ ")" in
   text_centred rent_line 0 cy ;;
   let tableTop := (doc_y_below h rent_line cy + 30)%Q in
   ret_pdf (days, tableTop))%pdf.

(** The first page down to the column headers; it returns the day count
    and the cursor of the first row. *)
Definition table_head (order : order_row) : pdf (Z * Q) :=
  (dt <- letterhead order ;;
   let days := fst dt in
   let tableTop := snd dt in
   column_headers tableTop ;;
   setFont "Helvetica" ;; setFontSize 10 ;; setFillColor "#000" ;;
   let y := (tableTop + 25)%Q in
   ret_pdf (days, y))%pdf.

(** The document of an order and its items. *)
Definition render (order : order_row) (rows : list order_item) : pdf float :=
  (dy <- table_head order ;;
   let days := fst dy in
   let y := snd dy in
   let grand := 0%float in
   yg <- items_loop days rows y grand ;;
   let y := (fst yg + 30)%Q in
   let grand := snd yg in
   total_box y grand ;;
   footer ;;
   ret_pdf grand)%pdf.

(** What the handler sends. *)
Inductive response : Type :=
| NotFound                                   (* [res.status(404).send("Order not found")] *)
| PdfError                                   (* [res.status(500).send("PDF Error")], from [catch] *)
| Document (filename : string) (out : list drawn).

(** [app.get("/api/invoice/:orderId", ...)]: the first statement raises
    for a parameter that the store cannot read as a key, before anything
    is sent. *)
Definition invoice (orderId : string) (st : store) : response :=
  match pg_key h (VStr orderId) with
  | None => PdfError
  | Some id =>
      match select_order id st with
      | [] => NotFound
      | order :: _ =>
          let itemsQ := select_items id st in
          let filename :=
            "invoice-" ++ ToString h (or_else (o_invoice_no (o order)) (VStr orderId))
              ++ ".pdf" in
          Document filename (output (render order itemsQ))
      end
  end.

End Render.

End Invoice.

(** ** A host for the worked examples *)

Module Fixture.
Import JS Store.

(** A host that is exact on what the examples use: decimal integers as
    numerals, numbers printed with the digits of their exact value, dates
    written [YYYY-MM-DD] read as local midnight, one line of 12 point
    Helvetica for the rental period, integer keys, and text columns compared
    as strings. *)

Definition digit_value (c : ascii) : option Z :=
  let n := Z.of_nat (nat_of_ascii c) in
  if (48 <=? n) && (n <=? 57) then Some (n - 48) else None.

Fixpoint digits_from (acc : Z) (s : string) : option Z :=
  match s with
  | EmptyString => Some acc
  | String c rest =>
      match digit_value c with
      | Some d => digits_from (10 * acc + d) rest
      | None => None
      end
  end.

Definition numeral (s : string) : option Z :=
  match s with
  | EmptyString => None
  | _ => digits_from 0 s
  end.

(** The exact value of a double that is a whole number. *)
Definition whole (x : float) : option Z :=
  match Prim2SF x with
  | S754_zero _ => Some 0
  | S754_finite s m e =>
      let sign := if s then (-1) else 1 in
      if 0 <=? e then Some (sign * (Zpos m * 2 ^ e))
      else if Zpos m mod 2 ^ (- e) =? 0 then Some (sign * (Zpos m / 2 ^ (- e)))
      else None
  | _ => None
  end.

(** Days from 1970-01-01 to a date of the civil calendar. *)
Definition days_from_civil (y m d : Z) : Z :=
  let y := if m <=? 2 then y - 1 else y in
  let era := y / 400 in
  let yoe := y - era * 400 in
  let doy := (153 * (if m >? 2 then m - 3 else m + 9) + 2) / 5 + d - 1 in
  let doe := yoe * 365 + yoe / 4 - yoe / 100 + doy in
  era * 146097 + doe - 719468.

Definition iso_date (s : string) : option (Z * Z * Z) :=
  if (String.length s =? 10)%nat
     && String.eqb (substring 4 1 s) "-" && String.eqb (substring 7 1 s) "-"
  then
    match numeral (substring 0 4 s), numeral (substring 5 2 s),
          numeral (substring 8 2 s) with
    | Some y, Some m, Some d =>
        if (1 <=? m) && (m <=? 12) && (1 <=? d) && (d <=? 31)
        then Some (y, m, d) else None
    | _, _, _ => None
    end
  else None.

Definition parse_date (v : value) : option Z :=
  match v with
  | VStr s =>
      match iso_date s with
      | Some (y, m, d) => Some (days_from_civil y m d * 86400000)
      | None => None
      end
  | _ => None
  end.

Definition print_date (pattern : string) (v : value) : string :=
  match v with
  | VStr s =>
      match iso_date s with
      | Some _ =>
          if String.eqb pattern "DD/MM/YYYY"
          then substring 8 2 s ++ "/" ++ substring 5 2 s ++ "/" ++ substring 0 4 s
          else s
      | None => "Invalid Date"
      end
  | _ => "Invalid Date"
  end.

Definition parse_number (s : string) : float :=
  match s with
  | EmptyString => PrimFloat.zero
  | _ => match digits_from 0 s with
         | Some z => float_of_Z z
         | None => PrimFloat.nan
         end
  end.

(** A fraction [m / 2^k] in lowest terms. *)
Fixpoint lowest_terms (m : positive) (k : nat) : positive * nat :=
  match m, k with
  | xO p, S k' => lowest_terms p k'
  | _, _ => (m, k)
  end.

(** The digits of the exact value of a double: those [ToString] prints for
    a whole number, and for a fraction with a short binary expansion. *)
Definition print_number (x : float) : string :=
  match Prim2SF x with
  | S754_nan => "NaN"
  | S754_infinity s => if s then "-Infinity" else "Infinity"
  | S754_zero _ => "0"
  | S754_finite s m e =>
      let sign := if s then "-" else "" in
      if 0 <=? e then sign ++ string_of_Z (Zpos m * 2 ^ e)
      else
        let (m', k) := lowest_terms m (Z.to_nat (- e)) in
        let n := Zpos m' * 5 ^ Z.of_nat k in
        sign ++ string_of_Z (n / 10 ^ Z.of_nat k)
        ++ match k with O => "" | _ => "." ++ fraction_digits k n end
  end.

Definition key_of (v : value) : option Z :=
  match v with
  | VNum x => whole x
  | VStr s => numeral s
  | _ => None
  end.

Definition same_text (a b : value) : bool :=
  match a, b with
  | VStr s, VStr t => String.eqb s t
  | _, _ => false
  end.

Definition host : JS.host :=
  Host parse_number print_number parse_date print_date
       (fun _ y => (y + 13.872)%Q) key_of same_text (fun _ _ => O).

(** The order of the end-to-end example of the specification. *)
Definition chair_and_table : list (string * value) :=
  [ ("name", VStr "Asha"); ("phone", VStr "9000000001");
    ("address", VStr "Shimoga");
    ("rent_start", VStr "2024-01-01"); ("rent_end", VStr "2024-01-03");
    ("items",
     VArr [ VObj [("product", VStr "Chair"); ("price", VNum 50); ("quantity", VNum 4)];
            VObj [("product", VStr "Table"); ("price", VNum 200); ("quantity", VNum 1)] ]) ].

(** A replacement of the items of order 1 that supplies only a new end of
    the rental. *)
Definition stool_update : list (string * value) :=
  [ ("orderId", VNum 1); ("rent_end", VStr "2024-01-09");
    ("items",
     VArr [ VObj [("product", VStr "Stool"); ("price", VNum 30); ("quantity", VNum 2)] ]) ].

(** Orders long enough to reach a second page, and its foot. *)
Definition chairs (keys : list Z) : list order_item :=
  map (fun n => OrderItem n 1 (VStr "Chair") (VNum 50) (VNum 4) (VNum 200)) keys.

Definition five_chairs : list order_item := chairs [1; 2; 3; 4; 5].

Definition ten_chairs : list order_item := chairs [1; 2; 3; 4; 5; 6; 7; 8; 9; 10].

Definition asha_order : Invoice.order_row :=
  Invoice.OrderRow (Order 1 (VStr "tok-1") 1 (VStr "2024-01-01") (VStr "2024-01-01")
                  (VStr "2024-01-03") (VNum 1000))
           (VStr "Asha") (VStr "9000000001") (VStr "Shimoga").

End Fixture.


(** ** The vocabulary of the specification *)

Module Spec.
Import JS Store Orders.

(** The sum a loop accumulates from zero, in the order of the list. *)
Definition sum_numbers (l : list float) : float :=
  fold_left PrimFloat.add l 0%float.

(** The items a request body carries. *)
Definition request_items (body : list (string * value)) : list value :=
  match lookup "items" body with VArr items => items | _ => [] end.

(** The number a stored line total stands for. *)
Definition line_total_of (h : host) (row : order_item) : float :=
  Number h (i_line_total row).

(** A row holds an item of the request: its coerced price, its coerced
    quantity, and their product as the line total. *)
Definition stored_as (h : host) (it : value) (row : order_item) : Prop :=
  exists p q,
    prop it "price" = Some p /\ prop it "quantity" = Some q /\
    i_price row = VNum (safeNumber h p) /\
    i_quantity row = VNum (safeNumber h q) /\
    i_line_total row = VNum (safeNumber h p * safeNumber h q)%float.

(** The total invariant of an order: its items are the items of the
    request, and an order row of that key is there and carries their sum. *)
Definition total_is_sum (h : host) (items : list value) (orderId : Z) (st : store)
    : Prop :=
  Forall2 (stored_as h) items (items_of orderId st) /\
  (exists o, In o (orders st) /\ o_id o = orderId) /\
  (forall o, In o (orders st) -> o_id o = orderId ->
     o_total o = VNum (sum_numbers (map (line_total_of h) (items_of orderId st)))).

(** Items refer to orders whose key was already handed out. *)
Definition keys_in_use (st : store) : Prop :=
  Forall (fun o => o_id o < next_order st) (orders st) /\
  Forall (fun it => i_order_id it < next_order st) (order_items st).

(** The parameter [orderId] of a request denotes the key of an order. *)
Definition resolves (h : host) (body : list (string * value)) (st : store) : bool :=
  match pg_key h (lookup "orderId" body) with
  | Some id => existsb (fun o => o_id o =? id) (orders st)
  | None => false
  end.

(** A request passes the guards of [/api/update-order]. *)
Definition well_formed_update (body : list (string * value)) : bool :=
  ToBoolean (lookup "orderId" body)
  && match lookup "items" body with VArr (_ :: _) => true | _ => false end.

(** A date column after a patch: the supplied value when there is one, the
    stored value otherwise. *)
Definition patched (supplied old : value) : value :=
  if ToBoolean supplied then supplied else old.

(** A date column across a patch: kept when the request leaves the field
    out, changed only to a value the request supplies, and set to the
    supplied value when there is one. *)
Definition date_patched (supplied old new : value) : Prop :=
  (supplied = VUndefined -> new = old) /\
  (new <> old -> new = supplied /\ ToBoolean supplied = true) /\
  (ToBoolean supplied = true -> new = supplied).

(** An order row across [/api/update-order]: the row of the key has its
    dates patched and its total rewritten, any other row is as it was. *)
Definition order_patched (body : list (string * value)) (id : Z) (total : float)
    (old new : order) : Prop :=
  if o_id old =? id
  then o_id new = o_id old /\
       o_invoice_no new = o_invoice_no old /\
       o_customer_id new = o_customer_id old /\
       date_patched (lookup "order_date" body) (o_order_date old) (o_order_date new) /\
       date_patched (lookup "rent_start" body) (o_rent_start old) (o_rent_start new) /\
       date_patched (lookup "rent_end" body) (o_rent_end old) (o_rent_end new) /\
       o_total new = VNum total
  else new = old.

End Spec.

(** ** The vocabulary of the layout *)

Module Layout.
Import JS Store Pdf Invoice.

(** What one call of a document action draws, the state it leaves and the
    value it returns. *)
Definition drawn_by {A} (m : pdf A) (g : gstate) : list drawn := snd (m g).
Definition state_after {A} (m : pdf A) (g : gstate) : gstate := snd (fst (m g)).
Definition value_of {A} (m : pdf A) (g : gstate) : A := fst (fst (m g)).

Definition plain : style := Style "Helvetica" 10 "#000".
Definition heading : style := Style "Helvetica-Bold" 11 teal.

(** The four column headers at a height. *)
Definition header_texts (y : Q) : list drawn :=
  [ Text heading "DESCRIPTION" (At 40 y) false;
    Text heading "PRICE" (At 260 y) false;
    Text heading "QTY" (At 350 y) false;
    Text heading "AMOUNT" (At 450 y) false ].

(** What a page break draws: the new page, the headers at its top margin
    and their rule, in the line width [w] of the document. *)
Definition break_drawn (w : Z) : list drawn :=
  (NewPage :: header_texts 40
     ++ [Stroke teal w (Segment 40 (40 + 15) 550 (40 + 15))])%list.

(** The four fields of a row at a height, and the breakdown beneath. *)
Definition row_drawn (h : host) (days : Z) (it : order_item) (y : Q) : list drawn :=
  let price := safeNumber h (i_price it) in
  let qty := safeNumber h (i_quantity it) in
  [ Text plain (text_of h (i_product it)) (At 40 y) false;
    Text plain (toFixed h price 2) (At 260 y) false;
    Text plain (NumberToString h qty) (At 350 y) false;
    Text plain (toFixed h (amount_of h days it) 2) (At 450 y) false;
    Text (Style "Helvetica" 8 "#555")
         ("(" ++ NumberToString h price ++ " × " ++ NumberToString h qty
              ++ " × " ++ string_of_Z days ++ ")")
         (At 450 (y + 10)) false ].

(** The summary block under a row drawn at [y]. *)
Definition summary_drawn (h : host) (days : Z) (it : order_item) (y : Q) (w : Z)
    : list drawn :=
  let price := safeNumber h (i_price it) in
  let qty := safeNumber h (i_quantity it) in
  [ Text heading "PRICE CALCULATION SUMMARY" (At 40 (y + 22 + 8 + 20)) false;
    Text plain ("Products Total (Per-day): ₹ " ++ toFixed h (price * qty) 2)
         (At 40 (y + 22 + 8 + 20 + 18)) false;
    Text plain ("Number of days: " ++ string_of_Z days)
         (At 40 (y + 22 + 8 + 20 + 18 + 16)) false;
    Text plain ("Final Total: ₹ " ++ toFixed h (amount_of h days it) 2)
         (At 40 (y + 22 + 8 + 20 + 18 + 16 + 16)) false;
    Stroke "#ddd" w (Segment 40 (y + 22 + 8 + 20 + 18 + 16 + 16 + 30)
                             550 (y + 22 + 8 + 20 + 18 + 16 + 16 + 30)) ].

(** All that the turn of an item draws once its row is placed at [y]. *)
Definition item_drawn (h : host) (days : Z) (it : order_item) (y : Q) (w : Z)
    : list drawn :=
  (row_drawn h days it y
     ++ Stroke "#ddd" w (Segment 40 (y + 22) 550 (y + 22))
     :: summary_drawn h days it y w)%list.

(** The cursor a turn leaves, from the height of its row. *)
Definition below (y : Q) : Q := (y + 22 + 8 + 20 + 18 + 16 + 16 + 30)%Q.

(** The state the loop keeps between two turns: plain text, no pending
    path. *)
Definition between_rows (g : gstate) : Prop :=
  g_style g = plain /\ g_path g = [].

(** The texts of a size. *)
Definition texts_of_size (n : Z) (out : list drawn) : list string :=
  flat_map (fun d => match d with
                     | Text s c _ _ => if fontSize s =? n then [c] else []
                     | _ => []
                     end) out.

(** The headings of summary blocks: the bold texts that read so. *)
Definition summary_headings (out : list drawn) : list drawn :=
  filter (fun d => match d with
                   | Text s c _ _ =>
                       String.eqb (font s) "Helvetica-Bold"
                       && String.eqb c "PRICE CALCULATION SUMMARY"
                   | _ => false
                   end) out.

(** The left column in plain 10 point text: product labels and the lines
    of the summary blocks. *)
Definition plain_left_column (out : list drawn) : list string :=
  flat_map (fun d => match d with
                     | Text s c (At x _) _ =>
                         if (x =? 40) && String.eqb (font s) "Helvetica"
                            && (fontSize s =? 10)
                         then [c] else []
                     | _ => []
                     end) out.

(** What the left column reads for an item: its label, then the three
    lines of its summary. *)
Definition item_captions (h : host) (days : Z) (it : order_item) : list string :=
  let price := safeNumber h (i_price it) in
  let qty := safeNumber h (i_quantity it) in
  [ text_of h (i_product it);
    "Products Total (Per-day): ₹ " ++ toFixed h (price * qty) 2;
    "Number of days: " ++ string_of_Z days;
    "Final Total: ₹ " ++ toFixed h (amount_of h days it) 2 ].

(** The heights of the amount fields of the rows on a page, and of the
    breakdown lines. *)
Definition row_lines (page : list drawn) : list Q :=
  flat_map (fun d => match d with
                     | Text s _ (At x y) _ =>
                         if (x =? 450) && String.eqb (font s) "Helvetica"
                            && (fontSize s =? 10)
                         then [y] else []
                     | _ => []
                     end) page.

Definition row_sublines (page : list drawn) : list Q :=
  flat_map (fun d => match d with
                     | Text s _ (At _ y) _ => if fontSize s =? 8 then [y] else []
                     | _ => []
                     end) page.

(** A page shows the column headers. *)
Definition has_column_headers (page : list drawn) : Prop :=
  exists y before after, page = (before ++ header_texts y ++ after)%list.



(** The texts placed below the bottom margin of 40, in the coordinates
    the handler gives them. *)
Definition below_bottom_margin (page : list drawn) : list string :=
  flat_map (fun d => match d with
                     | Text _ c (At _ y) _ =>
                         if Qle_bool y (page_height - 40) then [] else [c]
                     | _ => []
                     end) page.

Definition no_page_break (out : list drawn) : bool :=
  forallb (fun d => match d with NewPage => false | _ => true end) out.

(** A row as a write handler stores it: finite price and quantity, and
    their product as line total. *)
Definition persisted (row : order_item) : Prop :=
  exists p q,
    PrimFloat.is_finite p = true /\ PrimFloat.is_finite q = true /\
    i_price row = VNum p /\ i_quantity row = VNum q /\
    i_line_total row = VNum (p * q)%float.

(** The sum of the stored line totals, each times the day count. *)
Definition rendered_total (h : host) (days : Z) (rows : list order_item) : float :=
  fold_left PrimFloat.add
    (map (fun it => (Number h (i_line_total it) * float_of_Z days)%float) rows)
    0%float.

Definition is_digit (c : ascii) : bool :=
  (48 <=? nat_of_ascii c)%nat && (nat_of_ascii c <=? 57)%nat.

(** A text that ends in a point and two digits. *)
Definition two_decimals (s : string) : Prop :=
  exists whole d1 d2,
    s = whole ++ "." ++ String d1 (String d2 "") /\
    is_digit d1 = true /\ is_digit d2 = true.

(** The shape of what the item loop draws, in the line width [w]: for each
    item in turn, a page break or nothing, then the item with its row at a
    height that clears the bottom threshold. *)
Inductive loop_drawn (h : host) (days : Z) (w : Z)
    : list order_item -> list drawn -> Prop :=
| loop_done : loop_drawn h days w [] []
| loop_turn (it : order_item) (rest : list order_item) (y : Q)
            (before out : list drawn) :
    (y + 50 <= page_height - 60)%Q ->
    before = [] \/ before = break_drawn w ->
    loop_drawn h days w rest out ->
    loop_drawn h days w (it :: rest)
               (before ++ item_drawn h days it y w ++ out)%list.

End Layout.

(** ** The handlers that read, relabel and delete *)

Module Records.
Import JS Store Orders Invoice.

(** What these handlers answer: [{success: true, ...}] with what they
    found, [{success: false, error}] from a guard, or [{success: false}]
    from the [catch] block ([/api/delete-customer] adds the message of the
    error). *)
Inductive result (A : Type) : Type :=
| Found (a : A)
| Failed (error : string)
| Raised.

Arguments Found {A} a.
Arguments Failed {A} error.
Arguments Raised {A}.

(** [ORDER BY id DESC] *)
Fixpoint insert_desc {A : Type} (key : A -> Z) (x : A) (sorted : list A) : list A :=
  match sorted with
  | [] => [x]
  | y :: rest =>
      if key y <? key x then x :: sorted else y :: insert_desc key x rest
  end.

Definition order_by_desc {A : Type} (key : A -> Z) (rows : list A) : list A :=
  fold_right (insert_desc key) [] rows.

(** A row of [SELECT id, order_date, rent_start, rent_end, total FROM
    orders]. *)
Record order_summary : Type := OrderSummary {
  s_id : Z;
  s_order_date : value;
  s_rent_start : value;
  s_rent_end : value;
  s_total : value
}.

(** A row of [SELECT o.*, c.name AS cname, c.phone AS cphone, c.alt_phone
    AS caltphone, c.address AS caddress FROM orders o JOIN customers c ON
    c.id=o.customer_id]. *)
Record full_order_row : Type := FullOrderRow {
  f_order : order;
  f_cname : value;
  f_cphone : value;
  f_caltphone : value;
  f_caddress : value
}.

(** [SELECT * FROM customers WHERE id=$1] *)
Definition select_customer (id : Z) (st : store) : list customer :=
  filter (fun c => c_id c =? id) (customers st).

(** [SELECT * FROM orders WHERE customer_id=$1 ORDER BY id DESC] *)
Definition select_orders_of (customer_id : Z) (st : store) : list order :=
  order_by_desc o_id (filter (fun o => o_customer_id o =? customer_id) (orders st)).

(** [... WHERE o.id=$1 LIMIT 1], with the alternate phone *)
Definition select_full_order (id : Z) (st : store) : list full_order_row :=
  firstn 1
    (flat_map
       (fun ord =>
          if o_id ord =? id
          then map (fun c => FullOrderRow ord (c_name c) (c_phone c) (c_alt_phone c)
                                          (c_address c))
                   (filter (fun c => c_id c =? o_customer_id ord) (customers st))
          else [])
       (orders st)).

(** [UPDATE customers SET rent_status=$1 WHERE id=$2] *)
Definition set_rent_status (status : value) (id : Z) (st : store) : store :=
  Db (map (fun c =>
             if c_id c =? id
             then Customer (c_id c) (c_name c) (c_phone c) (c_alt_phone c)
                           (c_address c) (param status)
             else c) (customers st))
     (orders st) (order_items st)
     (next_customer st) (next_order st) (next_item st).

(** [DELETE FROM order_items WHERE order_id IN (SELECT id FROM orders WHERE
    customer_id=$1)] *)
Definition delete_items_of_customer (customer_id : Z) (st : store) : store :=
  Db (customers st) (orders st)
     (filter (fun it =>
                negb (existsb (fun o => (o_customer_id o =? customer_id)
                                        && (o_id o =? i_order_id it))
                              (orders st)))
             (order_items st))
     (next_customer st) (next_order st) (next_item st).

(** [DELETE FROM orders WHERE customer_id=$1] *)
Definition delete_orders_of_customer (customer_id : Z) (st : store) : store :=
  Db (customers st)
     (filter (fun o => negb (o_customer_id o =? customer_id)) (orders st))
     (order_items st)
     (next_customer st) (next_order st) (next_item st).

(** [DELETE FROM customers WHERE id=$1] *)
Definition delete_customer_row (id : Z) (st : store) : store :=
  Db (filter (fun c => negb (c_id c =? id)) (customers st))
     (orders st) (order_items st)
     (next_customer st) (next_order st) (next_item st).

Section Handlers.
Variable h : host.

(** [column ILIKE $1], as the store decides it. *)
Variable ILIKE : value -> string -> bool.


(** [app.get("/api/customer-details", ...)]: a customer, and the orders
    of that customer, newest first, each with its items, oldest first.  The
    first statement raises for a parameter that the store cannot read as a
    key. *)
Definition customer_details (id : value) (st : store)
    : result (customer * list (order * list order_item)) :=
  if negb (ToBoolean id) then Failed "Missing id"
  else
    match pg_key h id with
    | None => Raised
    | Some k =>
        match select_customer k st with
        | [] => Failed "Customer not found"
        | c :: _ =>
            let orders := select_orders_of k st in
            let orderDetails :=
              map (fun o => (o, select_items (o_id o) st)) orders in
            Found (c, orderDetails)
        end
    end.

(** [app.get("/api/customer-orders", ...)] *)
Definition customer_orders (id : value) (st : store) : result (list order_summary) :=
  if negb (ToBoolean id) then Failed "Missing id"
  else
    match pg_key h id with
    | None => Raised
    | Some k =>
        Found (map (fun o => OrderSummary (o_id o) (o_order_date o) (o_rent_start o)
                                          (o_rent_end o) (o_total o))
                   (select_orders_of k st))
    end.

(** [app.get("/api/order-full-details", ...)] *)
Definition order_full_details (orderId : value) (st : store)
    : result (full_order_row * list order_item) :=
  if negb (ToBoolean orderId) then Failed "Missing orderId"
  else
    match pg_key h orderId with
    | None => Raised
    | Some k =>
        match select_full_order k st with
        | [] => Failed "Order not found"
        | row :: _ => Found (row, select_items k st)
        end
    end.

(** [app.post("/api/update-status", ...)] *)
Definition update_status (body : list (string * value)) (st : store)
    : result unit * store :=
  let customerId := lookup "customerId" body in
  let status := lookup "status" body in
  if negb (ToBoolean customerId) || negb (ToBoolean status)
  then (Failed "Missing fields", st)
  else
    match pg_key h customerId with
    | None => (Raised, st)
    | Some k => (Found tt, set_rent_status status k st)
    end.

(** [app.delete("/api/delete-customer", ...)]: the items of the orders of
    a customer go, then the orders, then the customer, in one
    transaction; the first statement raises for a parameter that the
    store cannot read as a key, and the transaction is rolled back. *)
Definition delete_customer (body : list (string * value)) (st : store)
    : result unit * store :=
  let customerId := lookup "customerId" body in
  if negb (ToBoolean customerId) then (Failed "Missing customerId", st)
  else
    match pg_key h customerId with
    | None => (Raised, st)
    | Some k =>
        (Found tt,
         delete_customer_row k
           (delete_orders_of_customer k (delete_items_of_customer k st)))
    end.

End Handlers.

End Records.

(** ** The vocabulary of the store's integrity *)

Module Integrity.
Import JS Store Orders Invoice Records.

(** Every order has its customer in the table, and every item its
    order. *)
Definition referential (st : store) : Prop :=
  (forall o, In o (orders st) ->
     exists c, In c (customers st) /\ c_id c = o_customer_id o) /\
  (forall it, In it (order_items st) ->
     exists o, In o (orders st) /\ o_id o = i_order_id it).

(** The keys of the rows were handed out by the counters, once each. *)
Definition keys_fresh (st : store) : Prop :=
  Forall (fun c => c_id c < next_customer st) (customers st) /\
  Forall (fun o => o_id o < next_order st) (orders st) /\
  Forall (fun it => i_id it < next_item st) (order_items st) /\
  Forall (fun it => i_order_id it < next_order st) (order_items st).

(** The rows of the three tables, without the counters. *)
Definition tables (st : store)
    : list customer * list order * list order_item :=
  (customers st, orders st, order_items st).

(** A reply of a write handler that reports success. *)
Definition succeeded (r : reply) : bool :=
  match r with
  | Created _ _ | Billed _ _ | Replaced _ => true
  | Refused _ | Thrown => false
  end.

(** Keys in ascending and in descending order. *)
Fixpoint ascending (keys : list Z) : Prop :=
  match keys with
  | [] => True
  | k :: rest => Forall (fun k' => k <= k') rest /\ ascending rest
  end.

Fixpoint descending (keys : list Z) : Prop :=
  match keys with
  | [] => True
  | k :: rest => Forall (fun k' => k' <= k) rest /\ descending rest
  end.

Fixpoint strictly_ascending (keys : list Z) : Prop :=
  match keys with
  | [] => True
  | k :: rest => Forall (fun k' => k < k') rest /\ strictly_ascending rest
  end.

(** What a row says of an item, its keys apart. *)
Definition item_content (row : order_item) : value * value * value * value :=
  (i_product row, i_price row, i_quantity row, i_line_total row).

(** The store is sound: its references resolve and its keys are fresh. *)
Definition sound (st : store) : Prop := referential st /\ keys_fresh st.

(** The counters of a store have not gone back. *)
Definition counters_grow (st st' : store) : Prop :=
  next_customer st <= next_customer st' /\
  next_order st <= next_order st' /\
  next_item st <= next_item st'.

Definition has_customer (id : Z) (st : store) : Prop :=
  exists c, In c (customers st) /\ c_id c = id.

Definition has_order (id : Z) (st : store) : Prop :=
  exists o, In o (orders st) /\ o_id o = id.

(** A store in the course of a transaction that began at [st0]. *)
Definition during (st0 st : store) : Prop := sound st /\ counters_grow st0 st.

(** A run of statements: from a store where [P] holds it ends where [Q]
    holds of what it returns, or raises where [E] holds. *)
Definition runs {A : Type} (P : store -> Prop) (m : tx A)
    (Q : A -> store -> Prop) (E : store -> Prop) : Prop :=
  forall st, P st ->
    match m st with
    | (Some a, st') => Q a st'
    | (None, st') => E st'
    end.

(** An item on which the insert loop raises: it is [null] or a hole, so
    that reading its price throws, or its price or its quantity cannot be
    converted to a number. *)
Definition raises_on (it : value) : bool :=
  match prop it "price", prop it "quantity" with
  | Some p, Some q => unconvertible p || unconvertible q
  | _, _ => true
  end.

(** What the insert loop stores for an item, its keys apart. *)
Definition stored_content (h : host) (it : value)
    : option (value * value * value * value) :=
  match prop it "price", prop it "quantity", prop it "product" with
  | Some p, Some q, Some product =>
      Some (param product, VNum (safeNumber h p), VNum (safeNumber h q),
            VNum (safeNumber h p * safeNumber h q)%float)
  | _, _, _ => None
  end.

End Integrity.

(** ** The service over time *)

Module History.
Import JS Store Orders Invoice Records Spec Layout Integrity.

(** A request that writes, as the service takes it: its body and, for the
    two that create an order, the date and the token drawn for it. *)
Inductive request : Type :=
| NewCustomer (today uuid : string) (body : list (string * value))
| GenerateBill (today uuid : string) (body : list (string * value))
| UpdateOrder (body : list (string * value))
| UpdateStatus (body : list (string * value))
| DeleteCustomer (body : list (string * value)).

(** The store a request leaves. *)
Definition handle (h : host) (st : store) (r : request) : store :=
  match r with
  | NewCustomer today uuid body => snd (new_customer h today uuid body st)
  | GenerateBill today uuid body => snd (generate_bill h today uuid body st)
  | UpdateOrder body => snd (update_order h body st)
  | UpdateStatus body => snd (update_status h body st)
  | DeleteCustomer body => snd (delete_customer h body st)
  end.

(** The store after the requests of a log, served one after another from
    the empty store. *)
Definition serve (h : host) (log : list request) : store :=
  fold_left (handle h) log Store.empty.

(** The replies of each handler that writes in a transaction. *)
Definition is_created (r : reply) : bool :=
  match r with Created _ _ => true | _ => false end.

Definition is_billed (r : reply) : bool :=
  match r with Billed _ _ => true | _ => false end.

Definition is_replaced (r : reply) : bool :=
  match r with Replaced _ => true | _ => false end.

(** What holds of a store between requests: it is sound, the rows of each
    table lie in the order of their keys, every item is as a write handler
    stores it, and every order carries the sum of the line totals of its
    items. *)
Definition consistent (h : host) (st : store) : Prop :=
  sound st /\
  strictly_ascending (map c_id (customers st)) /\
  strictly_ascending (map o_id (orders st)) /\
  strictly_ascending (map i_id (order_items st)) /\
  Forall persisted (order_items st) /\
  (forall o, In o (orders st) ->
     o_total o
     = VNum (sum_numbers (map (line_total_of h) (items_of (o_id o) st)))).

End History.

(** ** Counting the pages *)

Module Paging.
Import Pdf.

(** The page breaks the handler asks for. *)
Definition page_breaks (out : list drawn) : nat :=
  List.length (filter (fun d => match d with NewPage => true | _ => false end) out).

(** How far the cursor moves over [k] turns of the item loop on one
    page: [22 + 8] in the turn and [20 + 18 + 16 + 16 + 30] in its summary
    block. *)
Fixpoint reach (k : nat) : Q :=
  match k with
  | O => 0
  | S k' => 22 + 8 + 20 + 18 + 16 + 16 + 30 + reach k'
  end.

(** From the cursor [y], [k] more rows pass the guard of the loop without
    a page break. *)
Definition has_room (y : Q) (k : nat) : Prop :=
  match k with
  | O => True
  | S k' => (y + reach k' + 50 <= page_height - 60)%Q
  end.

End Paging.

(** ** Worked cases for the handlers *)

Module Cases.
Import JS Store Orders Pdf Invoice Records History.

(** The store once the order of the example is created. *)
Definition asha : store :=
  snd (new_customer Fixture.host "2024-01-01" "tok-1" Fixture.chair_and_table
         Store.empty).

(** A bill for a second customer. *)
Definition ravi_bill : list (string * value) :=
  [ ("name", VStr "Ravi"); ("phone", VStr "9000000002");
    ("address", VStr "Sagara");
    ("items",
     VArr [ VObj [("product", VStr "Stool"); ("price", VNum 30); ("quantity", VNum 2)] ]) ].

Definition asha_and_ravi : store :=
  snd (generate_bill Fixture.host "2024-01-02" "tok-2" ravi_bill asha).

(** Requests whose second item is [null]. *)
Definition holed : list (string * value) :=
  [ ("name", VStr "Mala"); ("phone", VStr "9000000003");
    ("address", VStr "Hosanagara");
    ("items",
     VArr [ VObj [("product", VStr "Chair"); ("price", VNum 50); ("quantity", VNum 4)];
            VNull ]) ].

(** A request whose price is an object that hides [toString]. *)
Definition odd_price : list (string * value) :=
  [ ("name", VStr "Mala"); ("phone", VStr "9000000003");
    ("address", VStr "Hosanagara");
    ("items",
     VArr [ VObj [("product", VStr "Chair"); ("price", VObj [("toString", VNum 1)]);
                  ("quantity", VNum 4)] ]) ].

Definition holed_update : list (string * value) :=
  [ ("orderId", VNum 1);
    ("items",
     VArr [ VObj [("product", VStr "Chair"); ("price", VNum 50); ("quantity", VNum 4)];
            VNull ]) ].

Definition relabel_asha : list (string * value) :=
  [ ("customerId", VNum 1); ("status", VStr "RETURNED") ].

Definition delete_asha : list (string * value) := [ ("customerId", VNum 1) ].




(** A store that begins an unordered [SELECT] at the newest matching row,
    as one does once the older rows were rewritten. *)
Definition newest_first : host :=
  Host (StringToNumber Fixture.host) (NumberToString Fixture.host)
       (dayjs Fixture.host) (dayjs_format Fixture.host) (doc_y_below Fixture.host)
       (pg_key Fixture.host) (sql_eq Fixture.host)
       (fun _ matching => Nat.pred (List.length matching)).

(** Two customers of one phone, as [/api/new-customer] creates them, and
    a bill for that phone. *)
Definition two_ashas : store :=
  snd (new_customer Fixture.host "2024-01-02" "tok-2" Fixture.chair_and_table asha).

Definition asha_k_bill : list (string * value) :=
  [ ("name", VStr "Asha K"); ("phone", VStr "9000000001");
    ("address", VStr "Bhadravathi");
    ("items",
     VArr [ VObj [("product", VStr "Stool"); ("price", VNum 30); ("quantity", VNum 2)] ]) ].

(** The requests that lead to the store of the example, and then on. *)
Definition asha_log : list request :=
  [ NewCustomer "2024-01-01" "tok-1" Fixture.chair_and_table ].

Definition long_log : list request :=
  [ NewCustomer "2024-01-01" "tok-1" Fixture.chair_and_table;
    GenerateBill "2024-01-02" "tok-2" ravi_bill;
    UpdateOrder Fixture.stool_update;
    NewCustomer "2024-01-03" "tok-3" holed;
    UpdateStatus relabel_asha;
    GenerateBill "2024-01-04" "tok-4" Fixture.chair_and_table;
    DeleteCustomer [ ("customerId", VNum 2) ] ].

(** The invoice of order 1 in the store of the example. *)
Definition asha_document : list drawn :=
  match invoice Fixture.host "1" (serve Fixture.host asha_log) with
  | Document _ out => out
  | _ => []
  end.

End Cases.

(** * Properties *)

Import JS Store Orders Pdf Invoice Spec Layout.
Import Records Integrity History Paging.

(** ** Coercion of numbers *)

Lemma is_finite_not_nan (x : float) :
  PrimFloat.is_finite x = true -> PrimFloat.is_nan x = false.
Proof.
  unfold PrimFloat.is_finite. destruct (PrimFloat.is_nan x); simpl; congruence.
Qed.

Lemma safeNumber_finite (h : host) (v : value) :
  PrimFloat.is_finite (safeNumber h v) = true.
Proof.
  unfold safeNumber. destruct (PrimFloat.is_finite (Number h v)) eqn:E.
  - exact E.
  - reflexivity.
Qed.

Lemma safeNumber_not_nan (h : host) (v : value) :
  PrimFloat.is_nan (safeNumber h v) = false.
Proof. apply is_finite_not_nan, safeNumber_finite. Qed.

Lemma safeNumber_of_finite (h : host) (x : float) :
  PrimFloat.is_finite x = true -> safeNumber h (VNum x) = x.
Proof. unfold safeNumber; simpl; intros ->; reflexivity. Qed.

(** One turn of the loop: it raises, before anything is inserted, on an
    item that cannot be read or whose price or quantity cannot be
    converted, and otherwise inserts the row of the item and goes on. *)
Lemma insert_items_step (h : host) (id : Z) (it : value) (rest : list value)
    (total : float) (st : store) :
  insert_items h id (it :: rest) total st
  = match prop it "price", prop it "quantity", prop it "product" with
    | Some p, Some q, Some product =>
        if unconvertible p || unconvertible q then (None, st)
        else
          insert_items h id rest (total + safeNumber h p * safeNumber h q)%float
            (insert_item id product (VNum (safeNumber h p)) (VNum (safeNumber h q))
               (VNum (safeNumber h p * safeNumber h q)%float) st)
    | _, _, _ => (None, st)
    end.
Proof.
  cbn [insert_items]. unfold bind_tx, read, exec, ret_tx, throw, call_safeNumber.
  destruct it; cbn [prop]; try reflexivity;
    repeat match goal with
           | |- context [unconvertible ?v] => destruct (unconvertible v)
           end; reflexivity.
Qed.

Example safeNumber_samples :
  safeNumber Fixture.host (VNum 12.5) = 12.5%float /\
  safeNumber Fixture.host (VStr "40") = 40%float /\
  safeNumber Fixture.host (VStr "forty") = 0%float /\
  safeNumber Fixture.host VUndefined = 0%float /\
  safeNumber Fixture.host VNull = 0%float /\
  safeNumber Fixture.host (VBool true) = 1%float /\
  safeNumber Fixture.host (VNum PrimFloat.infinity) = 0%float /\
  safeNumber Fixture.host (VNum PrimFloat.nan) = 0%float /\
  safeNumber Fixture.host (VObj []) = 0%float /\
  safeNumber Fixture.host (VArr [VNum 7]) = 7%float.
Proof. vm_compute. repeat split. Qed.

(** C3, as stated, fails twice.  A negative price is kept negative: the
    body [{price: -5, quantity: 2}] is stored with price [-5] and line
    total [-10].  And the coercion can raise: for the price
    [{toString: 1}], which a JSON body can carry, [Number] throws a
    [TypeError], [safeNumber] does not catch it, and the handler answers
    with the error and stores nothing. *)
Lemma safeNumber_keeps_negative :
  safeNumber Fixture.host (VNum (-5)) = (-5)%float /\
  PrimFloat.ltb (safeNumber Fixture.host (VNum (-5))) 0 = true /\
  map (fun it => (i_price it, i_line_total it))
      (order_items
         (snd (new_customer Fixture.host "2024-01-01" "tok-1"
                 [ ("name", VStr "Asha"); ("phone", VStr "9000000001");
                   ("address", VStr "Shimoga");
                   ("items", VArr [VObj [("product", VStr "Chair");
                                         ("price", VNum (-5));
                                         ("quantity", VNum 2)]]) ]
                 Store.empty)))
  = [(VNum (-5), VNum (-10))] /\
  call_safeNumber Fixture.host (VObj [("toString", VNum 1)]) = None /\
  call_safeNumber Fixture.host (VArr [VObj [("toString", VNum 1)]]) = None /\
  new_customer Fixture.host "2024-01-01" "tok-1"
    [ ("name", VStr "Asha"); ("phone", VStr "9000000001");
      ("address", VStr "Shimoga");
      ("items", VArr [VObj [("product", VStr "Chair");
                            ("price", VObj [("toString", VNum 1)]);
                            ("quantity", VNum 2)]]) ]
    Store.empty
  = (Thrown, Db [] [] [] 2 2 1).
Proof. vm_compute. repeat split. Qed.

(** C3 (amended): each input of the line amount is coerced by [safeNumber]
    before the product is taken.  The call raises exactly for a value that
    cannot be converted (an object with a property [toString] of its own,
    or an array that holds one); the loop over the items then raises at
    that item, before its row is inserted.  For every other value the call
    returns a finite number: zero when the conversion is [NaN] or
    infinite, and the conversion itself, sign included, otherwise. *)
Theorem safeNumber_finite_or_zero (h : host) (v : value) :
  (unconvertible v = true ->
   call_safeNumber h v = None /\
   forall id it rest total st,
     prop it "price" = Some v \/ prop it "quantity" = Some v ->
     insert_items h id (it :: rest) total st = (None, st)) /\
  (unconvertible v = false ->
   call_safeNumber h v = Some (safeNumber h v) /\
   PrimFloat.is_finite (safeNumber h v) = true /\
   (PrimFloat.is_finite (Number h v) = false -> safeNumber h v = 0%float) /\
   (PrimFloat.is_finite (Number h v) = true -> safeNumber h v = Number h v)).
Proof.
  split; intros U.
  - unfold call_safeNumber. rewrite U. split; [reflexivity|].
    intros id it rest total st P. rewrite insert_items_step.
    destruct (prop it "price") as [p|]; [|reflexivity].
    destruct (prop it "quantity") as [q|]; [|reflexivity].
    destruct (prop it "product") as [product|]; [|reflexivity].
    destruct P as [P|P]; inversion P; subst; rewrite U;
      [|rewrite orb_true_r]; reflexivity.
  - unfold call_safeNumber. rewrite U. split; [reflexivity|].
    split; [apply safeNumber_finite|].
    unfold safeNumber; split; intros ->; reflexivity.
Qed.

Lemma safeNumber_finite_or_zero_witness :
  PrimFloat.is_finite (safeNumber Fixture.host (VStr "forty")) = true /\
  call_safeNumber Fixture.host (VStr "forty") = Some 0%float /\
  call_safeNumber Fixture.host (VNum (-5)) = Some (-5)%float /\
  call_safeNumber Fixture.host (VObj [("toString", VNum 1)]) = None /\
  insert_items Fixture.host 1
    [VObj [("product", VStr "Chair"); ("price", VObj [("toString", VNum 1)]);
           ("quantity", VNum 2)]] 0 Store.empty
  = (None, Store.empty).
Proof.
  destruct (safeNumber_finite_or_zero Fixture.host (VStr "forty")) as (_ & F).
  destruct (safeNumber_finite_or_zero Fixture.host (VNum (-5))) as (_ & K).
  destruct (safeNumber_finite_or_zero Fixture.host (VObj [("toString", VNum 1)]))
    as (T & _).
  destruct (F eq_refl) as (Fc & Ff & Fz & _).
  destruct (K eq_refl) as (Kc & _ & _ & Kn).
  destruct (T eq_refl) as (Tc & Ti).
  split; [exact Ff|].
  split; [rewrite Fc, (Fz eq_refl); reflexivity|].
  split; [rewrite Kc, (Kn eq_refl); reflexivity|].
  split; [exact Tc|].
  apply Ti. left. reflexivity.
Defined.

(** ** The rendered amount of a row *)

(** C10: the rendered amount of a row is its stored line total times the
    day count when that total coerces to a number other than zero; when it
    is absent, not a number, not finite or zero, the amount is the coerced
    price times the coerced quantity times the day count. *)
Theorem amount_of_line_total_or_fallback (h : host) (days : Z) (it : order_item) :
  let line := safeNumber h (i_line_total it) in
  let price := safeNumber h (i_price it) in
  let qty := safeNumber h (i_quantity it) in
  (PrimFloat.is_finite (Number h (i_line_total it)) = false ->
   amount_of h days it = (price * qty * float_of_Z days)%float) /\
  (PrimFloat.is_zero line = true ->
   amount_of h days it = (price * qty * float_of_Z days)%float) /\
  (PrimFloat.is_zero line = false ->
   amount_of h days it = (line * float_of_Z days)%float).
Proof.
  cbv zeta. unfold amount_of, num_or.
  rewrite (safeNumber_not_nan h (i_line_total it)), orb_false_r.
  repeat split.
  - intros E. unfold safeNumber at 1. rewrite E. reflexivity.
  - intros ->. reflexivity.
  - intros ->. reflexivity.
Qed.

Lemma amount_of_line_total_or_fallback_witness :
  amount_of Fixture.host 3 (OrderItem 1 1 (VStr "Chair") (VNum 50) (VNum 4) VNull)
  = 600%float /\
  amount_of Fixture.host 3 (OrderItem 1 1 (VStr "Chair") (VNum 50) (VNum 4) (VNum 0))
  = 600%float /\
  amount_of Fixture.host 3 (OrderItem 1 1 (VStr "Chair") (VNum 50) (VNum 4) (VStr "150"))
  = 450%float.
Proof.
  pose proof (amount_of_line_total_or_fallback Fixture.host 3
                (OrderItem 1 1 (VStr "Chair") (VNum 50) (VNum 4) VNull)) as (_ & A & _).
  pose proof (amount_of_line_total_or_fallback Fixture.host 3
                (OrderItem 1 1 (VStr "Chair") (VNum 50) (VNum 4) (VNum 0))) as (_ & B & _).
  pose proof (amount_of_line_total_or_fallback Fixture.host 3
                (OrderItem 1 1 (VStr "Chair") (VNum 50) (VNum 4) (VStr "150"))) as (_ & _ & C).
  split; [|split].
  - rewrite A; reflexivity.
  - rewrite B; reflexivity.
  - rewrite C; reflexivity.
Defined.

(** ** The day count *)

Lemma daysCount_at_least_one (h : host) (rent_start rent_end : value) :
  1 <= daysCount h rent_start rent_end.
Proof.
  unfold daysCount.
  destruct (ToBoolean rent_start && ToBoolean rent_end); [|lia].
  destruct (diff_day _ _) as [d|]; [|lia].
  cbv zeta. destruct (d + 1 >? 0) eqn:E; lia.
Qed.

Example daysCount_samples :
  daysCount Fixture.host (VStr "2024-01-01") (VStr "2024-01-03") = 3 /\
  daysCount Fixture.host (VStr "2024-01-05") (VStr "2024-01-05") = 1 /\
  daysCount Fixture.host (VStr "2024-01-03") (VStr "2024-01-01") = 1 /\
  daysCount Fixture.host (VStr "2024-02-28") (VStr "2024-03-01") = 3 /\
  daysCount Fixture.host VNull VNull = 1 /\
  daysCount Fixture.host (VStr "2024-01-01") VNull = 1 /\
  daysCount Fixture.host (VStr "soon") (VStr "2024-01-03") = 1.
Proof. vm_compute. repeat split. Qed.

(** C2: the day count is 1 when the start or the end of the rental is
    absent; otherwise it is the whole days from start to end plus one, and 1
    when that is zero or less (or when a date does not parse).  The same
    date twice gives 1, and an end two days after the start gives 3, as
    2024-01-01 to 2024-01-03 does. *)
Theorem daysCount_spec (h : host) (rent_start rent_end : value) :
  (ToBoolean rent_start = false \/ ToBoolean rent_end = false ->
   daysCount h rent_start rent_end = 1) /\
  (forall s e : Z,
     ToBoolean rent_start = true -> ToBoolean rent_end = true ->
     dayjs h rent_start = Some s -> dayjs h rent_end = Some e ->
     let diff := Z.quot (e - s) MILLISECONDS_A_DAY + 1 in
     (0 < diff -> daysCount h rent_start rent_end = diff) /\
     (diff <= 0 -> daysCount h rent_start rent_end = 1) /\
     (e = s + 2 * MILLISECONDS_A_DAY -> daysCount h rent_start rent_end = 3)) /\
  (dayjs h rent_start = None \/ dayjs h rent_end = None ->
   daysCount h rent_start rent_end = 1) /\
  daysCount h rent_start rent_start = 1 /\
  1 <= daysCount h rent_start rent_end /\
  daysCount Fixture.host (VStr "2024-01-01") (VStr "2024-01-01") = 1 /\
  daysCount Fixture.host (VStr "2024-01-01") (VStr "2024-01-03") = 3.
Proof.
  split; [|split; [|split; [|split; [|split; [|split]]]]].
  - unfold daysCount. intros [-> | ->]; [reflexivity|].
    rewrite andb_false_r. reflexivity.
  - intros s e Ts Te Ds De. cbv zeta. unfold daysCount.
    rewrite Ts, Te, Ds, De. simpl andb. cbv iota. unfold diff_day. cbv zeta.
    repeat split.
    + intros P. destruct (Z.quot (e - s) MILLISECONDS_A_DAY + 1 >? 0) eqn:E; lia.
    + intros P. destruct (Z.quot (e - s) MILLISECONDS_A_DAY + 1 >? 0) eqn:E; lia.
    + intros ->. replace (s + 2 * MILLISECONDS_A_DAY - s) with (2 * MILLISECONDS_A_DAY) by lia.
      rewrite Z.quot_mul by (unfold MILLISECONDS_A_DAY; lia). reflexivity.
  - unfold daysCount. destruct (ToBoolean rent_start && ToBoolean rent_end); [|reflexivity].
    intros [-> | ->]; [destruct (dayjs h rent_end); reflexivity | reflexivity].
  - unfold daysCount. destruct (ToBoolean rent_start && ToBoolean rent_start); [|reflexivity].
    destruct (dayjs h rent_start) as [s|]; [|reflexivity]. simpl.
    rewrite Z.sub_diag. reflexivity.
  - apply daysCount_at_least_one.
  - reflexivity.
  - reflexivity.
Qed.

Lemma daysCount_spec_witness :
  daysCount Fixture.host (VStr "2024-03-10") (VStr "2024-03-14") = 5 /\
  daysCount Fixture.host (VStr "2024-03-14") (VStr "2024-03-10") = 1 /\
  daysCount Fixture.host VNull (VStr "2024-03-10") = 1 /\
  daysCount Fixture.host (VStr "someday") (VStr "2024-03-10") = 1.
Proof.
  pose proof (daysCount_spec Fixture.host (VStr "2024-03-10") (VStr "2024-03-14"))
    as (_ & A & _).
  pose proof (daysCount_spec Fixture.host (VStr "2024-03-14") (VStr "2024-03-10"))
    as (_ & B & _).
  pose proof (daysCount_spec Fixture.host VNull (VStr "2024-03-10")) as (C & _).
  pose proof (daysCount_spec Fixture.host (VStr "someday") (VStr "2024-03-10"))
    as (_ & _ & D & _).
  split; [|split; [|split]].
  - apply (A 1710028800000 1710374400000); reflexivity.
  - apply (B 1710374400000 1710028800000); vm_compute; congruence.
  - apply C. left. reflexivity.
  - apply D. left. reflexivity.
Defined.

(** ** The store under the insert loop *)

Lemma rollback_same (st : store) : rollback st st = st.
Proof. destruct st; reflexivity. Qed.

(** The customers selected by phone are those of the table whose phone
    equals the parameter, whichever comes first. *)
Lemma select_customer_by_phone_perm (h : host) (phone : value) (st : store) :
  Permutation (select_customer_by_phone h phone st)
    (map c_id (filter (fun c => sql_eq h (c_phone c) (param phone)) (customers st))).
Proof.
  unfold select_customer_by_phone. cbv zeta.
  set (l := map c_id _). set (n := pg_first h _ l).
  rewrite <- (firstn_skipn n l) at 3. apply Permutation_app_comm.
Qed.

Lemma select_customer_by_phone_in (h : host) (phone : value) (st : store) (id : Z) :
  In id (select_customer_by_phone h phone st) <->
  exists c, In c (customers st) /\ c_id c = id /\
            sql_eq h (c_phone c) (param phone) = true.
Proof.
  split.
  - intros Hin. apply (Permutation_in _ (select_customer_by_phone_perm h phone st)) in Hin.
    apply in_map_iff in Hin. destruct Hin as (c & E & Hc).
    apply filter_In in Hc. exists c. repeat split; [apply Hc | exact E | apply Hc].
  - intros (c & Hc & E & M).
    apply (Permutation_in _ (Permutation_sym (select_customer_by_phone_perm h phone st))).
    apply in_map_iff. exists c. split; [exact E|]. apply filter_In. split; assumption.
Qed.

(** What the loop leaves: the rows of the items, appended in order, and the
    running total moved on by their line totals; no other table changes. *)
Lemma insert_items_spec (h : host) (id : Z) (items : list value) :
  forall total st total' st',
    insert_items h id items total st = (Some total', st') ->
    exists rows,
      order_items st' = (order_items st ++ rows)%list /\
      customers st' = customers st /\ orders st' = orders st /\
      next_customer st' = next_customer st /\ next_order st' = next_order st /\
      Forall2 (stored_as h) items rows /\
      Forall (fun r => i_order_id r = id) rows /\
      total' = fold_left PrimFloat.add (map (line_total_of h) rows) total.
Proof.
  induction items as [|it rest IH]; intros total st total' st' E.
  - inversion E; subst. exists []. rewrite app_nil_r.
    repeat split; constructor.
  - rewrite insert_items_step in E.
    destruct (prop it "price") as [p|] eqn:Ep; [|discriminate].
    destruct (prop it "quantity") as [q|] eqn:Eq; [|discriminate].
    destruct (prop it "product") as [product|] eqn:Epr; [|discriminate].
    destruct (unconvertible p || unconvertible q); [discriminate|].
    apply IH in E. destruct E as (rows & Ei & Ec & Eo & Enc & Eno & F2 & Fid & Et).
    cbn in Ei, Ec, Eo, Enc, Eno.
    eexists (_ :: rows). rewrite Ei, <- app_assoc. cbn [app].
    split; [reflexivity|]. do 4 (split; [assumption|]).
    split; [|split].
    + constructor; [|exact F2]. exists p, q. repeat split; assumption.
    + constructor; [reflexivity | exact Fid].
    + exact Et.
Qed.

(** The loop raises only on an item that is [null] or whose price or
    quantity cannot be converted. *)
Lemma insert_items_total (h : host) (id : Z) (items : list value) :
  Forall (fun it => raises_on it = false) items ->
  forall total st, exists total' st',
    insert_items h id items total st = (Some total', st').
Proof.
  induction 1 as [|it rest R _ IH]; intros total st.
  - exists total, st. reflexivity.
  - rewrite insert_items_step. unfold raises_on in R.
    destruct it; cbn [prop] in *; try discriminate; try apply IH.
    rewrite R. apply IH.
Qed.

Lemma filter_same (id : Z) (rows : list order_item) :
  Forall (fun r => i_order_id r = id) rows ->
  filter (fun it => i_order_id it =? id) rows = rows.
Proof.
  induction 1 as [|r rows Hr _ IH]; [reflexivity|].
  cbn [filter]. rewrite Hr, Z.eqb_refl, IH. reflexivity.
Qed.

Lemma filter_fresh (id : Z) (xs : list order_item) :
  Forall (fun it => i_order_id it < id) xs ->
  filter (fun it => i_order_id it =? id) xs = [].
Proof.
  induction 1 as [|x xs Hx _ IH]; [reflexivity|].
  cbn [filter]. destruct (Z.eqb_spec (i_order_id x) id); [lia | exact IH].
Qed.

Lemma filter_deleted (id : Z) (xs : list order_item) :
  filter (fun it => i_order_id it =? id)
         (filter (fun it => negb (i_order_id it =? id)) xs) = [].
Proof.
  induction xs as [|x xs IH]; [reflexivity|].
  cbn [filter]. destruct (i_order_id x =? id) eqn:E; cbn [negb]; [exact IH|].
  cbn [filter]. rewrite E. exact IH.
Qed.

(** The invariant, from the shape of the tables a write leaves. *)
Lemma total_is_sum_intro (h : host) (items : list value) (id : Z) (st' : store)
    (kept rows : list order_item) (f : order -> order) (os : list order) :
  order_items st' = (kept ++ rows)%list ->
  filter (fun it => i_order_id it =? id) kept = [] ->
  Forall2 (stored_as h) items rows ->
  Forall (fun r => i_order_id r = id) rows ->
  orders st' = map f os ->
  (forall x, o_id (f x) = o_id x) ->
  (forall x, o_id x = id ->
     o_total (f x) = VNum (sum_numbers (map (line_total_of h) rows))) ->
  (exists x, In x os /\ o_id x = id) ->
  total_is_sum h items id st'.
Proof.
  intros Hi Hk F2 Fid Ho Fk Ft (x & Hx & Hid).
  assert (E : items_of id st' = rows).
  { unfold items_of. rewrite Hi, filter_app, Hk, (filter_same _ _ Fid). reflexivity. }
  unfold total_is_sum. rewrite E, Ho. split; [exact F2|]. split.
  - exists (f x). split; [apply in_map, Hx | rewrite Fk; exact Hid].
  - intros o Hin Ho'. apply in_map_iff in Hin. destruct Hin as (x0 & <- & _).
    apply Ft. rewrite <- Fk. exact Ho'.
Qed.

(** ** What a successful write leaves in the store *)

Lemma param_truthy (v : value) : ToBoolean v = true -> param v = v.
Proof. destruct v; try reflexivity; discriminate. Qed.

Lemma param_or_null (v : value) : param (or_else v VNull) = or_else v VNull.
Proof.
  unfold or_else. destruct (ToBoolean v) eqn:T; [apply param_truthy, T | reflexivity].
Qed.

Lemma COALESCE_or_null (v old : value) :
  COALESCE (param (or_else v VNull)) old = patched v old.
Proof.
  unfold or_else, patched. destruct (ToBoolean v) eqn:T; [|reflexivity].
  destruct v; try reflexivity; discriminate.
Qed.

Ltac run_tx :=
  unfold transaction, bind_tx, query, exec, ret_tx, insert_customer, insert_order;
  cbn [fst snd].

Lemma new_customer_created (h : host) (today uuid : string)
    (body : list (string * value)) (st : store) (c o : Z) (st' : store) :
  new_customer h today uuid body st = (Created c o, st') ->
  exists items rows,
    lookup "items" body = VArr items /\
    c = next_customer st /\ o = next_order st /\
    Forall2 (stored_as h) items rows /\
    Forall (fun r => i_order_id r = o) rows /\
    customers st' =
      (customers st ++
         [Customer c (lookup "name" body) (lookup "phone" body)
                   (or_else (lookup "alt_phone" body) VNull)
                   (lookup "address" body) (VStr "ACTIVE")])%list /\
    order_items st' = (order_items st ++ rows)%list /\
    orders st' =
      map (fun x =>
             if o_id x =? o
             then Order (o_id x) (o_invoice_no x) (o_customer_id x) (o_order_date x)
                        (o_rent_start x) (o_rent_end x)
                        (VNum (sum_numbers (map (line_total_of h) rows)))
             else x)
          (orders st ++
             [Order o (VStr uuid) c
                    (param (or_else (lookup "order_date" body) (VStr today)))
                    (param (or_else (lookup "rent_start" body) VNull))
                    (param (or_else (lookup "rent_end" body) VNull))
                    (VNum 0)])%list /\
    ToBoolean (lookup "name" body) = true /\
    ToBoolean (lookup "phone" body) = true /\
    ToBoolean (lookup "address" body) = true.
Proof.
  unfold new_customer. intros E.
  destruct (ToBoolean (lookup "name" body)) eqn:Tn; [|discriminate].
  destruct (ToBoolean (lookup "phone" body)) eqn:Tp; [|discriminate].
  destruct (ToBoolean (lookup "address" body)) eqn:Ta; [|discriminate].
  cbn [negb orb] in E.
  destruct (lookup "items" body) as [| | | | |items|] eqn:Ei; try discriminate.
  destruct items as [|it rest]; [discriminate|].
  revert E. run_tx.
  destruct (insert_items h _ _ _ _) as [[total|] s2] eqn:EI; [|discriminate].
  intros E. inversion E; subst c o st'; clear E.
  apply insert_items_spec in EI.
  destruct EI as (rows & Hi & Hc & Ho & _ & _ & F2 & Fid & Ht).
  cbn in Hi, Hc, Ho.
  exists (it :: rest), rows. unfold set_total. cbn [customers orders order_items].
  rewrite Hi, Hc, Ho, Ht.
  rewrite (param_truthy _ Tn), (param_truthy _ Tp), (param_truthy _ Ta),
    param_or_null.
  repeat split; auto.
Qed.

Lemma generate_bill_billed (h : host) (today uuid : string)
    (body : list (string * value)) (st : store) (o : Z) (inv : value) (st' : store) :
  generate_bill h today uuid body st = (Billed o inv, st') ->
  exists items rows c,
    lookup "items" body = VArr items /\
    o = next_order st /\
    Forall2 (stored_as h) items rows /\
    Forall (fun r => i_order_id r = o) rows /\
    match select_customer_by_phone h (lookup "phone" body) st with
    | id :: _ =>
        c = id /\
        customers st' =
          map (fun x =>
                 if c_id x =? id
                 then Customer (c_id x) (lookup "name" body) (c_phone x)
                               (or_else (lookup "alt_phone" body) VNull)
                               (lookup "address" body) (c_rent_status x)
                 else x) (customers st)
    | [] =>
        c = next_customer st /\
        customers st' =
          (customers st ++
             [Customer c (lookup "name" body) (lookup "phone" body)
                       (or_else (lookup "alt_phone" body) VNull)
                       (lookup "address" body) (VStr "ACTIVE")])%list
    end /\
    order_items st' = (order_items st ++ rows)%list /\
    orders st' =
      map (fun x =>
             if o_id x =? o
             then Order (o_id x) (o_invoice_no x) (o_customer_id x) (o_order_date x)
                        (o_rent_start x) (o_rent_end x)
                        (VNum (sum_numbers (map (line_total_of h) rows)))
             else x)
          (orders st ++
             [Order o (VStr uuid) c (VStr today)
                    (param (or_else (lookup "rent_start" body) VNull))
                    (param (or_else (lookup "rent_end" body) VNull))
                    (VNum 0)])%list.
Proof.
  unfold generate_bill. intros E.
  destruct (ToBoolean (lookup "name" body)) eqn:Tn; [|discriminate].
  destruct (ToBoolean (lookup "phone" body)) eqn:Tp; [|discriminate].
  destruct (ToBoolean (lookup "address" body)) eqn:Ta; [|discriminate].
  cbn [negb orb] in E.
  destruct (lookup "items" body) as [| | | | |items|] eqn:Ei; try discriminate.
  destruct items as [|it rest]; [discriminate|].
  revert E. run_tx.
  destruct (select_customer_by_phone h (lookup "phone" body) st) as [|id ids] eqn:Es.
  - run_tx.
    destruct (insert_items h _ _ _ _) as [[total|] s2] eqn:EI; [|discriminate].
    intros E. inversion E; subst o inv st'; clear E.
    apply insert_items_spec in EI.
    destruct EI as (rows & Hi & Hc & Ho & _ & _ & F2 & Fid & Ht).
    cbn in Hi, Hc, Ho.
    exists (it :: rest), rows, (next_customer st).
    unfold set_total. cbn [customers orders order_items].
    rewrite Hi, Hc, Ho, Ht.
    rewrite (param_truthy _ Tn), (param_truthy _ Tp), (param_truthy _ Ta),
      param_or_null.
    repeat split; auto.
  - run_tx. unfold update_customer. cbn [orders next_order].
    destruct (insert_items h _ _ _ _) as [[total|] s2] eqn:EI; [|discriminate].
    intros E. inversion E; subst o inv st'; clear E.
    apply insert_items_spec in EI.
    destruct EI as (rows & Hi & Hc & Ho & _ & _ & F2 & Fid & Ht).
    cbn in Hi, Hc, Ho.
    exists (it :: rest), rows, id.
    unfold set_total. cbn [customers orders order_items].
    rewrite Hi, Hc, Ho, Ht.
    rewrite (param_truthy _ Tn), (param_truthy _ Ta), param_or_null.
    repeat split; auto.
Qed.

Lemma update_order_replaced (h : host) (body : list (string * value))
    (st : store) (total : float) (st' : store) :
  update_order h body st = (Replaced total, st') ->
  exists items rows id,
    lookup "items" body = VArr items /\
    pg_key h (lookup "orderId" body) = Some id /\
    (exists o, In o (orders st) /\ o_id o = id) /\
    Forall2 (stored_as h) items rows /\
    Forall (fun r => i_order_id r = id) rows /\
    total = sum_numbers (map (line_total_of h) rows) /\
    customers st' = customers st /\
    order_items st' =
      (filter (fun it => negb (i_order_id it =? id)) (order_items st) ++ rows)%list /\
    orders st' =
      map (fun x =>
             if o_id x =? id
             then Order (o_id x) (o_invoice_no x) (o_customer_id x)
                        (patched (lookup "order_date" body) (o_order_date x))
                        (patched (lookup "rent_start" body) (o_rent_start x))
                        (patched (lookup "rent_end" body) (o_rent_end x))
                        (VNum total)
             else x) (orders st).
Proof.
  unfold update_order. intros E.
  destruct (ToBoolean (lookup "orderId" body)) eqn:To; [|discriminate].
  cbn [negb] in E.
  destruct (lookup "items" body) as [| | | | |items|] eqn:Ei; try discriminate.
  destruct items as [|it rest]; [discriminate|].
  destruct (pg_key h (lookup "orderId" body)) as [id|] eqn:Ek; [|discriminate].
  destruct (select_order_id id st) as [|x xs] eqn:Es; [discriminate|].
  revert E. run_tx. unfold delete_items.
  destruct (insert_items h _ _ _ _) as [[t|] s2] eqn:EI; [|discriminate].
  intros E. inversion E; subst t st'; clear E.
  apply insert_items_spec in EI.
  destruct EI as (rows & Hi & Hc & Ho & _ & _ & F2 & Fid & Ht).
  cbn in Hi, Hc, Ho.
  exists (it :: rest), rows, id.
  unfold update_order_meta. cbn [customers orders order_items].
  rewrite Hi, Hc, Ho.
  repeat split; auto;
    try (apply map_ext; intros x'; rewrite !COALESCE_or_null; reflexivity).
  unfold select_order_id in Es.
  destruct (filter (fun o => o_id o =? id) (orders st)) as [|o os] eqn:Ef;
    [discriminate|].
  assert (M : In o (filter (fun o => o_id o =? id) (orders st)))
    by (rewrite Ef; left; reflexivity).
  apply filter_In in M. destruct M as [M1 M2].
  exists o. split; [exact M1 | apply Z.eqb_eq, M2].
Qed.

(** ** The total of an order *)

Example total_of_chair_and_table :
  let st := snd (new_customer Fixture.host "2024-01-01" "tok-1"
                   Fixture.chair_and_table Store.empty) in
  map o_total (orders st) = [VNum 400] /\
  map i_line_total (items_of 1 st) = [VNum 200; VNum 200] /\
  sum_numbers (map (line_total_of Fixture.host) (items_of 1 st)) = 400%float.
Proof. vm_compute. repeat split. Qed.

(** C1: after a successful [/api/new-customer], [/api/generate-bill] or
    [/api/update-order], the rows of the order's items hold the items of the
    request, each with its coerced price, its coerced quantity and their
    product as line total (no day count enters), and the total on the order
    row is the sum of those line totals. *)
Theorem order_total_is_sum_of_line_totals (h : host) (today uuid : string)
    (body : list (string * value)) (st : store) :
  keys_in_use st ->
  (forall customerId orderId st',
     new_customer h today uuid body st = (Created customerId orderId, st') ->
     total_is_sum h (request_items body) orderId st') /\
  (forall orderId invoiceNo st',
     generate_bill h today uuid body st = (Billed orderId invoiceNo, st') ->
     total_is_sum h (request_items body) orderId st') /\
  (forall total st',
     update_order h body st = (Replaced total, st') ->
     exists orderId,
       pg_key h (lookup "orderId" body) = Some orderId /\
       total_is_sum h (request_items body) orderId st' /\
       total = sum_numbers (map (line_total_of h) (items_of orderId st'))).
Proof.
  intros [Ko Ki]. split; [|split].
  - intros c o st' E. apply new_customer_created in E.
    destruct E as (items & rows & Ei & _ & -> & F2 & Fid & _ & Hi & Ho & _).
    unfold request_items. rewrite Ei.
    eapply total_is_sum_intro; try eassumption.
    + apply filter_fresh, Ki.
    + intros x. cbv beta. destruct (o_id x =? next_order st); reflexivity.
    + intros x Hx. cbv beta. rewrite Hx, Z.eqb_refl. reflexivity.
    + eexists. split; [apply in_or_app; right; left; reflexivity | reflexivity].
  - intros o inv st' E. apply generate_bill_billed in E.
    destruct E as (items & rows & c & Ei & -> & F2 & Fid & _ & Hi & Ho).
    unfold request_items. rewrite Ei.
    eapply total_is_sum_intro; try eassumption.
    + apply filter_fresh, Ki.
    + intros x. cbv beta. destruct (o_id x =? next_order st); reflexivity.
    + intros x Hx. cbv beta. rewrite Hx, Z.eqb_refl. reflexivity.
    + eexists. split; [apply in_or_app; right; left; reflexivity | reflexivity].
  - intros total st' E. apply update_order_replaced in E.
    destruct E as (items & rows & id & Ei & Ek & Hex & F2 & Fid & Ht & _ & Hi & Ho).
    exists id. split; [exact Ek|].
    assert (T : total_is_sum h (request_items body) id st').
    { unfold request_items. rewrite Ei.
      eapply total_is_sum_intro; try eassumption.
      - apply filter_deleted.
      - intros x. cbv beta. destruct (o_id x =? id); reflexivity.
      - intros x Hx. cbv beta. rewrite Hx, Z.eqb_refl. cbn [o_total]. rewrite Ht.
        reflexivity. }
    split; [exact T|].
    unfold items_of. rewrite Hi, filter_app, filter_deleted, (filter_same _ _ Fid).
    exact Ht.
Qed.

Lemma order_total_is_sum_of_line_totals_witness :
  total_is_sum Fixture.host (request_items Fixture.chair_and_table) 1
    (snd (new_customer Fixture.host "2024-01-01" "tok-1"
            Fixture.chair_and_table Store.empty)) /\
  total_is_sum Fixture.host (request_items Fixture.chair_and_table) 1
    (snd (generate_bill Fixture.host "2024-01-01" "tok-1"
            Fixture.chair_and_table Store.empty)) /\
  total_is_sum Fixture.host (request_items Fixture.stool_update) 1
    (snd (update_order Fixture.host Fixture.stool_update
            (snd (new_customer Fixture.host "2024-01-01" "tok-1"
                    Fixture.chair_and_table Store.empty)))).
Proof.
  assert (K : keys_in_use Store.empty) by (split; constructor).
  destruct (order_total_is_sum_of_line_totals Fixture.host "2024-01-01" "tok-1"
              Fixture.chair_and_table Store.empty K) as (N & G & _).
  split; [|split].
  - apply (N 1 1). vm_compute. reflexivity.
  - apply (G 1 (VStr "tok-1")). vm_compute. reflexivity.
  - assert (K1 : keys_in_use
                   (snd (new_customer Fixture.host "2024-01-01" "tok-1"
                           Fixture.chair_and_table Store.empty)))
      by (vm_compute; split; repeat constructor).
    destruct (order_total_is_sum_of_line_totals Fixture.host "2024-01-01" "tok-1"
                Fixture.stool_update _ K1) as (_ & _ & U).
    destruct (U 60%float
                (snd (update_order Fixture.host Fixture.stool_update
                        (snd (new_customer Fixture.host "2024-01-01" "tok-1"
                                Fixture.chair_and_table Store.empty)))))
      as (id & Ek & T & _); [vm_compute; reflexivity|].
    vm_compute in Ek. inversion Ek; subst id. exact T.
Defined.

(** ** Replacing the items of an order that is not there *)

Lemma existsb_false_filter {A} (f : A -> bool) (l : list A) :
  existsb f l = false -> filter f l = [].
Proof.
  induction l as [|x l IH]; [reflexivity|].
  cbn. destruct (f x); [discriminate | exact IH].
Qed.

(** C4, as stated, fails: for a key that no order has, a request without
    items is refused by the guard on the items, and one whose [orderId] is
    zero by the guard on the key; and for an [orderId] that the store
    cannot read as a key, as ["abc"], the lookup raises and the handler
    answers with the error.  None of these replies is the not-found one. *)
Lemma update_order_unknown_key_guarded :
  resolves Fixture.host [("orderId", VNum 999); ("items", VArr [])] Store.empty
  = false /\
  update_order Fixture.host [("orderId", VNum 999); ("items", VArr [])] Store.empty
  = (Refused "No items provided", Store.empty) /\
  resolves Fixture.host
    [("orderId", VNum 0);
     ("items", VArr [VObj [("product", VStr "Chair"); ("price", VNum 50);
                           ("quantity", VNum 4)]])] Store.empty
  = false /\
  update_order Fixture.host
    [("orderId", VNum 0);
     ("items", VArr [VObj [("product", VStr "Chair"); ("price", VNum 50);
                           ("quantity", VNum 4)]])] Store.empty
  = (Refused "Missing orderId", Store.empty) /\
  resolves Fixture.host
    [("orderId", VStr "abc");
     ("items", VArr [VObj [("product", VStr "Chair"); ("price", VNum 50);
                           ("quantity", VNum 4)]])] Store.empty
  = false /\
  update_order Fixture.host
    [("orderId", VStr "abc");
     ("items", VArr [VObj [("product", VStr "Chair"); ("price", VNum 50);
                           ("quantity", VNum 4)]])] Store.empty
  = (Thrown, Store.empty).
Proof. vm_compute. repeat split. Qed.

(** C4 (amended): a call of [/api/update-order] whose [orderId] is the key
    of no order changes nothing in the store (no item is deleted or
    inserted and no order row changes) and answers with a failure.  When
    the request passes the guards (an [orderId] that is not falsy, items
    that are a non-empty array) and the store reads the [orderId] as a key,
    the failure is the not-found one; when the store cannot read it as a
    key the lookup raises and the failure is the error of the store; when
    a guard fails the failure is that of the guard. *)
Theorem update_order_unknown_key (h : host) (body : list (string * value))
    (st : store) :
  resolves h body st = false ->
  snd (update_order h body st) = st /\
  succeeded (fst (update_order h body st)) = false /\
  (well_formed_update body = true ->
   (forall id, pg_key h (lookup "orderId" body) = Some id ->
               fst (update_order h body st) = Refused "Order not found") /\
   (pg_key h (lookup "orderId" body) = None ->
    fst (update_order h body st) = Thrown)) /\
  (well_formed_update body = false ->
   fst (update_order h body st) = Refused "Missing orderId" \/
   fst (update_order h body st) = Refused "No items provided").
Proof.
  unfold resolves, well_formed_update, update_order. intros R.
  destruct (ToBoolean (lookup "orderId" body)); cbn [negb andb fst snd].
  2:{ repeat split; try discriminate. left. reflexivity. }
  destruct (lookup "items" body) as [| | | | |items|];
    try (repeat split; try discriminate; right; reflexivity).
  destruct items as [|it rest];
    [repeat split; try discriminate; right; reflexivity|].
  destruct (pg_key h (lookup "orderId" body)) as [id|].
  - unfold select_order_id. rewrite (existsb_false_filter _ _ R). cbn [map firstn].
    rewrite rollback_same. repeat split; discriminate.
  - rewrite rollback_same. repeat split; discriminate.
Qed.

Lemma update_order_unknown_key_witness :
  snd (update_order Fixture.host
         [("orderId", VNum 999);
          ("items", VArr [VObj [("product", VStr "Chair"); ("price", VNum 50);
                                ("quantity", VNum 4)]])]
         (snd (new_customer Fixture.host "2024-01-01" "tok-1"
                 Fixture.chair_and_table Store.empty)))
  = snd (new_customer Fixture.host "2024-01-01" "tok-1"
           Fixture.chair_and_table Store.empty) /\
  fst (update_order Fixture.host
         [("orderId", VNum 999);
          ("items", VArr [VObj [("product", VStr "Chair"); ("price", VNum 50);
                                ("quantity", VNum 4)]])]
         (snd (new_customer Fixture.host "2024-01-01" "tok-1"
                 Fixture.chair_and_table Store.empty)))
  = Refused "Order not found" /\
  fst (update_order Fixture.host
         [("orderId", VStr "abc");
          ("items", VArr [VObj [("product", VStr "Chair"); ("price", VNum 50);
                                ("quantity", VNum 4)]])]
         (snd (new_customer Fixture.host "2024-01-01" "tok-1"
                 Fixture.chair_and_table Store.empty)))
  = Thrown.
Proof.
  pose proof (update_order_unknown_key Fixture.host
                [("orderId", VNum 999);
                 ("items", VArr [VObj [("product", VStr "Chair"); ("price", VNum 50);
                                       ("quantity", VNum 4)]])]
                (snd (new_customer Fixture.host "2024-01-01" "tok-1"
                        Fixture.chair_and_table Store.empty))) as W.
  pose proof (update_order_unknown_key Fixture.host
                [("orderId", VStr "abc");
                 ("items", VArr [VObj [("product", VStr "Chair"); ("price", VNum 50);
                                       ("quantity", VNum 4)]])]
                (snd (new_customer Fixture.host "2024-01-01" "tok-1"
                        Fixture.chair_and_table Store.empty))) as V.
  destruct W as (A & _ & B & _); [vm_compute; reflexivity|].
  destruct V as (_ & _ & C & _); [vm_compute; reflexivity|].
  split; [exact A|].
  split; [exact (proj1 (B eq_refl) 999 eq_refl) | exact (proj2 (C eq_refl) eq_refl)].
Defined.

(** ** Patching the dates of an order *)

Lemma patched_is_date_patched (supplied old : value) :
  date_patched supplied old (patched supplied old).
Proof.
  unfold date_patched, patched. repeat split.
  - intros ->. reflexivity.
  - destruct (ToBoolean supplied); [reflexivity | congruence].
  - destruct (ToBoolean supplied); [reflexivity | congruence].
  - intros ->. reflexivity.
Qed.

Example only_rent_end_supplied :
  let st := snd (new_customer Fixture.host "2024-01-01" "tok-1"
                   Fixture.chair_and_table Store.empty) in
  map (fun o => (o_order_date o, o_rent_start o, o_rent_end o, o_total o))
      (orders st)
  = [(VStr "2024-01-01", VStr "2024-01-01", VStr "2024-01-03", VNum 400)] /\
  fst (update_order Fixture.host Fixture.stool_update st) = Replaced 60 /\
  map (fun o => (o_order_date o, o_rent_start o, o_rent_end o, o_total o))
      (orders (snd (update_order Fixture.host Fixture.stool_update st)))
  = [(VStr "2024-01-01", VStr "2024-01-01", VStr "2024-01-09", VNum 60)].
Proof. vm_compute. repeat split. Qed.

(** C5: a successful [/api/update-order] leaves every order row but the
    one of the key as it was; on that row the total is rewritten, and each
    of the order date, the rental start and the rental end is kept when the
    request leaves it out and changes only to a value the request
    supplies. *)
Theorem update_order_patches_dates (h : host) (body : list (string * value))
    (st : store) (total : float) (st' : store) :
  update_order h body st = (Replaced total, st') ->
  exists id,
    pg_key h (lookup "orderId" body) = Some id /\
    (exists old, In old (orders st) /\ o_id old = id) /\
    Forall2 (order_patched body id total) (orders st) (orders st').
Proof.
  intros E. apply update_order_replaced in E.
  destruct E as (items & rows & id & _ & Ek & Hex & _ & _ & _ & _ & _ & Ho).
  exists id. split; [exact Ek|]. split; [exact Hex|].
  rewrite Ho. clear. induction (orders st) as [|x xs IH]; [constructor|].
  cbn [map]. constructor; [|exact IH].
  unfold order_patched. destruct (o_id x =? id); [|reflexivity].
  cbn [o_id o_invoice_no o_customer_id o_order_date o_rent_start o_rent_end o_total].
  do 3 (split; [reflexivity|]).
  do 3 (split; [apply patched_is_date_patched|]). reflexivity.
Qed.

Lemma update_order_patches_dates_witness :
  exists id,
    Fixture.key_of (VNum 1) = Some id /\
    (exists old,
       In old (orders (snd (new_customer Fixture.host "2024-01-01" "tok-1"
                              Fixture.chair_and_table Store.empty))) /\
       o_id old = id) /\
    Forall2
      (order_patched Fixture.stool_update id 60)
      (orders (snd (new_customer Fixture.host "2024-01-01" "tok-1"
                      Fixture.chair_and_table Store.empty)))
      (orders (snd (update_order Fixture.host Fixture.stool_update
                      (snd (new_customer Fixture.host "2024-01-01" "tok-1"
                              Fixture.chair_and_table Store.empty))))).
Proof.
  apply (update_order_patches_dates Fixture.host Fixture.stool_update
           (snd (new_customer Fixture.host "2024-01-01" "tok-1"
                   Fixture.chair_and_table Store.empty))
           60).
  vm_compute. reflexivity.
Defined.

(** ** The customer of a new order *)

Example same_phone_twice :
  let st1 := snd (new_customer Fixture.host "2024-01-01" "tok-1"
                    Fixture.chair_and_table Store.empty) in
  let again := [ ("name", VStr "Asha K"); ("phone", VStr "9000000001");
                 ("address", VStr "Bhadravathi");
                 ("items", VArr [VObj [("product", VStr "Stool"); ("price", VNum 30);
                                       ("quantity", VNum 2)]]) ] in
  map (fun c => (c_id c, c_name c, c_phone c))
      (customers (snd (new_customer Fixture.host "2024-01-02" "tok-2" again st1)))
  = [(1, VStr "Asha", VStr "9000000001"); (2, VStr "Asha K", VStr "9000000001")] /\
  map (fun c => (c_id c, c_name c, c_phone c, c_address c))
      (customers (snd (generate_bill Fixture.host "2024-01-02" "tok-2" again st1)))
  = [(1, VStr "Asha K", VStr "9000000001", VStr "Bhadravathi")] /\
  map (fun c => (c_id c, c_name c))
      (customers (snd (generate_bill Fixture.host "2024-01-02" "tok-2" again
                         Store.empty)))
  = [(1, VStr "Asha K")].
Proof. vm_compute. repeat split. Qed.

(** C7: a successful [/api/new-customer] always appends a customer row,
    whatever phone numbers the table already holds; a successful
    [/api/generate-bill] selects the customers whose phone equals the one
    supplied and, when there is one, rewrites the name, the alternate phone
    and the address on the row of one of them (the one the store lists
    first: the statement does not order them) and appends nothing; when
    there is none it appends a row. *)
Theorem customer_resolution_policies (h : host) (today uuid : string)
    (body : list (string * value)) (st : store) :
  (forall customerId orderId st',
     new_customer h today uuid body st = (Created customerId orderId, st') ->
     customerId = next_customer st /\
     customers st' =
       (customers st ++
          [Customer customerId (lookup "name" body) (lookup "phone" body)
                    (or_else (lookup "alt_phone" body) VNull)
                    (lookup "address" body) (VStr "ACTIVE")])%list) /\
  (forall orderId invoiceNo st',
     generate_bill h today uuid body st = (Billed orderId invoiceNo, st') ->
     match select_customer_by_phone h (lookup "phone" body) st with
     | id :: _ =>
         (exists c, In c (customers st) /\ c_id c = id /\
                    sql_eq h (c_phone c) (param (lookup "phone" body)) = true) /\
         List.length (customers st') = List.length (customers st) /\
         customers st' =
           map (fun c =>
                  if c_id c =? id
                  then Customer (c_id c) (lookup "name" body) (c_phone c)
                                (or_else (lookup "alt_phone" body) VNull)
                                (lookup "address" body) (c_rent_status c)
                  else c) (customers st)
     | [] =>
         (forall c, In c (customers st) ->
                    sql_eq h (c_phone c) (param (lookup "phone" body)) = false) /\
         customers st' =
           (customers st ++
              [Customer (next_customer st) (lookup "name" body) (lookup "phone" body)
                        (or_else (lookup "alt_phone" body) VNull)
                        (lookup "address" body) (VStr "ACTIVE")])%list
     end).
Proof.
  split.
  - intros c o st' E. apply new_customer_created in E.
    destruct E as (items & rows & _ & Hc & _ & _ & _ & Hcs & _).
    split; assumption.
  - intros o inv st' E. apply generate_bill_billed in E.
    destruct E as (items & rows & c & _ & _ & _ & _ & Hcs & _).
    pose proof (select_customer_by_phone_in h (lookup "phone" body) st) as M.
    destruct (select_customer_by_phone h (lookup "phone" body) st) as [|id ids].
    + destruct Hcs as [-> Hcs]. split; [|exact Hcs].
      intros x Hx.
      destruct (sql_eq h (c_phone x) (param (lookup "phone" body))) eqn:Ex;
        [|reflexivity].
      destruct (proj2 (M (c_id x))).
      exists x. repeat split; assumption.
    + destruct Hcs as [_ Hcs].
      split; [apply M; left; reflexivity|].
      rewrite Hcs, length_map. split; reflexivity.
Qed.

Lemma customer_resolution_policies_witness :
  customers (snd (new_customer Fixture.host "2024-01-02" "tok-2"
                    Fixture.chair_and_table
                    (snd (new_customer Fixture.host "2024-01-01" "tok-1"
                            Fixture.chair_and_table Store.empty))))
  = [ Customer 1 (VStr "Asha") (VStr "9000000001") VNull (VStr "Shimoga")
               (VStr "ACTIVE");
      Customer 2 (VStr "Asha") (VStr "9000000001") VNull (VStr "Shimoga")
               (VStr "ACTIVE") ] /\
  customers (snd (generate_bill Fixture.host "2024-01-02" "tok-2"
                    Fixture.chair_and_table
                    (snd (new_customer Fixture.host "2024-01-01" "tok-1"
                            Fixture.chair_and_table Store.empty))))
  = [ Customer 1 (VStr "Asha") (VStr "9000000001") VNull (VStr "Shimoga")
               (VStr "ACTIVE") ] /\
  customers (snd (generate_bill Cases.newest_first "2024-01-03" "tok-3"
                    Cases.asha_k_bill Cases.two_ashas))
  = [ Customer 1 (VStr "Asha") (VStr "9000000001") VNull (VStr "Shimoga")
               (VStr "ACTIVE");
      Customer 2 (VStr "Asha K") (VStr "9000000001") VNull (VStr "Bhadravathi")
               (VStr "ACTIVE") ].
Proof.
  destruct (customer_resolution_policies Fixture.host "2024-01-02" "tok-2"
              Fixture.chair_and_table
              (snd (new_customer Fixture.host "2024-01-01" "tok-1"
                      Fixture.chair_and_table Store.empty))) as [N G].
  destruct (customer_resolution_policies Cases.newest_first "2024-01-03" "tok-3"
              Cases.asha_k_bill Cases.two_ashas) as [_ G2].
  split; [|split].
  - destruct (N 2 2 (snd (new_customer Fixture.host "2024-01-02" "tok-2"
                            Fixture.chair_and_table
                            (snd (new_customer Fixture.host "2024-01-01" "tok-1"
                                    Fixture.chair_and_table Store.empty)))))
      as [_ K]; [vm_compute; reflexivity|].
    rewrite K. vm_compute. reflexivity.
  - pose proof (G 2 (VStr "tok-2")
                  (snd (generate_bill Fixture.host "2024-01-02" "tok-2"
                          Fixture.chair_and_table
                          (snd (new_customer Fixture.host "2024-01-01" "tok-1"
                                  Fixture.chair_and_table Store.empty)))))
      as K.
    vm_compute in K. vm_compute. apply K. reflexivity.
  - pose proof (G2 3 (VStr "tok-3")
                   (snd (generate_bill Cases.newest_first "2024-01-03" "tok-3"
                           Cases.asha_k_bill Cases.two_ashas))) as K.
    vm_compute in K. vm_compute. apply K. reflexivity.
Defined.

(** ** One turn of the item loop *)

Ltac run_pdf :=
  cbn [bind_pdf ret_pdf setFont setFontSize setFillColor set_style strokeColor
       lineWidth moveTo lineTo rect stroke text text_centred text_flow_centred
       moveDown addPage fst snd app map g_style g_strokeColor g_lineWidth g_pen
       g_path font fontSize fillColor].


Lemma row_clears_the_page (y : Q) :
  Qle_bool (y + 50) (page_height - 60) = true -> (y + 50 <= page_height - 60)%Q.
Proof. apply Qle_bool_iff. Qed.

Lemma top_row_clears_the_page : (40 + 25 + 50 <= page_height - 60)%Q.
Proof. apply Qle_bool_iff. reflexivity. Qed.

(** A turn draws the page break when the row does not fit, then the row,
    its rule and its summary, and leaves the state it found. *)
Lemma item_run (h : host) (days : Z) (it : order_item) (y : Q) (grand : float)
    (g : gstate) :
  between_rows g ->
  exists y' before,
    value_of (item h days it y grand) g
    = (below y', (grand + amount_of h days it)%float) /\
    drawn_by (item h days it y grand) g
    = (before ++ item_drawn h days it y' (g_lineWidth g))%list /\
    between_rows (state_after (item h days it y grand) g) /\
    g_lineWidth (state_after (item h days it y grand) g) = g_lineWidth g /\
    (y' + 50 <= page_height - 60)%Q /\
    ((Qle_bool (y + 50) (page_height - 60) = true /\ y' = y /\ before = []) \/
     (Qle_bool (y + 50) (page_height - 60) = false /\ y' = (40 + 25)%Q /\
      before = break_drawn (g_lineWidth g))).
Proof.
  intros [Hs Hp]. destruct g as [s sc w pen path]. cbn in Hs, Hp. subst s path.
  unfold value_of, drawn_by, state_after, item, page_break.
  destruct (Qle_bool (y + 50) (page_height - 60)) eqn:E; cbn [negb].
  - exists y, []. unfold print_row, summary. run_pdf.
    repeat split. + apply row_clears_the_page, E. + left. repeat split.
  - exists (40 + 25)%Q, (break_drawn w).
    unfold print_row, summary, column_headers. run_pdf.
    repeat split. + apply top_row_clears_the_page. + right. repeat split.
Qed.

(** ** The item loop *)

Lemma drawn_by_bind {A B} (m : pdf A) (k : A -> pdf B) (g : gstate) :
  drawn_by (bind_pdf m k) g
  = (drawn_by m g ++ drawn_by (k (value_of m g)) (state_after m g))%list.
Proof.
  unfold drawn_by, value_of, state_after, bind_pdf.
  destruct (m g) as [[a g1] o1]. cbn [fst snd].
  destruct (k a g1) as [[b g2] o2]. reflexivity.
Qed.

Lemma value_of_bind {A B} (m : pdf A) (k : A -> pdf B) (g : gstate) :
  value_of (bind_pdf m k) g = value_of (k (value_of m g)) (state_after m g).
Proof.
  unfold value_of, state_after, bind_pdf.
  destruct (m g) as [[a g1] o1]. cbn [fst snd].
  destruct (k a g1) as [[b g2] o2]. reflexivity.
Qed.

Lemma state_after_bind {A B} (m : pdf A) (k : A -> pdf B) (g : gstate) :
  state_after (bind_pdf m k) g = state_after (k (value_of m g)) (state_after m g).
Proof.
  unfold value_of, state_after, bind_pdf.
  destruct (m g) as [[a g1] o1]. cbn [fst snd].
  destruct (k a g1) as [[b g2] o2]. reflexivity.
Qed.

(** The loop draws its items in turn, adds up their amounts, and leaves the
    state it found. *)
Lemma items_loop_run (h : host) (days : Z) (rows : list order_item) :
  forall (y : Q) (grand : float) (g : gstate),
    between_rows g ->
    loop_drawn h days (g_lineWidth g) rows
               (drawn_by (items_loop h days rows y grand) g) /\
    snd (value_of (items_loop h days rows y grand) g)
    = fold_left PrimFloat.add (map (amount_of h days) rows) grand /\
    between_rows (state_after (items_loop h days rows y grand) g) /\
    g_lineWidth (state_after (items_loop h days rows y grand) g) = g_lineWidth g.
Proof.
  induction rows as [|it rest IH]; intros y grand g B.
  - repeat split; try apply B. constructor.
  - cbn [items_loop].
    rewrite drawn_by_bind, value_of_bind, state_after_bind.
    destruct (item_run h days it y grand g B)
      as (y' & before & Ev & Ed & Bs & Ew & Hy & Hb).
    rewrite Ev, Ed. cbn [fst snd map fold_left].
    destruct (IH (below y') (grand + amount_of h days it)%float
                 (state_after (item h days it y grand) g) Bs)
      as (L & V & B' & W').
    rewrite Ew in L, W'. rewrite <- app_assoc.
    repeat split; try assumption; try apply B'.
    constructor; [exact Hy | | exact L].
    destruct Hb as [(_ & _ & ->) | (_ & _ & ->)]; [left | right]; reflexivity.
Qed.

(** ** The document around the loop *)

(** The head of the document: the day count, a first cursor, no page
    break, the column headers, and none of the texts the loop draws. *)
Lemma table_head_run (h : host) (order : order_row) :
  fst (value_of (table_head h order) initial)
  = daysCount h (o_rent_start (o order)) (o_rent_end (o order)) /\
  between_rows (state_after (table_head h order) initial) /\
  g_lineWidth (state_after (table_head h order) initial) = 2 /\
  no_page_break (drawn_by (table_head h order) initial) = true /\
  has_column_headers (drawn_by (table_head h order) initial) /\
  row_lines (drawn_by (table_head h order) initial) = [] /\
  row_sublines (drawn_by (table_head h order) initial) = [] /\
  texts_of_size 16 (drawn_by (table_head h order) initial) = [] /\
  summary_headings (drawn_by (table_head h order) initial) = [] /\
  plain_left_column (drawn_by (table_head h order) initial) = [].
Proof.
  unfold value_of, state_after, drawn_by, table_head, letterhead, column_headers,
    initial.
  run_pdf.
  split; [reflexivity|]. split; [split; reflexivity|]. split; [reflexivity|].
  split; [reflexivity|]. split.
  - eexists _, (_ :: _ :: _ :: _ :: _ :: _ :: _ :: _ :: []), _.
    cbn [app]. unfold header_texts, heading. reflexivity.
  - repeat split.
Qed.

(** The foot of the document: no page break, no row, no summary, and the
    grand total as the one text of 16 points. *)
Lemma closing_run (h : host) (y : Q) (grand : float) (g : gstate) :
  between_rows g ->
  let foot :=
    drawn_by (bind_pdf (total_box h y grand)
                (fun _ => bind_pdf footer (fun _ => ret_pdf grand))) g in
  no_page_break foot = true /\
  row_lines foot = [] /\
  row_sublines foot = [] /\
  texts_of_size 16 foot = ["₹ " ++ toFixed h grand 2] /\
  summary_headings foot = [] /\
  plain_left_column foot = [].
Proof.
  intros [Hs Hp]. destruct g as [s sc w pen path]. cbn in Hs, Hp. subst s path.
  cbv zeta. unfold drawn_by, total_box, footer.
  run_pdf. repeat split.
Qed.

Lemma output_drawn_by {A} (m : pdf A) : output m = drawn_by m initial.
Proof. reflexivity. Qed.

(** The document is its head, what the loop draws, and its foot. *)
Lemma render_run (h : host) (order : order_row) (rows : list order_item) :
  let days := daysCount h (o_rent_start (o order)) (o_rent_end (o order)) in
  let grand := fold_left PrimFloat.add (map (amount_of h days) rows) 0%float in
  exists loop foot,
    output (render h order rows)
    = (drawn_by (table_head h order) initial ++ loop ++ foot)%list /\
    loop_drawn h days 2 rows loop /\
    no_page_break foot = true /\
    row_lines foot = [] /\
    row_sublines foot = [] /\
    texts_of_size 16 foot = ["₹ " ++ toFixed h grand 2] /\
    summary_headings foot = [] /\
    plain_left_column foot = [].
Proof.
  cbv zeta.
  destruct (table_head_run h order) as (Hd & Hb & Hw & _).
  rewrite output_drawn_by.
  unfold render. rewrite drawn_by_bind. cbv zeta. rewrite drawn_by_bind.
  set (g1 := state_after (table_head h order) initial) in *.
  set (dy := value_of (table_head h order) initial) in *.
  destruct (items_loop_run h (fst dy) rows (snd dy) 0%float g1 Hb)
    as (L & V & B & W).
  rewrite Hw in L.
  eexists _, _. split; [reflexivity|]. split; [rewrite <- Hd; exact L|].
  rewrite V, <- Hd.
  apply (closing_run h _ _ _ B).
Qed.

(** ** What the loop draws, read back *)

Lemma loop_has_no_text_of_16 (h : host) (days w : Z) (rows : list order_item)
    (out : list drawn) :
  loop_drawn h days w rows out -> texts_of_size 16 out = [].
Proof.
  induction 1 as [|it rest y before out Hy Hb _ IH]; [reflexivity|].
  unfold texts_of_size in *. rewrite !flat_map_app, IH.
  destruct Hb as [-> | ->]; reflexivity.
Qed.

Lemma loop_headings (h : host) (days w : Z) (rows : list order_item)
    (out : list drawn) :
  loop_drawn h days w rows out ->
  List.length (summary_headings out) = List.length rows.
Proof.
  induction 1 as [|it rest y before out Hy Hb _ IH]; [reflexivity|].
  unfold summary_headings in *. rewrite !filter_app, !length_app, IH.
  destruct Hb as [-> | ->]; reflexivity.
Qed.

Lemma loop_captions (h : host) (days w : Z) (rows : list order_item)
    (out : list drawn) :
  loop_drawn h days w rows out ->
  plain_left_column out = flat_map (item_captions h days) rows.
Proof.
  induction 1 as [|it rest y before out Hy Hb _ IH]; [reflexivity|].
  unfold plain_left_column in *. rewrite !flat_map_app, IH.
  destruct Hb as [-> | ->]; reflexivity.
Qed.

(** ** The grand total *)

Lemma append_assoc (a b c : string) : (a ++ b) ++ c = a ++ (b ++ c).
Proof. induction a as [|ch a IH]; [reflexivity|]. cbn. rewrite IH. reflexivity. Qed.

Lemma digit_is_digit (d : Z) : 0 <= d < 10 -> is_digit (digit d) = true.
Proof.
  intros Hd.
  assert (E : d = 0 \/ d = 1 \/ d = 2 \/ d = 3 \/ d = 4 \/ d = 5 \/ d = 6 \/
              d = 7 \/ d = 8 \/ d = 9) by lia.
  repeat (destruct E as [-> | E]; [reflexivity|]). subst d. reflexivity.
Qed.

Lemma fraction_digits_2 (n : Z) :
  fraction_digits 2 n
  = String (digit ((n / 10) mod 10)) (String (digit (n mod 10)) "").
Proof. reflexivity. Qed.

Lemma finite_is_no_special_value (x : float) :
  PrimFloat.is_finite x = true ->
  Prim2SF x <> S754_nan /\ forall s, Prim2SF x <> S754_infinity s.
Proof.
  unfold PrimFloat.is_finite, Prim2SF. intros F.
  destruct (PrimFloat.is_nan x); [discriminate|].
  destruct (PrimFloat.is_infinity x); [discriminate|].
  destruct (PrimFloat.is_zero x); [split; [|intros s]; discriminate|].
  destruct (Z.frexp x) as [r e].
  destruct (shr_fexp _ _ _ _ _) as [shr e'].
  destruct (shr_m shr); split; try intros s0; discriminate.
Qed.

(** [toFixed(2)] prints a point and two digits last, on a finite number
    below 1e21. *)
Lemma toFixed_two_decimals (h : host) (x : float) :
  PrimFloat.is_finite x = true ->
  (1e21 <=? PrimFloat.abs x)%float = false ->
  two_decimals (toFixed h x 2).
Proof.
  intros F B. destruct (finite_is_no_special_value x F) as [Nn Ni].
  unfold toFixed. destruct (Prim2SF x) as [s| s | |s m e].
  - exists "0", (digit 0), (digit 0). repeat split.
  - destruct (Ni s). reflexivity.
  - destruct Nn. reflexivity.
  - rewrite B. cbv zeta. rewrite fraction_digits_2.
    set (n := if 0 <=? e then _ else _).
    exists ((if s then "-" else "") ++ string_of_Z (n / 10 ^ Z.of_nat 2)),
           (digit ((n / 10) mod 10)), (digit (n mod 10)).
    split; [rewrite append_assoc; reflexivity|].
    split; apply digit_is_digit, Z.mod_pos_bound; lia.
Qed.

Lemma persisted_amount (h : host) (days : Z) (it : order_item) :
  persisted it ->
  amount_of h days it = (Number h (i_line_total it) * float_of_Z days)%float.
Proof.
  intros (p & q & Fp & Fq & Ep & Eq & El).
  unfold amount_of. rewrite Ep, Eq, El.
  rewrite (safeNumber_of_finite h p Fp), (safeNumber_of_finite h q Fq).
  unfold safeNumber, num_or. cbn [Number].
  destruct (PrimFloat.is_finite (p * q)).
  - destruct (PrimFloat.is_zero (p * q) || PrimFloat.is_nan (p * q)); reflexivity.
  - reflexivity.
Qed.

Lemma stored_as_persisted (h : host) (it : value) (row : order_item) :
  stored_as h it row -> persisted row.
Proof.
  intros (p & q & _ & _ & Ep & Eq & El).
  exists (safeNumber h p), (safeNumber h q).
  repeat split; try assumption; apply safeNumber_finite.
Qed.

Lemma persisted_total (h : host) (days : Z) (rows : list order_item) :
  Forall persisted rows ->
  fold_left PrimFloat.add (map (amount_of h days) rows) 0%float
  = rendered_total h days rows.
Proof.
  intros F. unfold rendered_total. f_equal.
  induction F as [|it rest Hit _ IH]; [reflexivity|].
  cbn [map]. rewrite IH, (persisted_amount h days it Hit). reflexivity.
Qed.

Example invoice_of_chair_and_table :
  let st := snd (new_customer Fixture.host "2024-01-01" "tok-1"
                   Fixture.chair_and_table Store.empty) in
  map o_total (orders st) = [VNum 400] /\
  match invoice Fixture.host "1" st with
  | Document name out =>
      name = "invoice-tok-1.pdf" /\
      texts_of_size 16 out = ["₹ 1200.00"] /\
      texts_of_size 12 out
      = [ "9916067960, 8073024022"; "DATE: 01/01/2024"; "CUSTOMER NAME: Asha";
          "PHONE: 9000000001"; "ADDRESS: Shimoga";
          "RENT: 01/01/2024 - 03/01/2024 (3 Days)" ] /\
      plain_left_column out
      = [ "Chair"; "Products Total (Per-day): ₹ 200.00"; "Number of days: 3";
          "Final Total: ₹ 600.00";
          "Table"; "Products Total (Per-day): ₹ 200.00"; "Number of days: 3";
          "Final Total: ₹ 600.00" ]
  | _ => False
  end.
Proof. vm_compute. repeat split. Qed.

(** C6: the text of the total box is the sum, over the rows of the order,
    of the stored line total times the day count, printed by [toFixed(2)]:
    with a point and two digits last whenever the sum is finite and below
    1e21.  It is not the stored total: for the chairs and the table rented
    from 2024-01-01 to 2024-01-03 the store holds 400, the day count is 3
    and the box reads 1200.00. *)
Theorem invoice_grand_total (h : host) (order : order_row) (rows : list order_item) :
  Forall persisted rows ->
  let days := daysCount h (o_rent_start (o order)) (o_rent_end (o order)) in
  let grand := rendered_total h days rows in
  texts_of_size 16 (output (render h order rows)) = ["₹ " ++ toFixed h grand 2] /\
  (PrimFloat.is_finite grand = true ->
   (1e21 <=? PrimFloat.abs grand)%float = false ->
   two_decimals (toFixed h grand 2)) /\
  (let st := snd (new_customer Fixture.host "2024-01-01" "tok-1"
                    Fixture.chair_and_table Store.empty) in
   map o_total (orders st) = [VNum 400] /\
   daysCount Fixture.host (VStr "2024-01-01") (VStr "2024-01-03") = 3 /\
   rendered_total Fixture.host 3 (select_items 1 st) = 1200%float /\
   match invoice Fixture.host "1" st with
   | Document _ out => texts_of_size 16 out = ["₹ 1200.00"]
   | _ => False
   end).
Proof.
  intros P. cbv zeta. split; [|split].
  - destruct (render_run h order rows) as (loop & foot & -> & L & _ & _ & _ & T & _).
    destruct (table_head_run h order) as (_ & _ & _ & _ & _ & _ & _ & H16 & _).
    unfold texts_of_size in *. rewrite !flat_map_app, H16.
    fold (texts_of_size 16 loop). rewrite (loop_has_no_text_of_16 _ _ _ _ _ L).
    cbn [app]. rewrite T, (persisted_total h _ rows P). reflexivity.
  - apply toFixed_two_decimals.
  - vm_compute. repeat split.
Qed.

Lemma invoice_grand_total_witness :
  texts_of_size 16
    (output (render Fixture.host
               (OrderRow (Order 1 (VStr "tok-1") 1 (VStr "2024-01-01")
                                (VStr "2024-01-01") (VStr "2024-01-03") (VNum 400))
                         (VStr "Asha") (VStr "9000000001") (VStr "Shimoga"))
               [ OrderItem 1 1 (VStr "Chair") (VNum 50) (VNum 4) (VNum 200);
                 OrderItem 2 1 (VStr "Table") (VNum 200) (VNum 1) (VNum 200) ]))
  = ["₹ 1200.00"] /\
  two_decimals "1200.00".
Proof.
  assert (P : Forall persisted
                [ OrderItem 1 1 (VStr "Chair") (VNum 50) (VNum 4) (VNum 200);
                  OrderItem 2 1 (VStr "Table") (VNum 200) (VNum 1) (VNum 200) ]).
  { repeat constructor.
    - exists 50%float, 4%float. repeat split.
    - exists 200%float, 1%float. repeat split. }
  destruct (invoice_grand_total Fixture.host
              (OrderRow (Order 1 (VStr "tok-1") 1 (VStr "2024-01-01")
                               (VStr "2024-01-01") (VStr "2024-01-03") (VNum 400))
                        (VStr "Asha") (VStr "9000000001") (VStr "Shimoga"))
              _ P) as (A & B & _).
  split.
  - rewrite A. vm_compute. reflexivity.
  - apply B; vm_compute; reflexivity.
Defined.

(** ** The summary blocks *)

(** C8: the document holds one summary heading per item, and its left
    column reads, item after item, the label of the row and then the
    three lines of the summary of that very item: the per-day total from
    its price and quantity, the day count, and its own amount.  No block
    follows the loop. *)
Theorem summary_block_per_item (h : host) (order : order_row)
    (rows : list order_item) :
  let days := daysCount h (o_rent_start (o order)) (o_rent_end (o order)) in
  List.length (summary_headings (output (render h order rows))) = List.length rows /\
  plain_left_column (output (render h order rows))
  = flat_map (item_captions h days) rows.
Proof.
  cbv zeta.
  destruct (render_run h order rows) as (loop & foot & -> & L & _ & _ & _ & _ & S & C).
  destruct (table_head_run h order) as (_ & _ & _ & _ & _ & _ & _ & _ & HS & HC).
  split.
  - unfold summary_headings in *. rewrite !filter_app, !length_app, HS, S.
    fold (summary_headings loop). rewrite (loop_headings _ _ _ _ _ L).
    cbn [List.length]. lia.
  - unfold plain_left_column in *. rewrite !flat_map_app, HC, C.
    fold (plain_left_column loop). rewrite (loop_captions _ _ _ _ _ L).
    cbn [app]. apply app_nil_r.
Qed.

(** ** Pages *)






Example five_chairs_take_two_pages :
  List.length (pages (output (render Fixture.host Fixture.asha_order
                                Fixture.five_chairs))) = 2%nat /\
  map (fun page => List.length (row_lines page))
      (pages (output (render Fixture.host Fixture.asha_order Fixture.five_chairs)))
  = [4%nat; 1%nat] /\
  map (fun page => List.length (filter (fun d => match d with
                                                 | Text _ c _ _ => String.eqb c "DESCRIPTION"
                                                 | _ => false
                                                 end) page))
      (pages (output (render Fixture.host Fixture.asha_order Fixture.five_chairs)))
  = [1%nat; 1%nat].
Proof. vm_compute. repeat split. Qed.

(** The footprint of 50 covers the row and its breakdown, not the summary
    block nor the total box: with ten items the handler places the last
    line of a summary and the total box below the bottom margin. *)
Example ten_chairs_leave_the_page :
  map below_bottom_margin
      (pages (output (render Fixture.host Fixture.asha_order Fixture.ten_chairs)))
  = [[]; ["Final Total: ₹ 600.00"; "TOTAL"; "₹ 6000.00"]] /\
  map below_bottom_margin
      (pages (output (render Fixture.host Fixture.asha_order Fixture.five_chairs)))
  = [[]; []].
Proof. vm_compute. repeat split. Qed.



(** ** The stores the handlers reach *)

Lemma insert_items_frame (h : host) (id : Z) (items : list value) :
  forall total st,
    let st' := snd (insert_items h id items total st) in
    next_order st' = next_order st /\ orders st' = orders st /\
    exists rows,
      order_items st' = (order_items st ++ rows)%list /\
      Forall (fun r => i_order_id r = id) rows.
Proof.
  induction items as [|it rest IH]; intros total st; cbv zeta.
  - cbn. repeat split. exists []. rewrite app_nil_r. split; constructor.
  - rewrite insert_items_step.
    destruct (prop it "price") as [p|];
      [|cbn; repeat split; exists []; rewrite app_nil_r; split; constructor].
    destruct (prop it "quantity") as [q|];
      [|cbn; repeat split; exists []; rewrite app_nil_r; split; constructor].
    destruct (prop it "product") as [product|];
      [|cbn; repeat split; exists []; rewrite app_nil_r; split; constructor].
    destruct (unconvertible p || unconvertible q);
      [cbn; repeat split; exists []; rewrite app_nil_r; split; constructor|].
    match goal with |- context [insert_items h id rest ?t ?s] =>
      destruct (IH t s) as (En & Eo & rows & Ei & Fr) end.
    cbn in En, Eo, Ei. rewrite En, Eo, Ei. repeat split.
    eexists (_ :: rows). rewrite <- app_assoc. split; [reflexivity|].
    constructor; [reflexivity | exact Fr].
Qed.

Lemma keys_in_use_intro (st' : store) (f : order -> order)
    (os : list order) (kept rows : list order_item) :
  orders st' = map f os -> (forall x, o_id (f x) = o_id x) ->
  Forall (fun x => o_id x < next_order st') os ->
  order_items st' = (kept ++ rows)%list ->
  Forall (fun it => i_order_id it < next_order st') kept ->
  Forall (fun it => i_order_id it < next_order st') rows ->
  keys_in_use st'.
Proof.
  intros Ho Hf Fo Hi Fk Fr. split.
  - rewrite Ho. apply Forall_map. eapply Forall_impl; [|exact Fo].
    intros x. cbv beta. rewrite Hf. exact (fun H => H).
  - rewrite Hi. apply Forall_app. split; assumption.
Qed.

Lemma Forall_lt_le {A} (key : A -> Z) (l : list A) (n m : Z) :
  n <= m -> Forall (fun x => key x < n) l -> Forall (fun x => key x < m) l.
Proof. intros L. apply Forall_impl. intros x. lia. Qed.

Lemma Forall_eq_lt (rows : list order_item) (id n : Z) :
  id < n -> Forall (fun r => i_order_id r = id) rows ->
  Forall (fun r => i_order_id r < n) rows.
Proof. intros L. apply Forall_impl. intros x. lia. Qed.

Ltac frame_items h :=
  match goal with
  | |- context [insert_items h ?id ?its ?t ?s] =>
      let En := fresh "En" in
      let Eo := fresh "Eo" in
      let rows := fresh "rows" in
      let Ei := fresh "Ei" in
      let Fr := fresh "Fr" in
      let total := fresh "total" in
      let s2 := fresh "s2" in
      destruct (insert_items_frame h id its t s) as (En & Eo & rows & Ei & Fr);
      destruct (insert_items h id its t s) as [[total|] s2];
      cbn [snd] in En, Eo, Ei |- *;
      cbn [orders order_items next_order] in En, Eo, Ei
  end.

Ltac keep_keys En Ko Ki :=
  unfold keys_in_use, rollback; cbn [orders order_items next_order];
  rewrite En; cbn [next_order]; split;
  [ eapply (Forall_lt_le o_id); [|exact Ko]; lia
  | eapply (Forall_lt_le i_order_id); [|exact Ki]; lia ].

Ltac created_keys h st Ko Ki :=
  frame_items h;
  [ unfold set_total;
    match goal with
    | Eo : orders ?s2 = _, Ei : order_items ?s2 = (_ ++ ?rows)%list,
      En : next_order ?s2 = _, Fr : Forall _ ?rows
      |- keys_in_use (Db _ (map ?f _) _ _ _ _) =>
        apply (keys_in_use_intro _ f (orders s2) (order_items st) rows);
        cbn [orders order_items next_order];
        [ reflexivity
        | intros x; cbv beta; destruct (o_id x =? next_order st); reflexivity
        | rewrite Eo, En; apply Forall_app; split;
          [ apply (Forall_lt_le o_id _ (next_order st)); [lia | exact Ko]
          | constructor; [cbn; lia | constructor] ]
        | exact Ei
        | rewrite En;
          apply (Forall_lt_le i_order_id _ (next_order st)); [lia | exact Ki]
        | rewrite En; apply (Forall_eq_lt _ (next_order st)); [lia | exact Fr] ]
    end
  | match goal with En : next_order _ = _ |- _ => keep_keys En Ko Ki end ].

(** The empty store has its keys in use, and the three handlers keep them
    so, whatever they answer. *)
Lemma keys_in_use_preserved (h : host) (today uuid : string)
    (body : list (string * value)) (st : store) :
  keys_in_use Store.empty /\
  (keys_in_use st ->
   keys_in_use (snd (new_customer h today uuid body st)) /\
   keys_in_use (snd (generate_bill h today uuid body st)) /\
   keys_in_use (snd (update_order h body st))).
Proof.
  split; [split; constructor|]. intros K. pose proof K as [Ko Ki].
  split; [|split].
  - unfold new_customer.
    destruct (negb _ || negb _ || negb _); [exact K|].
    destruct (match lookup "items" body with VUndefined => VArr [] | v => v end)
      as [| | | | |items|]; try exact K.
    destruct items as [|it rest]; [exact K|].
    run_tx. created_keys h st Ko Ki.
  - unfold generate_bill.
    destruct (negb _ || negb _ || negb _); [exact K|].
    destruct (match lookup "items" body with VUndefined => VArr [] | v => v end)
      as [| | | | |items|]; try exact K.
    destruct items as [|it rest]; [exact K|].
    run_tx.
    destruct (select_customer_by_phone h (lookup "phone" body) st) as [|id ids].
    + run_tx. created_keys h st Ko Ki.
    + run_tx. unfold update_customer. cbn [orders order_items next_order].
      created_keys h st Ko Ki.
  - unfold update_order.
    destruct (negb _); [exact K|].
    destruct (lookup "items" body) as [| | | | |items|]; try exact K.
    destruct items as [|it rest]; [exact K|].
    destruct (pg_key h (lookup "orderId" body)) as [id|];
      [|rewrite rollback_same; exact K].
    destruct (select_order_id id st) as [|x xs] eqn:Es;
      [rewrite rollback_same; exact K|].
    assert (Hid : id < next_order st).
    { unfold select_order_id in Es.
      destruct (filter (fun o => o_id o =? id) (orders st)) as [|o0 os] eqn:Ef;
        [discriminate|].
      assert (M : In o0 (filter (fun o => o_id o =? id) (orders st)))
        by (rewrite Ef; left; reflexivity).
      apply filter_In in M. destruct M as [M1 M2]. apply Z.eqb_eq in M2.
      rewrite Forall_forall in Ko. specialize (Ko o0 M1). lia. }
    unfold transaction, bind_tx, exec, ret_tx, delete_items. frame_items h.
    + unfold update_order_meta.
      apply (keys_in_use_intro _
               (fun o => if o_id o =? id
                         then Order (o_id o) (o_invoice_no o) (o_customer_id o)
                                    (COALESCE (param (or_else (lookup "order_date" body) VNull))
                                              (o_order_date o))
                                    (COALESCE (param (or_else (lookup "rent_start" body) VNull))
                                              (o_rent_start o))
                                    (COALESCE (param (or_else (lookup "rent_end" body) VNull))
                                              (o_rent_end o))
                                    (param (VNum total))
                         else o)
               (orders s2)
               (filter (fun it => negb (i_order_id it =? id)) (order_items st)) rows);
        cbn [orders order_items next_order].
      * reflexivity.
      * intros x0. destruct (o_id x0 =? id); reflexivity.
      * rewrite Eo, En. exact Ko.
      * exact Ei.
      * rewrite En. apply Forall_forall. intros it0 Hin. apply filter_In in Hin.
        rewrite Forall_forall in Ki. apply Ki, Hin.
      * rewrite En. apply (Forall_eq_lt _ id); [exact Hid | exact Fr].
    + keep_keys En Ko Ki.
Qed.

(** ** Requests that succeed *)

Lemma existsb_true_filter {A} (f : A -> bool) (l : list A) :
  existsb f l = true -> exists x xs, filter f l = x :: xs.
Proof.
  induction l as [|x l IH]; [discriminate|].
  cbn. destruct (f x); [intros _; eexists _, _; reflexivity | exact IH].
Qed.

(** A request that passes the guards, on none of whose items the loop
    raises, is carried out: the create handlers answer with the new keys,
    and the update handler with the new total when the order is there. *)
Lemma well_formed_requests_succeed (h : host) (today uuid : string)
    (body : list (string * value)) (st : store) (items : list value) :
  lookup "items" body = VArr items -> items <> [] ->
  Forall (fun it => raises_on it = false) items ->
  (ToBoolean (lookup "name" body) = true ->
   ToBoolean (lookup "phone" body) = true ->
   ToBoolean (lookup "address" body) = true ->
   (exists c o st', new_customer h today uuid body st = (Created c o, st')) /\
   (exists o inv st', generate_bill h today uuid body st = (Billed o inv, st'))) /\
  (ToBoolean (lookup "orderId" body) = true -> resolves h body st = true ->
   exists total st', update_order h body st = (Replaced total, st')).
Proof.
  intros Ei Ne F. destruct items as [|it rest]; [congruence|]. split.
  - intros Tn Tp Ta. split.
    + unfold new_customer. rewrite Tn, Tp, Ta, Ei. cbn [negb orb]. run_tx.
      match goal with |- context [insert_items h ?id ?its ?t ?s] =>
        destruct (insert_items_total h id its F t s) as (total & s2 & ->) end.
      eexists _, _, _. reflexivity.
    + unfold generate_bill. rewrite Tn, Tp, Ta, Ei. cbn [negb orb]. run_tx.
      destruct (select_customer_by_phone h (lookup "phone" body) st); run_tx;
        match goal with |- context [insert_items h ?id ?its ?t ?s] =>
          destruct (insert_items_total h id its F t s) as (total & s2 & ->) end;
        eexists _, _, _; reflexivity.
  - intros To R. unfold update_order, resolves in *. rewrite To, Ei. cbn [negb].
    destruct (pg_key h (lookup "orderId" body)) as [id|]; [|discriminate].
    unfold select_order_id.
    destruct (existsb_true_filter _ _ R) as (x & xs & ->). cbn [map firstn].
    run_tx. unfold delete_items.
    match goal with |- context [insert_items h ?id ?its ?t ?s] =>
      destruct (insert_items_total h id its F t s) as (total & s2 & ->) end.
    eexists _, _. reflexivity.
Qed.

(** * Further properties of the handlers *)

(** ** Ordered reads *)

Lemma insert_by_id_perm (it : order_item) (l : list order_item) :
  Permutation (insert_by_id it l) (it :: l).
Proof.
  induction l as [|x l IH]; [reflexivity|].
  cbn [insert_by_id]. destruct (i_id it <? i_id x); [reflexivity|].
  rewrite IH. apply perm_swap.
Qed.

Lemma order_by_id_perm (l : list order_item) : Permutation (order_by_id l) l.
Proof.
  induction l as [|x l IH]; [reflexivity|].
  cbn [order_by_id fold_right].
  rewrite insert_by_id_perm. constructor. exact IH.
Qed.

Lemma insert_by_id_ascending (it : order_item) (l : list order_item) :
  ascending (map i_id l) -> ascending (map i_id (insert_by_id it l)).
Proof.
  induction l as [|x l IH]; intros A.
  - cbn. split; constructor.
  - cbn [insert_by_id]. destruct A as [Ax Al]. cbn in Ax.
    destruct (Z.ltb_spec (i_id it) (i_id x)) as [L|L].
    + cbn. split; [|split; assumption].
      constructor; [lia|]. eapply Forall_impl; [|exact Ax]. cbv beta. lia.
    + cbn. split; [|apply IH, Al].
      change (Forall (fun k' => i_id x <= k') (map i_id (insert_by_id it l))).
      rewrite (Permutation_map i_id (insert_by_id_perm it l)).
      constructor; [lia | exact Ax].
Qed.

Lemma order_by_id_ascending (l : list order_item) :
  ascending (map i_id (order_by_id l)).
Proof.
  induction l as [|x l IH]; [exact I|].
  apply insert_by_id_ascending, IH.
Qed.

(** Rows whose keys already ascend strictly are read back as they are. *)
Lemma order_by_id_sorted (l : list order_item) :
  strictly_ascending (map i_id l) -> order_by_id l = l.
Proof.
  induction l as [|x l IH]; [reflexivity|]. intros [Hx Hl].
  cbn [order_by_id fold_right]. fold (order_by_id l). rewrite (IH Hl).
  destruct l as [|y l]; [reflexivity|].
  cbn [insert_by_id]. cbn in Hx. inversion Hx; subst.
  destruct (Z.ltb_spec (i_id x) (i_id y)); [reflexivity | lia].
Qed.

Lemma insert_desc_perm {A} (key : A -> Z) (x : A) (l : list A) :
  Permutation (insert_desc key x l) (x :: l).
Proof.
  induction l as [|y l IH]; [reflexivity|].
  cbn [insert_desc]. destruct (key y <? key x); [reflexivity|].
  rewrite IH. apply perm_swap.
Qed.

Lemma order_by_desc_perm {A} (key : A -> Z) (l : list A) :
  Permutation (order_by_desc key l) l.
Proof.
  induction l as [|x l IH]; [reflexivity|].
  cbn [order_by_desc fold_right].
  rewrite insert_desc_perm. constructor. exact IH.
Qed.

Lemma insert_desc_descending {A} (key : A -> Z) (x : A) (l : list A) :
  descending (map key l) -> descending (map key (insert_desc key x l)).
Proof.
  induction l as [|y l IH]; intros D.
  - cbn. split; constructor.
  - cbn [insert_desc]. destruct D as [Dy Dl]. cbn in Dy.
    destruct (Z.ltb_spec (key y) (key x)) as [L|L].
    + cbn. split; [|split; assumption].
      constructor; [lia|]. eapply Forall_impl; [|exact Dy]. cbv beta. lia.
    + cbn. split; [|apply IH, Dl].
      change (Forall (fun k' => k' <= key y) (map key (insert_desc key x l))).
      rewrite (Permutation_map key (insert_desc_perm key x l)).
      constructor; [lia | exact Dy].
Qed.

Lemma order_by_desc_descending {A} (key : A -> Z) (l : list A) :
  descending (map key (order_by_desc key l)).
Proof.
  induction l as [|x l IH]; [exact I|].
  apply insert_desc_descending, IH.
Qed.

(** X1: the items an order is read with ([ORDER BY id ASC], in the invoice,
    the customer details and the order details) are the items of that order
    in the store, each once, with ascending keys. *)
Theorem select_items_sorted (id : Z) (st : store) :
  Permutation (select_items id st) (items_of id st) /\
  ascending (map i_id (select_items id st)) /\
  Forall (fun it => In it (order_items st) /\ i_order_id it = id)
         (select_items id st).
Proof.
  unfold select_items. split; [apply order_by_id_perm|].
  split; [apply order_by_id_ascending|].
  apply Forall_forall. intros it Hin.
  apply (Permutation_in _ (order_by_id_perm _)) in Hin.
  unfold items_of in Hin. apply filter_In in Hin. destruct Hin as [H1 H2].
  split; [exact H1 | apply Z.eqb_eq, H2].
Qed.


(** ** Runs of statements *)

Lemma runs_ret {A} (P : store -> Prop) (Q : A -> store -> Prop)
    (E : store -> Prop) (a : A) :
  (forall st, P st -> Q a st) -> runs P (ret_tx a) Q E.
Proof. intros H st HP. apply H, HP. Qed.

Lemma runs_bind {A B} (P : store -> Prop) (m : tx A) (Q : A -> store -> Prop)
    (k : A -> tx B) (R : B -> store -> Prop) (E : store -> Prop) :
  runs P m Q E -> (forall a, runs (Q a) (k a) R E) -> runs P (bind_tx m k) R E.
Proof.
  intros Hm Hk st HP. unfold bind_tx. specialize (Hm st HP).
  destruct (m st) as [[a|] st']; [apply (Hk a st' Hm) | exact Hm].
Qed.

Lemma runs_query {A} (P : store -> Prop) (q : store -> A * store)
    (Q : A -> store -> Prop) (E : store -> Prop) :
  (forall st, P st -> Q (fst (q st)) (snd (q st))) -> runs P (query q) Q E.
Proof.
  intros H st HP. unfold query. specialize (H st HP).
  destruct (q st) as [a st']. exact H.
Qed.

Lemma runs_exec (P : store -> Prop) (f : store -> store)
    (Q : unit -> store -> Prop) (E : store -> Prop) :
  (forall st, P st -> Q tt (f st)) -> runs P (exec f) Q E.
Proof. intros H st HP. apply H, HP. Qed.

Lemma runs_read {A} (P : store -> Prop) (v : option A) (E : store -> Prop) :
  (forall st, P st -> E st) -> runs P (read v) (fun _ st => P st) E.
Proof. intros H st HP. destruct v; [exact HP | apply H, HP]. Qed.

(** A transaction either commits what its statements leave, or answers
    with the raised error over the rows it started from. *)
Lemma transaction_cases (P : store -> Prop) (Q : reply -> store -> Prop)
    (E : store -> Prop) (body : tx reply) (st : store) :
  runs P body Q E -> P st ->
  (exists r st', transaction body st = (r, st') /\ Q r st') \/
  (exists s', transaction body st = (Thrown, rollback st s') /\ E s').
Proof.
  intros H HP. unfold transaction. specialize (H st HP).
  destruct (body st) as [[r|] st'].
  - left. exists r, st'. split; [reflexivity | exact H].
  - right. exists st'. split; [reflexivity | exact H].
Qed.

(** ** A write that fails *)

Lemma insert_items_runs_any (h : host) (id : Z) (items : list value) (total : float) :
  runs (fun _ => True) (insert_items h id items total) (fun _ _ => True)
       (fun _ => True).
Proof.
  intros st _. destruct (insert_items h id items total st) as [[a|] st']; exact I.
Qed.

Ltac step_any :=
  first
    [ apply runs_ret; intros; reflexivity
    | eapply (runs_bind _ _ (fun _ _ => True));
      [ first [ apply insert_items_runs_any
              | apply runs_query; intros; exact I
              | apply runs_exec; intros; exact I ]
      | intros ? ] ].

Lemma transaction_failed (b : tx reply) (st : store) :
  runs (fun _ => True) b (fun r _ => succeeded r = true) (fun _ => True) ->
  succeeded (fst (transaction b st)) = false ->
  tables (snd (transaction b st)) = tables st.
Proof.
  intros Hb.
  destruct (transaction_cases _ _ _ b st Hb I) as [(r & st' & -> & S)|(s' & -> & _)].
  - cbn [fst]. congruence.
  - reflexivity.
Qed.

Lemma new_customer_failed (h : host) (today uuid : string)
    (body : list (string * value)) (st : store) :
  succeeded (fst (new_customer h today uuid body st)) = false ->
  tables (snd (new_customer h today uuid body st)) = tables st.
Proof.
  unfold new_customer.
  destruct (negb _ || negb _ || negb _); [reflexivity|].
  destruct (match lookup "items" body with VUndefined => VArr [] | v => v end)
    as [| | | | |items|]; try reflexivity.
  destruct items as [|it rest]; [reflexivity|].
  apply transaction_failed. repeat step_any.
Qed.

Lemma generate_bill_failed (h : host) (today uuid : string)
    (body : list (string * value)) (st : store) :
  succeeded (fst (generate_bill h today uuid body st)) = false ->
  tables (snd (generate_bill h today uuid body st)) = tables st.
Proof.
  unfold generate_bill.
  destruct (negb _ || negb _ || negb _); [reflexivity|].
  destruct (match lookup "items" body with VUndefined => VArr [] | v => v end)
    as [| | | | |items|]; try reflexivity.
  destruct items as [|it rest]; [reflexivity|].
  apply transaction_failed. step_any. eapply (runs_bind _ _ (fun _ _ => True)).
  - destruct a as [|id ids].
    + apply runs_query. intros. exact I.
    + eapply (runs_bind _ _ (fun _ _ => True)); [apply runs_exec; intros; exact I|].
      intros ?. apply runs_ret. intros. exact I.
  - intros customerId. repeat step_any.
Qed.

Lemma update_order_failed (h : host) (body : list (string * value)) (st : store) :
  succeeded (fst (update_order h body st)) = false ->
  tables (snd (update_order h body st)) = tables st.
Proof.
  unfold update_order.
  destruct (negb _); [reflexivity|].
  destruct (lookup "items" body) as [| | | | |items|]; try reflexivity.
  destruct items as [|it rest]; [reflexivity|].
  destruct (pg_key h (lookup "orderId" body)) as [id|];
    [|intros _; cbn [snd]; rewrite rollback_same; reflexivity].
  destruct (select_order_id id st) as [|x xs];
    [intros _; cbn [snd]; rewrite rollback_same; reflexivity|].
  apply transaction_failed. repeat step_any.
Qed.

(** X3: a write that does not report success changes no row: a request
    refused by a guard, an order that is not found, and an error raised
    after rows were inserted (which is rolled back) all leave the
    customers, the orders and the items as they were. *)
Theorem failed_write_changes_no_row (h : host) (today uuid : string)
    (body : list (string * value)) (st : store) :
  (succeeded (fst (new_customer h today uuid body st)) = false ->
   tables (snd (new_customer h today uuid body st)) = tables st) /\
  (succeeded (fst (generate_bill h today uuid body st)) = false ->
   tables (snd (generate_bill h today uuid body st)) = tables st) /\
  (succeeded (fst (update_order h body st)) = false ->
   tables (snd (update_order h body st)) = tables st).
Proof.
  split; [apply new_customer_failed|].
  split; [apply generate_bill_failed | apply update_order_failed].
Qed.

(** ** Soundness of the store under each statement *)

Lemma counters_grow_refl (st : store) : counters_grow st st.
Proof. unfold counters_grow. lia. Qed.

Lemma counters_grow_trans (a b c : store) :
  counters_grow a b -> counters_grow b c -> counters_grow a c.
Proof. unfold counters_grow. lia. Qed.

Lemma Forall_key_lt {A} (key : A -> Z) (l : list A) (n m : Z) :
  n <= m -> Forall (fun x => key x < n) l -> Forall (fun x => key x < m) l.
Proof. intros L. apply Forall_impl. intros x. lia. Qed.

Lemma sound_rollback (st s' : store) :
  sound st -> counters_grow st s' -> sound (rollback st s').
Proof.
  intros [R (Kc & Ko & Ki & Kio)] (Gc & Go & Gi). split; [exact R|].
  unfold keys_fresh, rollback. cbn [customers orders order_items next_customer
                                    next_order next_item].
  repeat split; eapply Forall_key_lt; eassumption.
Qed.

Lemma has_order_lt (id : Z) (st : store) :
  keys_fresh st -> has_order id st -> id < next_order st.
Proof.
  intros (_ & Ko & _) (o & Hin & <-). rewrite Forall_forall in Ko. apply Ko, Hin.
Qed.

Lemma sound_insert_customer (a b c d e : value) (st : store) :
  sound st ->
  sound (snd (insert_customer a b c d e st)) /\
  counters_grow st (snd (insert_customer a b c d e st)) /\
  has_customer (fst (insert_customer a b c d e st))
               (snd (insert_customer a b c d e st)).
Proof.
  intros [[Ro Ri] (Kc & Ko & Ki & Kio)]. unfold insert_customer. cbn [fst snd].
  split; [split|split].
  - split; cbn [customers orders order_items]; [|exact Ri].
    intros o Ho. destruct (Ro o Ho) as (x & Hx & E).
    exists x. split; [apply in_or_app; left; exact Hx | exact E].
  - unfold keys_fresh. cbn [customers orders order_items next_customer next_order
                             next_item].
    repeat split; try assumption.
    apply Forall_app. split.
    + eapply Forall_key_lt; [|exact Kc]. lia.
    + constructor; [cbn; lia | constructor].
  - unfold counters_grow. cbn. lia.
  - eexists. split; [apply in_or_app; right; left; reflexivity | reflexivity].
Qed.

Lemma sound_insert_order (v : value) (c : Z) (d1 d2 d3 t : value) (st : store) :
  sound st -> has_customer c st ->
  sound (snd (insert_order v c d1 d2 d3 t st)) /\
  counters_grow st (snd (insert_order v c d1 d2 d3 t st)) /\
  has_order (fst (insert_order v c d1 d2 d3 t st))
            (snd (insert_order v c d1 d2 d3 t st)).
Proof.
  intros [[Ro Ri] (Kc & Ko & Ki & Kio)] Hc. unfold insert_order. cbn [fst snd].
  split; [split|split].
  - split; cbn [customers orders order_items].
    + intros o Ho. apply in_app_or in Ho. destruct Ho as [Ho | [<- | []]].
      * exact (Ro o Ho).
      * exact Hc.
    + intros it Hit. destruct (Ri it Hit) as (x & Hx & E).
      exists x. split; [apply in_or_app; left; exact Hx | exact E].
  - unfold keys_fresh. cbn [customers orders order_items next_customer next_order
                             next_item].
    split; [exact Kc|]. split; [|split; [exact Ki|]].
    + apply Forall_app. split.
      * eapply Forall_key_lt; [|exact Ko]. lia.
      * constructor; [cbn; lia | constructor].
    + eapply Forall_key_lt; [|exact Kio]. lia.
  - unfold counters_grow. cbn. lia.
  - eexists. split; [apply in_or_app; right; left; reflexivity | reflexivity].
Qed.

Lemma sound_insert_item (id : Z) (p q r l : value) (st : store) :
  sound st -> has_order id st ->
  sound (insert_item id p q r l st) /\
  counters_grow st (insert_item id p q r l st) /\
  has_order id (insert_item id p q r l st).
Proof.
  intros [[Ro Ri] K] Ho. pose proof (has_order_lt id st K Ho) as L.
  destruct K as (Kc & Ko & Ki & Kio). unfold insert_item.
  split; [split|split].
  - split; cbn [customers orders order_items]; [exact Ro|].
    intros it Hit. apply in_app_or in Hit. destruct Hit as [Hit | [<- | []]].
    + exact (Ri it Hit).
    + exact Ho.
  - unfold keys_fresh. cbn [customers orders order_items next_customer next_order
                             next_item].
    split; [exact Kc|]. split; [exact Ko|]. split.
    + apply Forall_app. split.
      * eapply Forall_key_lt; [|exact Ki]. lia.
      * constructor; [cbn; lia | constructor].
    + apply Forall_app. split; [exact Kio|].
      constructor; [exact L | constructor].
  - unfold counters_grow. cbn. lia.
  - exact Ho.
Qed.

(** A statement that rewrites columns of orders, keys apart, keeps the
    store sound. *)
Lemma sound_map_orders (f : order -> order) (st : store) :
  (forall x, o_id (f x) = o_id x /\ o_customer_id (f x) = o_customer_id x) ->
  sound st ->
  sound (Db (customers st) (map f (orders st)) (order_items st)
            (next_customer st) (next_order st) (next_item st)) /\
  forall id, has_order id st ->
    has_order id (Db (customers st) (map f (orders st)) (order_items st)
                     (next_customer st) (next_order st) (next_item st)).
Proof.
  intros Hf [[Ro Ri] (Kc & Ko & Ki & Kio)].
  assert (Ho : forall id, has_order id st ->
            has_order id (Db (customers st) (map f (orders st)) (order_items st)
                             (next_customer st) (next_order st) (next_item st))).
  { intros id (x & Hx & E). exists (f x).
    split; [apply in_map, Hx | rewrite (proj1 (Hf x)); exact E]. }
  split; [|exact Ho]. split; [split|].
  - cbn [customers orders]. intros o Hin. apply in_map_iff in Hin.
    destruct Hin as (x & <- & Hx). rewrite (proj2 (Hf x)). exact (Ro x Hx).
  - intros it Hit. apply Ho. exact (Ri it Hit).
  - unfold keys_fresh. cbn [customers orders order_items next_customer next_order
                             next_item].
    repeat split; try assumption.
    apply Forall_map. eapply Forall_impl; [|exact Ko].
    intros x. cbv beta. rewrite (proj1 (Hf x)). exact (fun H => H).
Qed.

(** A statement that rewrites columns of customers, keys apart, keeps the
    store sound. *)
Lemma sound_map_customers (f : customer -> customer) (st : store) :
  (forall x, c_id (f x) = c_id x) ->
  sound st ->
  sound (Db (map f (customers st)) (orders st) (order_items st)
            (next_customer st) (next_order st) (next_item st)) /\
  forall id, has_customer id st ->
    has_customer id (Db (map f (customers st)) (orders st) (order_items st)
                        (next_customer st) (next_order st) (next_item st)).
Proof.
  intros Hf [[Ro Ri] (Kc & Ko & Ki & Kio)].
  assert (Hc : forall id, has_customer id st ->
            has_customer id (Db (map f (customers st)) (orders st) (order_items st)
                                (next_customer st) (next_order st) (next_item st))).
  { intros id (x & Hx & E). exists (f x).
    split; [apply in_map, Hx | rewrite Hf; exact E]. }
  split; [|exact Hc]. split; [split|].
  - intros o Hin. apply Hc. exact (Ro o Hin).
  - exact Ri.
  - unfold keys_fresh. cbn [customers orders order_items next_customer next_order
                             next_item].
    repeat split; try assumption.
    apply Forall_map. eapply Forall_impl; [|exact Kc].
    intros x. cbv beta. rewrite Hf. exact (fun H => H).
Qed.

Lemma sound_delete_items (id : Z) (st : store) :
  sound st -> sound (delete_items id st).
Proof.
  intros [[Ro Ri] (Kc & Ko & Ki & Kio)]. unfold delete_items. split; [split|].
  - exact Ro.
  - cbn [orders order_items]. intros it Hit. apply filter_In in Hit.
    exact (Ri it (proj1 Hit)).
  - unfold keys_fresh. cbn [customers orders order_items next_customer next_order
                             next_item].
    repeat split; try assumption; apply Forall_forall; intros it Hit;
      apply filter_In in Hit; destruct Hit as [Hit _].
    + rewrite Forall_forall in Ki. exact (Ki it Hit).
    + rewrite Forall_forall in Kio. exact (Kio it Hit).
Qed.

Lemma insert_items_runs_sound (h : host) (st0 : store) (id : Z) (items : list value) :
  forall total,
    runs (fun s => during st0 s /\ has_order id s)
         (insert_items h id items total)
         (fun _ s => during st0 s /\ has_order id s)
         (counters_grow st0).
Proof.
  induction items as [|it rest IH]; intros total.
  - apply runs_ret. intros s H. exact H.
  - cbn [insert_items].
    eapply runs_bind; [apply runs_read; intros s [[_ G] _]; exact G|].
    intros p. cbv beta.
    eapply runs_bind; [apply runs_read; intros s [[_ G] _]; exact G|].
    intros price. cbv beta.
    eapply runs_bind; [apply runs_read; intros s [[_ G] _]; exact G|].
    intros q. cbv beta.
    eapply runs_bind; [apply runs_read; intros s [[_ G] _]; exact G|].
    intros qty. cbv beta zeta.
    eapply runs_bind; [apply runs_read; intros s [[_ G] _]; exact G|].
    intros product. cbv beta.
    eapply (runs_bind _ _ (fun _ s => during st0 s /\ has_order id s)).
    + apply runs_exec. intros s [[S G] Ho].
      destruct (sound_insert_item id product (VNum price) (VNum qty)
                  (VNum (price * qty)) s S Ho)
        as (S' & G' & Ho').
      split; [split; [exact S' | exact (counters_grow_trans _ _ _ G G')] | exact Ho'].
    + intros _. apply IH.
Qed.

Lemma sound_delete_customer (k : Z) (st : store) :
  sound st ->
  sound (delete_customer_row k
           (delete_orders_of_customer k (delete_items_of_customer k st))).
Proof.
  intros [[Ro Ri] (Kc & Ko & Ki & Kio)].
  unfold delete_customer_row, delete_orders_of_customer, delete_items_of_customer.
  cbn [customers orders order_items next_customer next_order next_item].
  split; [split|].
  - cbn [customers orders]. intros o Ho. apply filter_In in Ho.
    destruct Ho as [Ho Hk]. destruct (Ro o Ho) as (c & Hc & E).
    exists c. split; [|exact E]. apply filter_In. split; [exact Hc|].
    rewrite E. exact Hk.
  - cbn [orders order_items]. intros it Hit. apply filter_In in Hit.
    destruct Hit as [Hit Hn]. destruct (Ri it Hit) as (o & Ho & E).
    exists o. split; [|exact E]. apply filter_In. split; [exact Ho|].
    destruct (o_customer_id o =? k) eqn:Ek; [|reflexivity].
    apply negb_true_iff in Hn.
    assert (T : existsb (fun o0 => (o_customer_id o0 =? k)
                                   && (o_id o0 =? i_order_id it))
                        (orders st) = true).
    { apply existsb_exists. exists o. split; [exact Ho|].
      rewrite Ek, E, Z.eqb_refl. reflexivity. }
    congruence.
  - unfold keys_fresh. cbn [customers orders order_items next_customer next_order
                             next_item].
    repeat split; apply Forall_forall; intros x Hx; apply filter_In in Hx;
      destruct Hx as [Hx _].
    + rewrite Forall_forall in Kc. exact (Kc x Hx).
    + rewrite Forall_forall in Ko. exact (Ko x Hx).
    + rewrite Forall_forall in Ki. exact (Ki x Hx).
    + rewrite Forall_forall in Kio. exact (Kio x Hx).
Qed.

Lemma transaction_sound (P : store -> Prop) (b : tx reply) (st : store) :
  runs P b (fun _ s => sound s) (counters_grow st) ->
  P st -> sound st -> sound (snd (transaction b st)).
Proof.
  intros Hb HP S.
  destruct (transaction_cases _ _ _ b st Hb HP) as [(r & st' & -> & S')|(s' & -> & G)].
  - exact S'.
  - apply sound_rollback; assumption.
Qed.

Lemma create_order_runs (h : host) (st : store) (v : value) (c : Z)
    (d1 d2 d3 : value) (items : list value) (r : Z -> reply) :
  runs (fun s => during st s /\ has_customer c s)
       (bind_tx (query (insert_order v c d1 d2 d3 (VNum 0)))
          (fun orderId =>
             bind_tx (insert_items h orderId items 0)
               (fun total =>
                  bind_tx (exec (set_total (VNum total) orderId))
                    (fun _ => ret_tx (r orderId)))))
       (fun _ s => sound s) (counters_grow st).
Proof.
  eapply (runs_bind _ _ (fun o s => during st s /\ has_order o s)).
  - apply runs_query. intros s [[S G] Hc].
    destruct (sound_insert_order v c d1 d2 d3 (VNum 0) s S Hc) as (S' & G' & Ho').
    split; [split; [exact S' | exact (counters_grow_trans _ _ _ G G')] | exact Ho'].
  - intros o. eapply runs_bind; [apply insert_items_runs_sound|].
    intros total. eapply (runs_bind _ _ (fun _ s => sound s)).
    + apply runs_exec. intros s [[S G] Ho]. unfold set_total.
      apply sound_map_orders; [|exact S].
      intros x. cbv beta. destruct (o_id x =? o); split; reflexivity.
    + intros _. apply runs_ret. intros s S. exact S.
Qed.

Lemma empty_sound : sound Store.empty.
Proof. split; [split; intros x []|]. repeat split; constructor. Qed.

Lemma new_customer_sound (h : host) (today uuid : string)
    (body : list (string * value)) (st : store) :
  sound st -> sound (snd (new_customer h today uuid body st)).
Proof.
  intros S. pose proof (conj S (counters_grow_refl st)) as D.
  unfold new_customer.
  destruct (negb _ || negb _ || negb _); [exact S|].
  destruct (match lookup "items" body with VUndefined => VArr [] | v => v end)
    as [| | | | |items|]; try exact S.
  destruct items as [|it rest]; [exact S|].
  apply (transaction_sound (during st)); [|exact D|exact S].
  eapply (runs_bind _ _ (fun c s => during st s /\ has_customer c s)).
  - apply runs_query. intros s [S0 G0].
    match goal with
    | |- context [insert_customer ?a ?b ?c ?d ?e s] =>
        destruct (sound_insert_customer a b c d e s S0) as (S' & G' & Hc')
    end.
    split; [split; [exact S' | exact (counters_grow_trans _ _ _ G0 G')] | exact Hc'].
  - intros c. apply (create_order_runs h st _ c _ _ _ _ (Created c)).
Qed.

Lemma generate_bill_sound (h : host) (today uuid : string)
    (body : list (string * value)) (st : store) :
  sound st -> sound (snd (generate_bill h today uuid body st)).
Proof.
  intros S. pose proof (conj S (counters_grow_refl st)) as D.
  unfold generate_bill.
  destruct (negb _ || negb _ || negb _); [exact S|].
  destruct (match lookup "items" body with VUndefined => VArr [] | v => v end)
    as [| | | | |items|]; try exact S.
  destruct items as [|it rest]; [exact S|].
  apply (transaction_sound (during st)); [|exact D|exact S].
  eapply (runs_bind _ _ (fun ids s =>
                           during st s /\ Forall (fun id => has_customer id s) ids)).
  - apply runs_query. intros s D0. cbn [fst snd]. split; [exact D0|].
    apply Forall_forall. intros id Hin.
    apply select_customer_by_phone_in in Hin. destruct Hin as (c & Hc & E & _).
    exists c. split; assumption.
  - intros ids. eapply (runs_bind _ _ (fun c s => during st s /\ has_customer c s)).
    + destruct ids as [|id ids].
      * apply runs_query. intros s [[S0 G0] _].
         match goal with
         | |- context [insert_customer ?a ?b ?c ?d ?e s] =>
             destruct (sound_insert_customer a b c d e s S0) as (S' & G' & Hc')
         end.
         split; [split; [exact S' | exact (counters_grow_trans _ _ _ G0 G')]
                | exact Hc'].
      * eapply (runs_bind _ _ (fun _ s => during st s /\ has_customer id s)).
         -- apply runs_exec. intros s [[S0 G0] F]. inversion F as [|? ? Hid _]; subst.
            unfold update_customer.
            destruct (sound_map_customers
                        (fun c =>
                           if c_id c =? id
                           then Customer (c_id c) (param (lookup "name" body))
                                  (c_phone c)
                                  (param (or_else (lookup "alt_phone" body) VNull))
                                  (param (lookup "address" body)) (c_rent_status c)
                           else c) s) as [S' Hc']; [|exact S0|].
            { intros x. destruct (c_id x =? id); reflexivity. }
            split; [split; [exact S' | exact G0] | apply Hc', Hid].
         -- intros _. apply runs_ret. intros s H. exact H.
    + intros c.
      apply (create_order_runs h st _ c _ _ _ _ (fun o => Billed o (VStr uuid))).
Qed.

Lemma update_order_sound (h : host) (body : list (string * value)) (st : store) :
  sound st -> sound (snd (update_order h body st)).
Proof.
  intros S. pose proof (conj S (counters_grow_refl st)) as D.
  unfold update_order.
  destruct (negb _); [exact S|].
  destruct (lookup "items" body) as [| | | | |items|]; try exact S.
  destruct items as [|it rest]; [exact S|].
  destruct (pg_key h (lookup "orderId" body)) as [id|];
    [|cbn [snd]; rewrite rollback_same; exact S].
  destruct (select_order_id id st) as [|x xs] eqn:Es;
    [cbn [snd]; rewrite rollback_same; exact S|].
  assert (Ho : has_order id st).
  { unfold select_order_id in Es.
    destruct (filter (fun o => o_id o =? id) (orders st)) as [|o0 os] eqn:Ef;
      [discriminate|].
    assert (M : In o0 (filter (fun o => o_id o =? id) (orders st)))
      by (rewrite Ef; left; reflexivity).
    apply filter_In in M. exists o0. split; [exact (proj1 M)|].
    apply Z.eqb_eq, (proj2 M). }
  apply (transaction_sound (fun s => during st s /\ has_order id s));
    [|exact (conj D Ho)|exact S].
  eapply (runs_bind _ _ (fun _ s => during st s /\ has_order id s)).
  - apply runs_exec. intros s [[S0 G0] Ho0]. split; [split|].
    + apply sound_delete_items, S0.
    + exact G0.
    + exact Ho0.
  - intros _. eapply runs_bind; [apply insert_items_runs_sound|].
    intros total. eapply (runs_bind _ _ (fun _ s => sound s)).
    + apply runs_exec. intros s [[S0 G0] Ho0]. unfold update_order_meta.
      apply sound_map_orders; [|exact S0].
      intros x0. cbv beta. destruct (o_id x0 =? id); split; reflexivity.
    + intros _. apply runs_ret. intros s S0. exact S0.
Qed.

Lemma update_status_sound (h : host) (body : list (string * value)) (st : store) :
  sound st -> sound (snd (update_status h body st)).
Proof.
  intros S. pose proof (conj S (counters_grow_refl st)) as D.
  unfold update_status.
  destruct (negb _ || negb _); [exact S|]. cbn [snd].
  destruct (pg_key h (lookup "customerId" body)) as [k|]; [|exact S].
  unfold set_rent_status. apply sound_map_customers; [|exact S].
  intros x. destruct (c_id x =? k); reflexivity.
Qed.

Lemma delete_customer_sound (h : host) (body : list (string * value)) (st : store) :
  sound st -> sound (snd (delete_customer h body st)).
Proof.
  intros S. pose proof (conj S (counters_grow_refl st)) as D.
  unfold delete_customer.
  destruct (negb _); [exact S|]. cbn [snd].
  destruct (pg_key h (lookup "customerId" body)) as [k|]; [|exact S].
  apply sound_delete_customer, S.
Qed.

(** X4: the store stays sound under every handler that writes: once every
    order has its customer, every item its order, and every key lies below
    its counter, this is so again after creating an order (either way),
    replacing the items of one, relabelling a customer and deleting one,
    whatever the request and whatever the reply. *)
Theorem writers_keep_the_store_sound (h : host) (today uuid : string)
    (body : list (string * value)) (st : store) :
  sound Store.empty /\
  (sound st ->
   sound (snd (new_customer h today uuid body st)) /\
   sound (snd (generate_bill h today uuid body st)) /\
   sound (snd (update_order h body st)) /\
   sound (snd (update_status h body st)) /\
   sound (snd (delete_customer h body st))).
Proof.
  split; [exact empty_sound|]. intros S.
  split; [apply new_customer_sound, S|].
  split; [apply generate_bill_sound, S|].
  split; [apply update_order_sound, S|].
  split; [apply update_status_sound, S | apply delete_customer_sound, S].
Qed.

(** ** The rows a request leaves *)

(** The loop raises exactly when it comes to an item that cannot be read
    or whose price or quantity cannot be converted, whatever the store;
    the rows before that item are then inserted already. *)
Lemma insert_items_reads (h : host) (id : Z) (items : list value) :
  forall total st,
    fst (insert_items h id items total st) = None <->
    existsb raises_on items = true.
Proof.
  induction items as [|it rest IH]; intros total st.
  - cbn. split; discriminate.
  - rewrite insert_items_step. cbn [existsb]. unfold raises_on.
    destruct it; cbn [prop orb fst]; try (split; reflexivity); try apply IH.
    destruct (unconvertible _ || unconvertible _); cbn [orb fst];
      [split; reflexivity | apply IH].
Qed.

(** The rows of a loop that returns: one per item, in order, with keys
    handed out in ascending order from the counter. *)
Lemma insert_items_rows (h : host) (id : Z) (items : list value) :
  forall total st total' st',
    insert_items h id items total st = (Some total', st') ->
    exists rows,
      order_items st' = (order_items st ++ rows)%list /\
      map (fun r => Some (item_content r)) rows = map (stored_content h) items /\
      Forall (fun r => i_order_id r = id) rows /\
      Forall (fun r => next_item st <= i_id r) rows /\
      strictly_ascending (map i_id rows).
Proof.
  induction items as [|it rest IH]; intros total st total' st' E.
  - inversion E; subst. exists []. rewrite app_nil_r.
    repeat split; constructor.
  - rewrite insert_items_step in E.
    destruct (prop it "price") as [p|] eqn:Ep; [|discriminate].
    destruct (prop it "quantity") as [q|] eqn:Eq; [|discriminate].
    destruct (prop it "product") as [product|] eqn:Epr; [|discriminate].
    destruct (unconvertible p || unconvertible q); [discriminate|].
    apply IH in E. destruct E as (rows & Ei & Ec & Fo & Fk & Asc).
    cbn [order_items next_item insert_item] in Ei, Fk.
    eexists (_ :: rows). rewrite Ei, <- app_assoc. cbn [app].
    split; [reflexivity|]. split; [|split; [|split]].
    + cbn [map]. f_equal; [|exact Ec].
      unfold stored_content. rewrite Ep, Eq, Epr. reflexivity.
    + constructor; [reflexivity | exact Fo].
    + constructor; [cbn; lia|]. eapply Forall_impl; [|exact Fk]. cbv beta. lia.
    + cbn [map strictly_ascending i_id]. split; [|exact Asc].
      apply Forall_map. eapply Forall_impl; [|exact Fk]. cbv beta. lia.
Qed.

Lemma new_customer_rows (h : host) (today uuid : string)
    (body : list (string * value)) (st : store) (c o : Z) (st' : store) :
  new_customer h today uuid body st = (Created c o, st') ->
  exists rows,
    o = next_order st /\
    order_items st' = (order_items st ++ rows)%list /\
    map (fun r => Some (item_content r)) rows
    = map (stored_content h) (request_items body) /\
    Forall (fun r => i_order_id r = o) rows /\
    strictly_ascending (map i_id rows) /\
    Forall (fun r => next_item st <= i_id r) rows.
Proof.
  unfold new_customer, request_items. intros E.
  destruct (negb _ || negb _ || negb _); [discriminate|].
  destruct (lookup "items" body) as [| | | | |items|] eqn:Ei; try discriminate.
  destruct items as [|it rest]; [discriminate|].
  revert E. run_tx.
  destruct (insert_items h _ _ _ _) as [[total|] s2] eqn:EI; [|discriminate].
  intros E. inversion E; subst c o st'; clear E.
  apply insert_items_rows in EI. destruct EI as (rows & Hi & Hc & Fo & Fk & Asc).
  exists rows. unfold set_total. cbn [order_items next_item insert_customer insert_order snd fst] in *.
  repeat split; assumption.
Qed.

Lemma generate_bill_rows (h : host) (today uuid : string)
    (body : list (string * value)) (st : store) (o : Z) (inv : value) (st' : store) :
  generate_bill h today uuid body st = (Billed o inv, st') ->
  exists rows,
    o = next_order st /\
    order_items st' = (order_items st ++ rows)%list /\
    map (fun r => Some (item_content r)) rows
    = map (stored_content h) (request_items body) /\
    Forall (fun r => i_order_id r = o) rows /\
    strictly_ascending (map i_id rows) /\
    Forall (fun r => next_item st <= i_id r) rows.
Proof.
  unfold generate_bill, request_items. intros E.
  destruct (negb _ || negb _ || negb _); [discriminate|].
  destruct (lookup "items" body) as [| | | | |items|] eqn:Ei; try discriminate.
  destruct items as [|it rest]; [discriminate|].
  revert E. run_tx.
  destruct (select_customer_by_phone h (lookup "phone" body) st) as [|id ids];
    run_tx; unfold update_customer; cbn [orders order_items next_order];
    (destruct (insert_items h _ _ _ _) as [[total|] s2] eqn:EI; [|discriminate]);
    intros E; inversion E; subst o inv st'; clear E;
    apply insert_items_rows in EI; destruct EI as (rows & Hi & Hc & Fo & Fk & Asc);
    exists rows; unfold set_total; cbn [order_items next_item insert_customer insert_order snd fst] in *;
    repeat split; assumption.
Qed.

Lemma update_order_rows (h : host) (body : list (string * value)) (st : store)
    (total : float) (st' : store) :
  update_order h body st = (Replaced total, st') ->
  exists rows id,
    pg_key h (lookup "orderId" body) = Some id /\
    order_items st' =
      (filter (fun it => negb (i_order_id it =? id)) (order_items st) ++ rows)%list /\
    map (fun r => Some (item_content r)) rows
    = map (stored_content h) (request_items body) /\
    Forall (fun r => i_order_id r = id) rows /\
    strictly_ascending (map i_id rows) /\
    Forall (fun r => next_item st <= i_id r) rows.
Proof.
  unfold update_order, request_items. intros E.
  destruct (negb _); [discriminate|].
  destruct (lookup "items" body) as [| | | | |items|] eqn:Ei; try discriminate.
  destruct items as [|it rest]; [discriminate|].
  destruct (pg_key h (lookup "orderId" body)) as [id|] eqn:Ek; [|discriminate].
  destruct (select_order_id id st) as [|x xs]; [discriminate|].
  revert E. run_tx. unfold delete_items.
  destruct (insert_items h _ _ _ _) as [[t|] s2] eqn:EI; [|discriminate].
  intros E. inversion E; subst t st'; clear E.
  apply insert_items_rows in EI. destruct EI as (rows & Hi & Hc & Fo & Fk & Asc).
  exists rows, id. unfold update_order_meta. cbn [order_items next_item insert_customer insert_order snd fst] in *.
  repeat split; assumption.
Qed.

Lemma select_items_of_rows (id : Z) (st' : store)
    (kept rows : list order_item) :
  order_items st' = (kept ++ rows)%list ->
  filter (fun it => i_order_id it =? id) kept = [] ->
  Forall (fun r => i_order_id r = id) rows ->
  strictly_ascending (map i_id rows) ->
  select_items id st' = rows.
Proof.
  intros Hi Hk Fo Asc. unfold select_items, items_of.
  rewrite Hi, filter_app, Hk, (filter_same _ _ Fo). cbn [app].
  apply order_by_id_sorted, Asc.
Qed.

(** X5: what a write stores is what a read gives back: after a successful
    create or replace, the items read with the order (as the invoice and the
    detail handlers read them, by ascending key) are the items of the
    request in the order of the request, each with its product, its coerced
    price and quantity and their product. *)
Theorem items_read_back_in_request_order (h : host) (today uuid : string)
    (body : list (string * value)) (st : store) :
  keys_in_use st ->
  (forall c o st',
     new_customer h today uuid body st = (Created c o, st') ->
     map (fun r => Some (item_content r)) (select_items o st')
     = map (stored_content h) (request_items body)) /\
  (forall o inv st',
     generate_bill h today uuid body st = (Billed o inv, st') ->
     map (fun r => Some (item_content r)) (select_items o st')
     = map (stored_content h) (request_items body)) /\
  (forall total st',
     update_order h body st = (Replaced total, st') ->
     exists id,
       pg_key h (lookup "orderId" body) = Some id /\
       map (fun r => Some (item_content r)) (select_items id st')
       = map (stored_content h) (request_items body)).
Proof.
  intros [_ Ki]. split; [|split].
  - intros c o st' E. apply new_customer_rows in E.
    destruct E as (rows & -> & Hi & Hc & Fo & Asc & _).
    rewrite (select_items_of_rows _ _ _ _ Hi (filter_fresh _ _ Ki) Fo Asc).
    exact Hc.
  - intros o inv st' E. apply generate_bill_rows in E.
    destruct E as (rows & -> & Hi & Hc & Fo & Asc & _).
    rewrite (select_items_of_rows _ _ _ _ Hi (filter_fresh _ _ Ki) Fo Asc).
    exact Hc.
  - intros total st' E. apply update_order_rows in E.
    destruct E as (rows & id & Ek & Hi & Hc & Fo & Asc & _).
    exists id. split; [exact Ek|].
    rewrite (select_items_of_rows _ _ _ _ Hi (filter_deleted _ _) Fo Asc).
    exact Hc.
Qed.

(** ** Replacing twice *)

Lemma update_order_success_inv (h : host) (body : list (string * value))
    (st : store) (total : float) (st' : store) :
  update_order h body st = (Replaced total, st') ->
  well_formed_update body = true /\ resolves h body st = true /\
  existsb raises_on (request_items body) = false.
Proof.
  unfold update_order, well_formed_update, resolves, request_items. intros E.
  destruct (ToBoolean (lookup "orderId" body)); [|discriminate]. cbn [negb andb] in *.
  destruct (lookup "items" body) as [| | | | |items|]; try discriminate.
  destruct items as [|it rest]; [discriminate|].
  destruct (pg_key h (lookup "orderId" body)) as [id|]; [|discriminate].
  unfold select_order_id in E.
  destruct (filter (fun o => o_id o =? id) (orders st)) as [|o0 os] eqn:Ef;
    [discriminate|].
  split; [reflexivity|]. split.
  - apply existsb_exists. exists o0.
    assert (M : In o0 (filter (fun o => o_id o =? id) (orders st)))
      by (rewrite Ef; left; reflexivity).
    apply filter_In in M. exact M.
  - cbn [map firstn] in E. revert E. run_tx. unfold delete_items.
    match goal with |- context [insert_items h ?i ?its ?t ?s] =>
      pose proof (insert_items_reads h i its t s) as R;
      destruct (insert_items h i its t s) as [[t'|] s2] end; [|discriminate].
    intros _. destruct (existsb raises_on (it :: rest)); [|reflexivity].
    cbn [fst] in R. destruct R as [_ R]. discriminate (R eq_refl).
Qed.

Lemma update_order_succeeds (h : host) (body : list (string * value)) (st : store) :
  well_formed_update body = true -> resolves h body st = true ->
  existsb raises_on (request_items body) = false ->
  exists total st', update_order h body st = (Replaced total, st').
Proof.
  unfold update_order, well_formed_update, resolves, request_items. intros W R U.
  destruct (ToBoolean (lookup "orderId" body)); [|discriminate]. cbn [negb andb] in *.
  destruct (lookup "items" body) as [| | | | |items|]; try discriminate.
  destruct items as [|it rest]; [discriminate|].
  destruct (pg_key h (lookup "orderId" body)) as [id|]; [|discriminate].
  unfold select_order_id.
  destruct (existsb_true_filter _ _ R) as (x & xs & ->). cbn [map firstn].
  run_tx. unfold delete_items.
  match goal with |- context [insert_items h ?i ?its ?t ?s] =>
    pose proof (insert_items_reads h i its t s) as Rd;
    destruct (insert_items h i its t s) as [[t'|] s2] end.
  - eexists _, _. reflexivity.
  - cbn [fst] in Rd. destruct Rd as [Rd _]. rewrite (Rd eq_refl) in U. discriminate.
Qed.

Lemma map_Some_inj {A B} (f : A -> B) (l1 l2 : list A) :
  map (fun r => Some (f r)) l1 = map (fun r => Some (f r)) l2 ->
  map f l1 = map f l2.
Proof.
  revert l2. induction l1 as [|x l1 IH]; intros [|y l2] E; try discriminate.
  - reflexivity.
  - cbn in *. inversion E as [[H1 H2]]. rewrite H1, (IH _ H2). reflexivity.
Qed.

Lemma filter_kept (id : Z) (kept rows : list order_item) :
  Forall (fun r => i_order_id r = id) rows ->
  filter (fun it => negb (i_order_id it =? id))
         (filter (fun it => negb (i_order_id it =? id)) kept ++ rows)
  = filter (fun it => negb (i_order_id it =? id)) kept.
Proof.
  intros F. rewrite filter_app.
  assert (E : filter (fun it => negb (i_order_id it =? id)) rows = []).
  { induction F as [|r rows Hr _ IH]; [reflexivity|].
    cbn [filter]. rewrite Hr, Z.eqb_refl. exact IH. }
  rewrite E, app_nil_r. clear.
  induction kept as [|x kept IH]; [reflexivity|].
  cbn [filter]. destruct (negb (i_order_id x =? id)) eqn:Ex; [|exact IH].
  cbn [filter]. rewrite Ex, IH. reflexivity.
Qed.

Lemma patched_twice (supplied old : value) :
  patched supplied (patched supplied old) = patched supplied old.
Proof. unfold patched. destruct (ToBoolean supplied); reflexivity. Qed.

(** X6: replacing the items of an order is idempotent: the same request
    sent again succeeds with the same total and leaves the customers and
    the orders as the first time, and the same items but for their keys. *)
Theorem update_order_twice (h : host) (body : list (string * value))
    (st : store) (total : float) (st1 : store) :
  update_order h body st = (Replaced total, st1) ->
  exists st2,
    update_order h body st1 = (Replaced total, st2) /\
    customers st2 = customers st1 /\
    orders st2 = orders st1 /\
    map (fun it => (i_order_id it, item_content it)) (order_items st2)
    = map (fun it => (i_order_id it, item_content it)) (order_items st1).
Proof.
  intros E1.
  destruct (update_order_success_inv _ _ _ _ _ E1) as (W & R & U).
  destruct (update_order_replaced _ _ _ _ _ E1)
    as (items & rows1 & id & _ & Ek & _ & _ & Fid1 & Ht1 & Hc1 & Hi1 & Ho1).
  destruct (update_order_rows _ _ _ _ _ E1)
    as (rows1' & id' & Ek' & Hi1' & Hcnt1 & _ & _).
  rewrite Ek in Ek'. inversion Ek'; subst id'. clear Ek'.
  rewrite Hi1 in Hi1'. apply app_inv_head in Hi1'. subst rows1'.
  assert (R1 : resolves h body st1 = true).
  { unfold resolves in *. rewrite Ek in *. rewrite Ho1.
    apply existsb_exists in R. destruct R as (o & Ho & Eo).
    apply existsb_exists. eexists. split; [apply in_map, Ho|].
    cbv beta. destruct (o_id o =? id) eqn:Eid; [cbn; exact Eid | discriminate]. }
  destruct (update_order_succeeds h body st1 W R1 U) as (t2 & st2 & E2).
  destruct (update_order_replaced _ _ _ _ _ E2)
    as (items2 & rows2 & id2 & _ & Ek2 & _ & _ & Fid2 & Ht2 & Hc2 & Hi2 & Ho2).
  destruct (update_order_rows _ _ _ _ _ E2)
    as (rows2' & id2' & Ek2' & Hi2' & Hcnt2 & _ & _).
  rewrite Ek in Ek2, Ek2'. inversion Ek2; subst id2. inversion Ek2'; subst id2'.
  rewrite Hi2 in Hi2'. apply app_inv_head in Hi2'. subst rows2'.
  assert (C : map item_content rows2 = map item_content rows1).
  { apply map_Some_inj. rewrite Hcnt1, Hcnt2. reflexivity. }
  assert (T : t2 = total).
  { assert (L : forall rows,
              map (line_total_of h) rows
              = map (fun c => Number h (snd c)) (map item_content rows))
      by (intros rows; rewrite map_map; reflexivity).
    rewrite Ht1, Ht2, !L, C. reflexivity. }
  rewrite T in E2. exists st2. split; [exact E2|]. split; [congruence|]. split.
  - rewrite Ho2, Ho1, map_map, T. apply map_ext. intros x. cbv beta.
    destruct (o_id x =? id) eqn:Ex; cbn [o_id]; rewrite Ex; [|reflexivity].
    cbn [o_invoice_no o_customer_id o_order_date o_rent_start o_rent_end].
    rewrite !patched_twice. reflexivity.
  - rewrite Hi2, Hi1, (filter_kept _ _ _ Fid1), !map_app. f_equal.
    assert (O : map i_order_id rows2 = map i_order_id rows1).
    { assert (L : List.length rows2 = List.length rows1).
      { rewrite <- (length_map item_content rows2), C. apply length_map. }
      clear - Fid1 Fid2 L. revert rows1 Fid1 L.
      induction Fid2 as [|r2 rows2 H2 _ IH]; intros [|r1 rows1] F1 L;
        try discriminate; [reflexivity|].
      inversion F1; subst. cbn. f_equal; [congruence|].
      apply IH; [assumption | cbn in L; congruence]. }
    clear - C O. revert rows1 C O.
    induction rows2 as [|r2 rows2 IH]; intros [|r1 rows1] C O; try discriminate;
      [reflexivity|].
    cbn in *. inversion C. inversion O. f_equal; [congruence|].
    apply IH; assumption.
Qed.

(** ** The reply to a request that passes the guards *)

(** X7: once the guards are passed (and, for a replacement, the order is
    there), whether the loop over the items runs through is decided by the
    items alone: on an item that is [null], or whose price or quantity is an
    object that cannot be converted to a number (one with a property
    [toString] of its own, or an array that holds one), the loop raises and
    the handler answers with the error; with no such item the loop runs
    through and, every statement of the store being carried out, the
    handler answers with success. *)
Theorem reply_decided_by_the_items (h : host) (today uuid : string)
    (body : list (string * value)) (st : store) (items : list value) :
  lookup "items" body = VArr items -> items <> [] ->
  (ToBoolean (lookup "name" body) = true ->
   ToBoolean (lookup "phone" body) = true ->
   ToBoolean (lookup "address" body) = true ->
   (existsb raises_on items = true ->
    fst (new_customer h today uuid body st) = Thrown /\
    fst (generate_bill h today uuid body st) = Thrown) /\
   (existsb raises_on items = false ->
    (exists c o, fst (new_customer h today uuid body st) = Created c o) /\
    (exists o inv, fst (generate_bill h today uuid body st) = Billed o inv))) /\
  (ToBoolean (lookup "orderId" body) = true -> resolves h body st = true ->
   (existsb raises_on items = true -> fst (update_order h body st) = Thrown) /\
   (existsb raises_on items = false ->
    exists total, fst (update_order h body st) = Replaced total)).
Proof.
  intros Ei Ne. destruct items as [|it rest]; [congruence|]. split.
  - intros Tn Tp Ta.
    assert (N : forall i s,
              match insert_items h i (it :: rest) 0 s with
              | (Some _, _) => existsb raises_on (it :: rest) = false
              | (None, _) => existsb raises_on (it :: rest) = true
              end).
    { intros i s. pose proof (insert_items_reads h i (it :: rest) 0 s) as R.
      destruct (insert_items h i (it :: rest) 0 s) as [[t|] s2];
        cbn [fst] in R.
      - destruct (existsb raises_on (it :: rest)); [|reflexivity].
        destruct R as [_ R]. discriminate (R eq_refl).
      - apply R. reflexivity. }
    split; intros U; split.
    + unfold new_customer. rewrite Tn, Tp, Ta, Ei. cbn [negb orb]. run_tx.
      match goal with |- context [insert_items h ?i ?its ?t ?s] =>
        specialize (N i s); destruct (insert_items h i its t s) as [[t'|] s2] end;
        [congruence | reflexivity].
    + unfold generate_bill. rewrite Tn, Tp, Ta, Ei. cbn [negb orb]. run_tx.
      destruct (select_customer_by_phone h (lookup "phone" body) st); run_tx;
        unfold update_customer; cbn [orders order_items next_order];
        match goal with |- context [insert_items h ?i ?its ?t ?s] =>
          specialize (N i s); destruct (insert_items h i its t s) as [[t'|] s2] end;
        first [congruence | reflexivity].
    + unfold new_customer. rewrite Tn, Tp, Ta, Ei. cbn [negb orb]. run_tx.
      match goal with |- context [insert_items h ?i ?its ?t ?s] =>
        specialize (N i s); destruct (insert_items h i its t s) as [[t'|] s2] end;
        [eexists _, _; reflexivity | congruence].
    + unfold generate_bill. rewrite Tn, Tp, Ta, Ei. cbn [negb orb]. run_tx.
      destruct (select_customer_by_phone h (lookup "phone" body) st); run_tx;
        unfold update_customer; cbn [orders order_items next_order];
        match goal with |- context [insert_items h ?i ?its ?t ?s] =>
          specialize (N i s); destruct (insert_items h i its t s) as [[t'|] s2] end;
        first [congruence | eexists _, _; reflexivity].
  - intros To R. unfold update_order, resolves in *. rewrite To, Ei. cbn [negb].
    destruct (pg_key h (lookup "orderId" body)) as [id|]; [|discriminate].
    unfold select_order_id.
    destruct (existsb_true_filter _ _ R) as (x & xs & ->). cbn [map firstn].
    run_tx. unfold delete_items.
    match goal with |- context [insert_items h ?i ?its ?t ?s] =>
      pose proof (insert_items_reads h i its t s) as Rd;
      destruct (insert_items h i its t s) as [[t'|] s2] end; cbn [fst] in Rd.
    + split; intros U; [|eexists; reflexivity].
      destruct Rd as [_ Rd]. discriminate (Rd U).
    + split; intros U; [reflexivity|].
      destruct Rd as [Rd _]. rewrite (Rd eq_refl) in U. discriminate.
Qed.

(** ** What a write leaves alone *)

Lemma map_other_orders (f : order -> order) (id : Z) (os : list order) :
  (forall x, o_id x <> id -> f x = x) ->
  Forall (fun x => o_id x < id) os -> map f os = os.
Proof.
  intros Hf F. induction F as [|x os Hx _ IH]; [reflexivity|].
  cbn [map]. rewrite IH, Hf by lia. reflexivity.
Qed.

Lemma param_or_else_today (v : value) (today : string) :
  param (or_else v (VStr today)) = or_else v (VStr today).
Proof.
  unfold or_else. destruct (ToBoolean v) eqn:T; [apply param_truthy, T | reflexivity].
Qed.

Lemma generate_bill_invoice_no (h : host) (today uuid : string)
    (body : list (string * value)) (st : store) (o : Z) (inv : value) (st' : store) :
  generate_bill h today uuid body st = (Billed o inv, st') -> inv = VStr uuid.
Proof.
  unfold generate_bill. intros E.
  destruct (negb _ || negb _ || negb _); [discriminate|].
  destruct (match lookup "items" body with VUndefined => VArr [] | v => v end)
    as [| | | | |items|]; try discriminate.
  destruct items as [|it rest]; [discriminate|].
  revert E. run_tx.
  destruct (select_customer_by_phone h (lookup "phone" body) st); run_tx;
    (destruct (insert_items h _ _ _ _) as [[total|] s2]; [|discriminate]);
    intros E; inversion E; reflexivity.
Qed.

(** X8: a successful create appends exactly one order row and touches no
    other: the row carries the returned key, the invoice token, the rental
    dates of the request (absent ones as [NULL]) and a customer that is in
    the table.  [/api/new-customer] dates the order with the request's
    [order_date] when it has one and with today otherwise;
    [/api/generate-bill] always dates it today. *)
Theorem create_appends_one_order (h : host) (today uuid : string)
    (body : list (string * value)) (st : store) :
  keys_in_use st ->
  (forall c o st',
     new_customer h today uuid body st = (Created c o, st') ->
     exists ord,
       orders st' = (orders st ++ [ord])%list /\
       o_id ord = o /\ o_customer_id ord = c /\ has_customer c st' /\
       o_invoice_no ord = VStr uuid /\
       o_order_date ord = or_else (lookup "order_date" body) (VStr today) /\
       o_rent_start ord = or_else (lookup "rent_start" body) VNull /\
       o_rent_end ord = or_else (lookup "rent_end" body) VNull) /\
  (forall o inv st',
     generate_bill h today uuid body st = (Billed o inv, st') ->
     inv = VStr uuid /\
     exists ord,
       orders st' = (orders st ++ [ord])%list /\
       o_id ord = o /\ has_customer (o_customer_id ord) st' /\
       o_invoice_no ord = inv /\
       o_order_date ord = VStr today /\
       o_rent_start ord = or_else (lookup "rent_start" body) VNull /\
       o_rent_end ord = or_else (lookup "rent_end" body) VNull).
Proof.
  intros [Ko _]. split.
  - intros c o st' E. apply new_customer_created in E.
    destruct E as (items & rows & _ & -> & -> & _ & _ & Hc & _ & Ho & _).
    rewrite map_app, (map_other_orders _ (next_order st)) in Ho; [| |exact Ko].
    2:{ intros x Hx. destruct (Z.eqb_spec (o_id x) (next_order st)); congruence. }
    cbn [map o_id] in Ho. rewrite Z.eqb_refl in Ho.
    eexists. split; [exact Ho|]. cbn.
    rewrite param_or_else_today, !param_or_null.
    repeat split.
    eexists. split; [rewrite Hc; apply in_or_app; right; left; reflexivity|].
    reflexivity.
  - intros o inv st' E. pose proof (generate_bill_invoice_no _ _ _ _ _ _ _ _ E) as ->.
    apply generate_bill_billed in E.
    destruct E as (items & rows & c & _ & -> & _ & _ & Hc & _ & Ho).
    rewrite map_app, (map_other_orders _ (next_order st)) in Ho; [| |exact Ko].
    2:{ intros x Hx. destruct (Z.eqb_spec (o_id x) (next_order st)); congruence. }
    cbn [map o_id] in Ho. rewrite Z.eqb_refl in Ho.
    split; [reflexivity|]. eexists. split; [exact Ho|]. cbn.
    rewrite !param_or_null. repeat split.
    destruct (select_customer_by_phone h (lookup "phone" body) st) as [|id ids] eqn:Es.
    + destruct Hc as [-> Hc]. eexists.
      split; [rewrite Hc; apply in_or_app; right; left; reflexivity | reflexivity].
    + destruct Hc as [-> Hc].
      assert (M : In id (select_customer_by_phone h (lookup "phone" body) st))
        by (rewrite Es; left; reflexivity).
      apply select_customer_by_phone_in in M. destruct M as (x & M & <- & _).
      eexists. split; [rewrite Hc; apply in_map, M|].
      cbv beta. rewrite Z.eqb_refl. reflexivity.
Qed.

(** X9: a successful replacement touches one order only: the customers
    are as they were, no order row is added or removed, and the items of
    every other order are the same rows as before. *)
Theorem update_order_touches_one_order (h : host) (body : list (string * value))
    (st : store) (total : float) (st' : store) :
  update_order h body st = (Replaced total, st') ->
  exists id,
    pg_key h (lookup "orderId" body) = Some id /\
    customers st' = customers st /\
    map o_id (orders st') = map o_id (orders st) /\
    map o_customer_id (orders st') = map o_customer_id (orders st) /\
    forall j, j <> id -> items_of j st' = items_of j st.
Proof.
  intros E. apply update_order_replaced in E.
  destruct E as (items & rows & id & _ & Ek & _ & _ & Fid & _ & Hc & Hi & Ho).
  exists id. split; [exact Ek|]. split; [exact Hc|]. split; [|split].
  - rewrite Ho, map_map. apply map_ext. intros x. cbv beta.
    destruct (o_id x =? id); reflexivity.
  - rewrite Ho, map_map. apply map_ext. intros x. cbv beta.
    destruct (o_id x =? id); reflexivity.
  - intros j Hj. unfold items_of. rewrite Hi, filter_app.
    assert (R : filter (fun it => i_order_id it =? j) rows = []).
    { clear - Fid Hj. induction Fid as [|r rows Hr _ IH]; [reflexivity|].
      cbn [filter]. destruct (Z.eqb_spec (i_order_id r) j); [congruence | exact IH]. }
    rewrite R, app_nil_r. clear - Hj.
    induction (order_items st) as [|x xs IH]; [reflexivity|].
    cbn [filter]. destruct (Z.eqb_spec (i_order_id x) id) as [E|E]; cbn [negb filter].
    + destruct (Z.eqb_spec (i_order_id x) j); [congruence | exact IH].
    + destruct (i_order_id x =? j); [f_equal|]; exact IH.
Qed.

(** ** The handlers that read *)

Lemma filter_none {A} (f : A -> bool) (l : list A) :
  (forall x, In x l -> f x = false) -> filter f l = [].
Proof.
  induction l as [|x l IH]; intros H; [reflexivity|].
  cbn [filter]. rewrite (H x (or_introl eq_refl)). apply IH.
  intros y Hy. apply H. right. exact Hy.
Qed.

Lemma filter_all {A} (f : A -> bool) (l : list A) :
  (forall x, In x l -> f x = true) -> filter f l = l.
Proof.
  induction l as [|x l IH]; intros H; [reflexivity|].
  cbn [filter]. rewrite (H x (or_introl eq_refl)). f_equal. apply IH.
  intros y Hy. apply H. right. exact Hy.
Qed.

(** X10: the customer details are refused without an id and not found
    when no customer has the key; otherwise they give a customer of that
    key and the orders of that customer, each once, newest key first, each
    with its own items by ascending key.  The order summary lists the same
    orders, and answers an empty list, not an error, for a customer that
    is not there. *)
Theorem customer_details_lists_the_orders (h : host) (id : value) (st : store) :
  (ToBoolean id = false ->
   customer_details h id st = Failed "Missing id" /\
   customer_orders h id st = Failed "Missing id") /\
  (forall k,
     ToBoolean id = true -> pg_key h id = Some k -> ~ has_customer k st ->
     customer_details h id st = Failed "Customer not found" /\
     (referential st -> customer_orders h id st = Found [])) /\
  (forall c details,
     customer_details h id st = Found (c, details) ->
     exists k,
       pg_key h id = Some k /\ In c (customers st) /\ c_id c = k /\
       Permutation (map fst details)
                   (filter (fun o => o_customer_id o =? k) (orders st)) /\
       descending (map o_id (map fst details)) /\
       Forall (fun d =>
                 Permutation (snd d) (items_of (o_id (fst d)) st) /\
                 ascending (map i_id (snd d))) details /\
       customer_orders h id st
       = Found (map (fun o => OrderSummary (o_id o) (o_order_date o)
                                           (o_rent_start o) (o_rent_end o)
                                           (o_total o))
                    (map fst details))).
Proof.
  unfold customer_details, customer_orders. split; [|split].
  - intros ->. split; reflexivity.
  - intros k -> -> N. cbn [negb].
    assert (E : select_customer k st = []).
    { apply filter_none. intros x Hx. destruct (Z.eqb_spec (c_id x) k); [|reflexivity].
      destruct N. exists x. split; assumption. }
    rewrite E. split; [reflexivity|]. intros [Ro _].
    unfold select_orders_of. rewrite filter_none; [reflexivity|].
    intros o Ho. destruct (Z.eqb_spec (o_customer_id o) k) as [Ek|]; [|reflexivity].
    destruct (Ro o Ho) as (c & Hc & Ec). destruct N.
    exists c. split; [exact Hc | congruence].
  - intros c details. destruct (ToBoolean id); [|discriminate]. cbn [negb].
    destruct (pg_key h id) as [k|]; [|discriminate].
    destruct (select_customer k st) as [|c0 cs] eqn:Ec; [discriminate|].
    intros E. inversion E; subst c0 details; clear E.
    assert (M : In c (select_customer k st)) by (rewrite Ec; left; reflexivity).
    apply filter_In in M. destruct M as [M1 M2]. apply Z.eqb_eq in M2.
    exists k. rewrite !map_map. cbn [fst snd]. rewrite map_id.
    split; [reflexivity|]. split; [exact M1|]. split; [exact M2|].
    split; [apply order_by_desc_perm|]. split; [apply order_by_desc_descending|].
    split; [|reflexivity].
    apply Forall_map, Forall_forall. intros o _. cbn [fst snd].
    split; [apply order_by_id_perm | apply order_by_id_ascending].
Qed.

Lemma select_order_of_full (id : Z) (st : store) :
  select_order id st
  = map (fun row => OrderRow (f_order row) (f_cname row) (f_cphone row)
                             (f_caddress row))
        (select_full_order id st).
Proof.
  unfold select_order, select_full_order. rewrite <- firstn_map. f_equal.
  induction (orders st) as [|x xs IH]; [reflexivity|].
  cbn [flat_map]. rewrite map_app, <- IH. f_equal.
  destruct (o_id x =? id); [|reflexivity].
  rewrite map_map. reflexivity.
Qed.

Lemma select_full_order_none (id : Z) (st : store) :
  referential st ->
  (select_full_order id st = [] <-> ~ has_order id st).
Proof.
  intros [Ro _]. unfold select_full_order, has_order.
  induction (orders st) as [|x xs IH].
  - split; [intros _ (o & [] & _) | reflexivity].
  - assert (Ro' : forall o, In o xs ->
                    exists c, In c (customers st) /\ c_id c = o_customer_id o).
    { intros o Ho. apply Ro. right. exact Ho. }
    specialize (IH Ro'). cbn [flat_map].
    destruct (Z.eqb_spec (o_id x) id) as [Ex|Nx].
    + destruct (Ro x (or_introl eq_refl)) as (c & Hc & Ec).
      assert (M : In c (filter (fun c => c_id c =? o_customer_id x) (customers st))).
      { apply filter_In. split; [exact Hc | apply Z.eqb_eq; exact Ec]. }
      destruct (filter (fun c => c_id c =? o_customer_id x) (customers st))
        as [|c0 cs]; [destruct M|].
      cbn [map app firstn]. split; [discriminate|].
      intros N. destruct N. exists x. split; [left; reflexivity | exact Ex].
    + cbn [app]. rewrite IH. split.
      * intros N (o & [<-|Ho] & Eo); [congruence|].
        apply N. exists o. split; assumption.
      * intros N (o & Ho & Eo). apply N. exists o. split; [right; exact Ho | exact Eo].
Qed.

(** X11: the invoice renders what the order details return.  For an
    order key that the store cannot read as a key the first statement of
    each raises: the details answer a failure without a message and the
    invoice answers [500 PDF Error].  For a key the store can read, both
    find the same order row of the same customer and the same items in the
    same order, and both answer not found together: in a store whose
    orders have their customers, exactly when no order has the key. *)
Theorem invoice_renders_the_order_details (h : host) (s : string) (st : store) :
  s <> "" ->
  (pg_key h (VStr s) = None ->
   order_full_details h (VStr s) st = Raised /\ invoice h s st = PdfError) /\
  (forall k,
     pg_key h (VStr s) = Some k ->
     (order_full_details h (VStr s) st = Failed "Order not found" <->
      invoice h s st = NotFound) /\
     (referential st -> (invoice h s st = NotFound <-> ~ has_order k st)) /\
     (order_full_details h (VStr s) st <> Raised /\ invoice h s st <> PdfError)) /\
  (forall row items,
     order_full_details h (VStr s) st = Found (row, items) ->
     invoice h s st
     = Document
         ("invoice-" ++ ToString h (or_else (o_invoice_no (f_order row)) (VStr s))
            ++ ".pdf")
         (output (render h (OrderRow (f_order row) (f_cname row) (f_cphone row)
                                     (f_caddress row)) items))).
Proof.
  intros Ns. unfold order_full_details, invoice.
  assert (T : ToBoolean (VStr s) = true).
  { cbn. destruct s; [congruence | reflexivity]. }
  rewrite T. cbn [negb]. split; [|split].
  - intros ->. split; reflexivity.
  - intros k ->. rewrite select_order_of_full. split; [|split].
    + destruct (select_full_order k st); cbn [map];
        split; try reflexivity; discriminate.
    + intros R. pose proof (select_full_order_none k st R) as N.
      destruct (select_full_order k st) as [|row rows]; cbn [map].
      * split; [intros _; apply N; reflexivity | reflexivity].
      * split; [discriminate|]. intros H. apply N in H. discriminate.
    + destruct (select_full_order k st); cbn [map]; split; discriminate.
  - intros row items.
    destruct (pg_key h (VStr s)) as [k|]; [|discriminate].
    rewrite select_order_of_full.
    destruct (select_full_order k st) as [|row' rows]; [discriminate|].
    intros E. inversion E; subst. reflexivity.
Qed.

(** ** The handlers that relabel and delete *)

(** X12: a status update is refused when the key or the status is
    missing.  Otherwise, when the store cannot read the key as a key, the
    statement raises, the handler answers a failure without a message and
    the store is as it was; and when the store reads it as a key the
    handler succeeds, whether or not a customer has the key, and changes
    nothing but the rent status of the customers of that key, which becomes
    the status as sent: every customer keeps its place and its other
    columns, and the orders and the items stay as they were. *)
Theorem update_status_relabels_the_customer (h : host) (body : list (string * value))
    (st : store) :
  (ToBoolean (lookup "customerId" body) = false \/
   ToBoolean (lookup "status" body) = false ->
   update_status h body st = (Failed "Missing fields", st)) /\
  (ToBoolean (lookup "customerId" body) = true ->
   ToBoolean (lookup "status" body) = true ->
   pg_key h (lookup "customerId" body) = None ->
   update_status h body st = (Raised, st)) /\
  (forall k,
     ToBoolean (lookup "customerId" body) = true ->
     ToBoolean (lookup "status" body) = true ->
     pg_key h (lookup "customerId" body) = Some k ->
     exists st',
       update_status h body st = (Found tt, st') /\
       orders st' = orders st /\ order_items st' = order_items st /\
       Forall2 (fun c c' =>
                  c_id c' = c_id c /\ c_name c' = c_name c /\
                  c_phone c' = c_phone c /\ c_alt_phone c' = c_alt_phone c /\
                  c_address c' = c_address c /\
                  c_rent_status c'
                  = if c_id c =? k then lookup "status" body else c_rent_status c)
               (customers st) (customers st') /\
       (~ has_customer k st -> st' = st)).
Proof.
  unfold update_status. split; [|split].
  - intros [-> | ->]; [reflexivity|]. rewrite orb_true_r. reflexivity.
  - intros -> -> ->. reflexivity.
  - intros k -> T ->. rewrite T. cbn [negb orb].
    eexists. split; [reflexivity|]. cbn [set_rent_status orders order_items customers].
    split; [reflexivity|]. split; [reflexivity|]. split.
    + induction (customers st) as [|c cs IH]; [constructor|].
      cbn [map]. constructor; [|exact IH].
      destruct (c_id c =? k); cbn [c_id c_name c_phone c_alt_phone c_address c_rent_status];
        repeat split. apply param_truthy, T.
    + intros N. destruct st as [cs os its nc no ni]. unfold set_rent_status.
      cbn [customers orders order_items next_customer next_order next_item] in *.
      f_equal. rewrite <- (map_id cs) at 2. apply map_ext_in.
      intros c Hc. destruct (Z.eqb_spec (c_id c) k) as [E|]; [|reflexivity].
      destruct N. exists c. split; assumption.
Qed.

Lemma flat_map_none {A B} (f : A -> list B) (l : list A) :
  (forall x, In x l -> f x = []) -> flat_map f l = [].
Proof.
  induction l as [|x l IH]; intros H; [reflexivity|].
  cbn [flat_map]. rewrite (H x (or_introl eq_refl)). apply IH.
  intros y Hy. apply H. right. exact Hy.
Qed.

(** X13: deleting a customer is refused without a key.  Otherwise, when
    the store cannot read the key as a key, the first statement raises,
    the handler answers a failure and the store is as it was; and when the
    store reads it as a key the handler succeeds and removes the customers
    of that key, their orders and the items of those orders, and nothing
    else: every other row stays, in its place, and no key is handed out
    again.  Afterwards the customer is not found, has no orders to list,
    and none of its orders has an invoice.  With a key that no customer
    and no order carries the store is left as it was. *)
Theorem delete_customer_cascades (h : host) (body : list (string * value))
    (st : store) :
  (ToBoolean (lookup "customerId" body) = false ->
   delete_customer h body st = (Failed "Missing customerId", st)) /\
  (ToBoolean (lookup "customerId" body) = true ->
   pg_key h (lookup "customerId" body) = None ->
   delete_customer h body st = (Raised, st)) /\
  (forall k,
     ToBoolean (lookup "customerId" body) = true ->
     pg_key h (lookup "customerId" body) = Some k ->
     exists st',
       delete_customer h body st = (Found tt, st') /\
       customers st' = filter (fun c => negb (c_id c =? k)) (customers st) /\
       orders st' = filter (fun o => negb (o_customer_id o =? k)) (orders st) /\
       (exists gone,
          order_items st' = filter (fun it => negb (gone it)) (order_items st) /\
          forall it,
            gone it = true <->
            exists o, In o (orders st) /\ o_customer_id o = k /\
                      o_id o = i_order_id it) /\
       (next_customer st', next_order st', next_item st')
       = (next_customer st, next_order st, next_item st) /\
       customer_details h (lookup "customerId" body) st'
       = Failed "Customer not found" /\
       customer_orders h (lookup "customerId" body) st' = Found [] /\
       (forall s j,
          pg_key h (VStr s) = Some j ->
          (forall o, In o (orders st) -> o_id o = j -> o_customer_id o = k) ->
          invoice h s st' = NotFound) /\
       (~ has_customer k st ->
        (forall o, In o (orders st) -> o_customer_id o <> k) ->
        st' = st)).
Proof.
  unfold delete_customer. split; [intros ->; reflexivity|].
  split; [intros -> ->; reflexivity|].
  intros k T K. rewrite T, K. cbn [negb].
  eexists. split; [reflexivity|].
  cbn [delete_customer_row delete_orders_of_customer delete_items_of_customer
       customers orders order_items next_customer next_order next_item].
  split; [reflexivity|]. split; [reflexivity|]. split.
  { exists (fun it => existsb (fun o => (o_customer_id o =? k)
                                        && (o_id o =? i_order_id it)) (orders st)).
    split; [reflexivity|]. intros it. rewrite existsb_exists.
    split; intros (o & Ho & E); exists o.
    - apply andb_true_iff in E. destruct E as [E1 E2].
      apply Z.eqb_eq in E1, E2. repeat split; assumption.
    - destruct E as [E1 E2]. split; [exact Ho|].
      apply andb_true_iff. split; apply Z.eqb_eq; assumption. }
  split; [reflexivity|].
  unfold customer_details, customer_orders, invoice. rewrite T, K. cbn [negb].
  unfold select_customer, select_orders_of, select_order. cbn [customers orders].
  split; [|split; [|split]].
  - rewrite filter_none; [reflexivity|].
    intros c Hc. apply filter_In in Hc. destruct Hc as [_ Hc].
    destruct (c_id c =? k); [discriminate | reflexivity].
  - rewrite filter_none; [reflexivity|].
    intros o Ho. apply filter_In in Ho. destruct Ho as [_ Ho].
    destruct (o_customer_id o =? k); [discriminate | reflexivity].
  - intros s j -> Own. rewrite flat_map_none; [reflexivity|].
    intros o Ho. apply filter_In in Ho. destruct Ho as [Ho Nk].
    destruct (Z.eqb_spec (o_id o) j) as [Ej|]; [|reflexivity].
    rewrite (Own o Ho Ej), Z.eqb_refl in Nk. discriminate.
  - intros Nc No. destruct st as [cs os its nc no ni].
    unfold delete_customer_row, delete_orders_of_customer, delete_items_of_customer.
    cbn [customers orders order_items next_customer next_order next_item] in *.
    f_equal; apply filter_all.
    + intros c Hc. destruct (Z.eqb_spec (c_id c) k) as [E|]; [|reflexivity].
      destruct Nc. exists c. split; assumption.
    + intros o Ho. destruct (Z.eqb_spec (o_customer_id o) k) as [E|]; [|reflexivity].
      destruct (No o Ho E).
    + intros it _. apply negb_true_iff.
      destruct (existsb _ os) eqn:E; [|reflexivity].
      apply existsb_exists in E. destruct E as (o & Ho & E).
      apply andb_true_iff in E. destruct E as [E _]. apply Z.eqb_eq in E.
      destruct (No o Ho E).
Qed.

(** ** The store between requests *)

Lemma strictly_ascending_app {A} (key : A -> Z) (l r : list A) (n : Z) :
  strictly_ascending (map key l) -> strictly_ascending (map key r) ->
  Forall (fun x => key x < n) l -> Forall (fun x => n <= key x) r ->
  strictly_ascending (map key (l ++ r)).
Proof.
  intros Hl Hr Fl Fr. induction l as [|x l IH]; [exact Hr|].
  cbn [map app strictly_ascending] in *. destruct Hl as [Hx Hl].
  inversion Fl as [|? ? Lx Fl']; subst.
  split; [|apply IH; assumption].
  rewrite map_app. apply Forall_app. split; [exact Hx|].
  apply Forall_map. eapply Forall_impl; [|exact Fr]. cbv beta. intros; lia.
Qed.

Lemma strictly_ascending_filter {A} (key : A -> Z) (f : A -> bool) (l : list A) :
  strictly_ascending (map key l) -> strictly_ascending (map key (filter f l)).
Proof.
  induction l as [|x l IH]; [trivial|].
  cbn [map strictly_ascending filter]. intros [Hx Hl].
  destruct (f x); [|apply IH, Hl]. cbn [map strictly_ascending].
  split; [|apply IH, Hl].
  rewrite Forall_forall in *. intros k Hk. apply Hx.
  apply in_map_iff in Hk. destruct Hk as (y & <- & Hy).
  apply in_map. apply filter_In in Hy. exact (proj1 Hy).
Qed.

Lemma strictly_ascending_unique {A} (key : A -> Z) (l : list A) (x y : A) :
  strictly_ascending (map key l) -> In x l -> In y l -> key x = key y -> x = y.
Proof.
  induction l as [|a l IH]; [intros _ []|].
  cbn [map strictly_ascending]. intros [Ha Hl] Hx Hy E.
  rewrite Forall_forall in Ha.
  destruct Hx as [<-|Hx], Hy as [<-|Hy].
  - reflexivity.
  - specialize (Ha _ (in_map key _ _ Hy)). lia.
  - specialize (Ha _ (in_map key _ _ Hx)). lia.
  - apply IH; assumption.
Qed.

Lemma strictly_ascending_NoDup (keys : list Z) :
  strictly_ascending keys -> NoDup keys.
Proof.
  induction keys as [|k keys IH]; [constructor|].
  intros [Hk Hl]. constructor; [|apply IH, Hl].
  intros Hin. rewrite Forall_forall in Hk. specialize (Hk _ Hin). lia.
Qed.

Lemma map_same_keys {A} (key : A -> Z) (f : A -> A) (l : list A) :
  (forall x, key (f x) = key x) -> map key (map f l) = map key l.
Proof. intros H. rewrite map_map. apply map_ext. exact H. Qed.

Lemma Forall_filter_of {A} (P : A -> Prop) (f : A -> bool) (l : list A) :
  Forall P l -> Forall P (filter f l).
Proof.
  rewrite !Forall_forall. intros H x Hx. apply H.
  apply filter_In in Hx. exact (proj1 Hx).
Qed.

Lemma select_items_table (id : Z) (st : store) :
  strictly_ascending (map i_id (order_items st)) ->
  select_items id st = items_of id st.
Proof.
  intros A. unfold select_items, items_of.
  apply order_by_id_sorted, strictly_ascending_filter, A.
Qed.

Lemma stored_rows_persisted (h : host) (items : list value) (rows : list order_item) :
  Forall2 (stored_as h) items rows -> Forall persisted rows.
Proof.
  induction 1 as [|it row items rows H _ IH]; constructor;
    [exact (stored_as_persisted h it row H) | exact IH].
Qed.

Lemma filter_other_order (j id : Z) (l : list order_item) :
  j <> id ->
  filter (fun it => i_order_id it =? j)
         (filter (fun it => negb (i_order_id it =? id)) l)
  = filter (fun it => i_order_id it =? j) l.
Proof.
  intros N. induction l as [|x l IH]; [reflexivity|].
  cbn [filter]. destruct (Z.eqb_spec (i_order_id x) id) as [E|E]; cbn [negb filter].
  - destruct (Z.eqb_spec (i_order_id x) j); [congruence | exact IH].
  - rewrite IH. reflexivity.
Qed.

Lemma filter_rows_of_another (j id : Z) (rows : list order_item) :
  j <> id -> Forall (fun r => i_order_id r = id) rows ->
  filter (fun it => i_order_id it =? j) rows = [].
Proof.
  intros N F. apply filter_none. rewrite Forall_forall in F.
  intros x Hx. rewrite (F x Hx). apply Z.eqb_neq. congruence.
Qed.

Lemma consistent_tables (h : host) (st st' : store) :
  tables st' = tables st -> sound st' -> consistent h st -> consistent h st'.
Proof.
  unfold tables, consistent, items_of. intros E S' (_ & Ac & Ao & Ai & P & T).
  inversion E as [[Ec Eo Ei]]. rewrite Ec, Eo, Ei.
  split; [exact S'|]. do 4 (split; [assumption|]). exact T.
Qed.

Lemma empty_consistent (h : host) : consistent h Store.empty.
Proof.
  split; [exact empty_sound|]. cbn. repeat split; try constructor. intros o [].
Qed.

(** The reply of a transaction: one its body returns, or the error. *)
Lemma transaction_reply (ok : reply -> bool) (b : tx reply) (st : store) :
  runs (fun _ => True) b (fun r _ => ok r = true) (fun _ => True) ->
  ok (fst (transaction b st)) = true \/ fst (transaction b st) = Thrown.
Proof.
  intros Hb.
  destruct (transaction_cases _ _ _ b st Hb I) as [(r & st' & -> & S)|(s' & -> & _)].
  - left. exact S.
  - right. reflexivity.
Qed.

Lemma new_customer_reply (h : host) (today uuid : string)
    (body : list (string * value)) (st : store) :
  is_created (fst (new_customer h today uuid body st)) = true \/
  succeeded (fst (new_customer h today uuid body st)) = false.
Proof.
  unfold new_customer.
  destruct (negb _ || negb _ || negb _); [right; reflexivity|].
  destruct (match lookup "items" body with VUndefined => VArr [] | v => v end)
    as [| | | | |items|]; try (right; reflexivity).
  destruct items as [|it rest]; [right; reflexivity|].
  match goal with
  | |- context [transaction ?b st] =>
      destruct (transaction_reply is_created b st) as [H|H]
  end; [repeat step_any | left; exact H | right; rewrite H; reflexivity].
Qed.

Lemma generate_bill_reply (h : host) (today uuid : string)
    (body : list (string * value)) (st : store) :
  is_billed (fst (generate_bill h today uuid body st)) = true \/
  succeeded (fst (generate_bill h today uuid body st)) = false.
Proof.
  unfold generate_bill.
  destruct (negb _ || negb _ || negb _); [right; reflexivity|].
  destruct (match lookup "items" body with VUndefined => VArr [] | v => v end)
    as [| | | | |items|]; try (right; reflexivity).
  destruct items as [|it rest]; [right; reflexivity|].
  match goal with
  | |- context [transaction ?b st] =>
      destruct (transaction_reply is_billed b st) as [H|H]
  end; [| left; exact H | right; rewrite H; reflexivity].
  step_any. eapply (runs_bind _ _ (fun _ _ => True)).
  - destruct a as [|id ids].
    + apply runs_query. intros. exact I.
    + eapply (runs_bind _ _ (fun _ _ => True)); [apply runs_exec; intros; exact I|].
      intros ?. apply runs_ret. intros. exact I.
  - intros customerId. repeat step_any.
Qed.

Lemma update_order_reply (h : host) (body : list (string * value)) (st : store) :
  is_replaced (fst (update_order h body st)) = true \/
  succeeded (fst (update_order h body st)) = false.
Proof.
  unfold update_order.
  destruct (negb _); [right; reflexivity|].
  destruct (lookup "items" body) as [| | | | |items|]; try (right; reflexivity).
  destruct items as [|it rest]; [right; reflexivity|].
  destruct (pg_key h (lookup "orderId" body)) as [id|]; [|right; reflexivity].
  destruct (select_order_id id st) as [|x xs]; [right; reflexivity|].
  match goal with
  | |- context [transaction ?b st] =>
      destruct (transaction_reply is_replaced b st) as [H|H]
  end; [repeat step_any | left; exact H | right; rewrite H; reflexivity].
Qed.

(** What creating an order keeps. *)
Lemma create_consistent (h : host) (st st' : store) (items : list value)
    (rows : list order_item) (new : order) :
  consistent h st -> sound st' ->
  strictly_ascending (map c_id (customers st')) ->
  o_id new = next_order st ->
  order_items st' = (order_items st ++ rows)%list ->
  orders st' =
    map (fun x =>
           if o_id x =? next_order st
           then Order (o_id x) (o_invoice_no x) (o_customer_id x) (o_order_date x)
                      (o_rent_start x) (o_rent_end x)
                      (VNum (sum_numbers (map (line_total_of h) rows)))
           else x)
        (orders st ++ [new])%list ->
  Forall2 (stored_as h) items rows ->
  Forall (fun r => i_order_id r = next_order st) rows ->
  strictly_ascending (map i_id rows) ->
  Forall (fun r => next_item st <= i_id r) rows ->
  consistent h st'.
Proof.
  intros ([R (Kc & Ko & Ki & Kio)] & Ac & Ao & Ai & P & T) S' Ac' Hn Hi Ho F2 Fid
    Asc Fk.
  split; [exact S'|]. split; [exact Ac'|]. split; [|split; [|split]].
  - rewrite Ho, map_same_keys by (intros x; destruct (o_id x =? _); reflexivity).
    apply (strictly_ascending_app o_id _ _ (next_order st)).
    + exact Ao.
    + cbn. split; [constructor | exact I].
    + exact Ko.
    + constructor; [lia | constructor].
  - rewrite Hi. apply (strictly_ascending_app i_id _ _ (next_item st)); assumption.
  - rewrite Hi. apply Forall_app. split; [exact P|].
    exact (stored_rows_persisted h items rows F2).
  - intros x Hx. rewrite Ho in Hx. apply in_map_iff in Hx.
    destruct Hx as (x0 & <- & Hx0). unfold items_of. rewrite Hi, filter_app.
    apply in_app_iff in Hx0. destruct Hx0 as [Hx0|[<-|[]]].
    + rewrite Forall_forall in Ko. specialize (Ko x0 Hx0). cbv beta in Ko.
      destruct (Z.eqb_spec (o_id x0) (next_order st)) as [E|E]; [lia|].
      rewrite (filter_rows_of_another _ _ rows E Fid), app_nil_r.
      apply T, Hx0.
    + rewrite Hn, Z.eqb_refl. cbn [o_id o_total].
      rewrite (filter_fresh _ _ Kio), (filter_same _ _ Fid). reflexivity.
Qed.

Lemma new_customer_consistent (h : host) (today uuid : string)
    (body : list (string * value)) (st : store) :
  consistent h st -> consistent h (snd (new_customer h today uuid body st)).
Proof.
  intros C. pose proof (new_customer_sound h today uuid body st (proj1 C)) as S'.
  destruct (new_customer_reply h today uuid body st) as [H|H].
  - destruct (new_customer h today uuid body st) as [r st'] eqn:E.
    cbn [fst snd] in *. destruct r as [c o| | | |]; try discriminate.
    destruct (new_customer_created _ _ _ _ _ _ _ _ E)
      as (items & rows & _ & Hc & Hn & F2 & Fid & Hcs & Hi & Ho & _).
    destruct (new_customer_rows _ _ _ _ _ _ _ _ E)
      as (rows' & _ & Hi' & _ & _ & Asc & Fk).
    rewrite Hi in Hi'. apply app_inv_head in Hi'. subst rows' o.
    eapply (create_consistent h st st' items rows); try eassumption; try reflexivity.
    rewrite Hcs. destruct C as ([_ (Kc & _)] & Ac & _).
    apply (strictly_ascending_app c_id _ _ (next_customer st)).
    + exact Ac.
    + cbn. split; [constructor | exact I].
    + exact Kc.
    + constructor; [cbn; lia | constructor].
  - apply (consistent_tables h st); [|exact S'|exact C].
    apply new_customer_failed, H.
Qed.

Lemma generate_bill_consistent (h : host) (today uuid : string)
    (body : list (string * value)) (st : store) :
  consistent h st -> consistent h (snd (generate_bill h today uuid body st)).
Proof.
  intros C. pose proof (generate_bill_sound h today uuid body st (proj1 C)) as S'.
  destruct (generate_bill_reply h today uuid body st) as [H|H].
  - destruct (generate_bill h today uuid body st) as [r st'] eqn:E.
    cbn [fst snd] in *. destruct r as [|o inv| | |]; try discriminate.
    destruct (generate_bill_billed _ _ _ _ _ _ _ _ E)
      as (items & rows & c & _ & Hn & F2 & Fid & Hcs & Hi & Ho).
    destruct (generate_bill_rows _ _ _ _ _ _ _ _ E)
      as (rows' & _ & Hi' & _ & _ & Asc & Fk).
    rewrite Hi in Hi'. apply app_inv_head in Hi'. subst rows' o.
    eapply (create_consistent h st st' items rows); try eassumption; try reflexivity.
    destruct C as ([_ (Kc & _)] & Ac & _).
    destruct (select_customer_by_phone h (lookup "phone" body) st) as [|id ids].
    + destruct Hcs as [-> ->].
      apply (strictly_ascending_app c_id _ _ (next_customer st)).
      * exact Ac.
      * cbn. split; [constructor | exact I].
      * exact Kc.
      * constructor; [cbn; lia | constructor].
    + destruct Hcs as [-> ->].
      rewrite map_same_keys; [exact Ac|].
      intros x. destruct (c_id x =? id); reflexivity.
  - apply (consistent_tables h st); [|exact S'|exact C].
    apply generate_bill_failed, H.
Qed.

Lemma update_order_consistent (h : host) (body : list (string * value))
    (st : store) :
  consistent h st -> consistent h (snd (update_order h body st)).
Proof.
  intros C. pose proof (update_order_sound h body st (proj1 C)) as S'.
  destruct (update_order_reply h body st) as [H|H].
  - destruct (update_order h body st) as [r st'] eqn:E.
    cbn [fst snd] in *. destruct r as [| |total| |]; try discriminate.
    destruct (update_order_replaced _ _ _ _ _ E)
      as (items & rows & id & _ & Ek & _ & F2 & Fid & Ht & Hc & Hi & Ho).
    destruct (update_order_rows _ _ _ _ _ E)
      as (rows' & id' & Ek' & Hi' & _ & _ & Asc & Fk).
    rewrite Ek in Ek'. inversion Ek'; subst id'. clear Ek'.
    rewrite Hi in Hi'. apply app_inv_head in Hi'. subst rows'.
    destruct C as ([R (Kc & Ko & Ki & Kio)] & Ac & Ao & Ai & P & T).
    split; [exact S'|]. split; [rewrite Hc; exact Ac|].
    split; [|split; [|split]].
    + rewrite Ho, map_same_keys; [exact Ao|].
      intros x. destruct (o_id x =? id); reflexivity.
    + rewrite Hi. apply (strictly_ascending_app i_id _ _ (next_item st)).
      * apply strictly_ascending_filter, Ai.
      * exact Asc.
      * apply Forall_filter_of, Ki.
      * exact Fk.
    + rewrite Hi. apply Forall_app. split; [apply Forall_filter_of, P|].
      exact (stored_rows_persisted h items rows F2).
    + intros x Hx. rewrite Ho in Hx. apply in_map_iff in Hx.
      destruct Hx as (x0 & <- & Hx0). unfold items_of. rewrite Hi, filter_app.
      destruct (Z.eqb_spec (o_id x0) id) as [Ex|Nx].
      * cbn [o_id o_total]. rewrite Ex, filter_deleted, (filter_same _ _ Fid), Ht.
        reflexivity.
      * rewrite (filter_other_order _ _ _ Nx), (filter_rows_of_another _ _ rows Nx Fid),
          app_nil_r.
        apply T, Hx0.
  - apply (consistent_tables h st); [|exact S'|exact C].
    apply update_order_failed, H.
Qed.

Lemma update_status_consistent (h : host) (body : list (string * value))
    (st : store) :
  consistent h st -> consistent h (snd (update_status h body st)).
Proof.
  intros C. pose proof (update_status_sound h body st (proj1 C)) as S'.
  revert S'. unfold update_status.
  destruct (negb _ || negb _); [intros _; exact C|].
  destruct (pg_key h (lookup "customerId" body)) as [k|]; [|intros _; exact C].
  cbn [snd]. intros S'. destruct C as (_ & Ac & Ao & Ai & P & T).
  split; [exact S'|]. unfold set_rent_status, items_of in *.
  cbn [customers orders order_items].
  split; [|do 3 (split; [assumption|]); exact T].
  rewrite map_same_keys; [exact Ac|].
  intros x. destruct (c_id x =? k); reflexivity.
Qed.

Lemma delete_customer_consistent (h : host) (body : list (string * value))
    (st : store) :
  consistent h st -> consistent h (snd (delete_customer h body st)).
Proof.
  intros C. pose proof (delete_customer_sound h body st (proj1 C)) as S'.
  revert S'. unfold delete_customer.
  destruct (negb _); [intros _; exact C|].
  destruct (pg_key h (lookup "customerId" body)) as [k|]; [|intros _; exact C].
  cbn [snd]. intros S'. destruct C as (_ & Ac & Ao & Ai & P & T).
  split; [exact S'|].
  unfold delete_customer_row, delete_orders_of_customer, delete_items_of_customer,
    items_of in *.
  cbn [customers orders order_items].
  split; [apply strictly_ascending_filter, Ac|].
  split; [apply strictly_ascending_filter, Ao|].
  split; [apply strictly_ascending_filter, Ai|].
  split; [apply Forall_filter_of, P|].
  intros o Ho. apply filter_In in Ho. destruct Ho as [Ho Nk].
  rewrite (T o Ho). do 3 f_equal. clear S' Ai P T.
  induction (order_items st) as [|it its IH]; [reflexivity|].
  cbn [filter]. rewrite IH.
  destruct (existsb _ (orders st)) eqn:G; cbn [negb filter]; [|reflexivity].
  destruct (Z.eqb_spec (i_order_id it) (o_id o)) as [Eo|]; [|reflexivity].
  apply existsb_exists in G. destruct G as (o' & Ho' & G).
  apply andb_true_iff in G. destruct G as [G1 G2]. apply Z.eqb_eq in G2.
  assert (o' = o).
  { apply (strictly_ascending_unique o_id (orders st)); try assumption. congruence. }
  subst o'. rewrite G1 in Nk. discriminate.
Qed.

Lemma handle_consistent (h : host) (st : store) (r : request) :
  consistent h st -> consistent h (handle h st r).
Proof.
  destruct r; cbn [handle].
  - apply new_customer_consistent.
  - apply generate_bill_consistent.
  - apply update_order_consistent.
  - apply update_status_consistent.
  - apply delete_customer_consistent.
Qed.

Lemma serve_consistent (h : host) (log : list request) : consistent h (serve h log).
Proof.
  unfold serve. generalize (empty_consistent h). generalize Store.empty.
  induction log as [|r log IH]; intros st C; [exact C|].
  cbn [fold_left]. apply IH, handle_consistent, C.
Qed.

(** X14: whatever requests were served, one after another, since the store
    was empty, the store is sound, no two rows of a table share a key, and
    every order carries as its total the sum of the line totals of the
    items that are read with it, in the order they are read; so every order
    that the customer details list shows a total that is the sum of the
    line totals listed beneath it. *)
Theorem served_orders_carry_their_sum (h : host) (log : list request) :
  sound (serve h log) /\
  NoDup (map c_id (customers (serve h log))) /\
  NoDup (map o_id (orders (serve h log))) /\
  NoDup (map i_id (order_items (serve h log))) /\
  (forall o,
     In o (orders (serve h log)) ->
     o_total o
     = VNum (sum_numbers
               (map (line_total_of h) (select_items (o_id o) (serve h log))))) /\
  (forall id c details,
     customer_details h id (serve h log) = Found (c, details) ->
     Forall (fun d =>
               o_total (fst d)
               = VNum (sum_numbers (map (line_total_of h) (snd d)))) details).
Proof.
  destruct (serve_consistent h log) as (S & Ac & Ao & Ai & P & T).
  split; [exact S|].
  split; [apply strictly_ascending_NoDup, Ac|].
  split; [apply strictly_ascending_NoDup, Ao|].
  split; [apply strictly_ascending_NoDup, Ai|].
  assert (T' : forall o,
             In o (orders (serve h log)) ->
             o_total o
             = VNum (sum_numbers
                       (map (line_total_of h)
                            (select_items (o_id o) (serve h log))))).
  { intros o Ho. rewrite (select_items_table _ _ Ai). apply T, Ho. }
  split; [exact T'|].
  intros id c details. unfold customer_details.
  destruct (negb (ToBoolean id)); [discriminate|].
  destruct (pg_key h id) as [k|]; [|discriminate].
  destruct (select_customer k (serve h log)) as [|c0 cs]; [discriminate|].
  intros E. inversion E; subst c0 details; clear E.
  apply Forall_map, Forall_forall. intros o Ho. cbn [fst snd]. apply T'.
  unfold select_orders_of in Ho.
  apply (Permutation_in _ (order_by_desc_perm o_id _)) in Ho.
  apply filter_In in Ho. exact (proj1 Ho).
Qed.

Lemma firstn_1_in {A} (l : list A) (x : A) (rest : list A) :
  firstn 1 l = x :: rest -> In x l.
Proof.
  destruct l as [|y l]; [discriminate|]. cbn [firstn]. intros E.
  inversion E; subst. left. reflexivity.
Qed.

Lemma select_order_in (id : Z) (st : store) (row : order_row)
    (rest : list order_row) :
  select_order id st = row :: rest ->
  In (o row) (orders st) /\ o_id (o row) = id /\
  exists c, In c (customers st) /\ c_id c = o_customer_id (o row) /\
            cname row = c_name c /\ cphone row = c_phone c /\
            caddress row = c_address c.
Proof.
  unfold select_order. intros E. apply firstn_1_in in E.
  apply in_flat_map in E. destruct E as (ord & Ho & M).
  destruct (Z.eqb_spec (o_id ord) id) as [Eid|]; [|destruct M].
  apply in_map_iff in M. destruct M as (c & <- & Hc).
  apply filter_In in Hc. destruct Hc as [Hc Ec]. apply Z.eqb_eq in Ec.
  cbn [o cname cphone caddress]. split; [exact Ho|]. split; [exact Eid|].
  exists c. repeat split; assumption.
Qed.

(** X15: whatever requests were served, one after another, since the store
    was empty, an invoice that is sent is the invoice of an order of the
    store with the key asked for, under the name, phone and address of the
    customer of that order; it is named after the invoice number of the
    order, and its total box reads the sum, over the items read with the
    order, of the stored line total times the day count of the order. *)
Theorem served_invoice_totals_the_stored_lines (h : host) (log : list request)
    (s file : string) (out : list drawn) :
  invoice h s (serve h log) = Document file out ->
  exists ord c,
    In ord (orders (serve h log)) /\ pg_key h (VStr s) = Some (o_id ord) /\
    In c (customers (serve h log)) /\ c_id c = o_customer_id ord /\
    out = output (render h (OrderRow ord (c_name c) (c_phone c) (c_address c))
                         (select_items (o_id ord) (serve h log))) /\
    file = "invoice-" ++ ToString h (or_else (o_invoice_no ord) (VStr s)) ++ ".pdf" /\
    texts_of_size 16 out
    = ["₹ " ++ toFixed h
                 (rendered_total h
                    (daysCount h (o_rent_start ord) (o_rent_end ord))
                    (select_items (o_id ord) (serve h log))) 2].
Proof.
  destruct (serve_consistent h log) as (_ & _ & _ & Ai & P & _).
  unfold invoice. destruct (pg_key h (VStr s)) as [k|]; [|discriminate].
  destruct (select_order k (serve h log)) as [|row rest] eqn:Es; [discriminate|].
  remember (output (render h row (select_items k (serve h log)))) as doc eqn:Ed.
  intros E. injection E as <- <-. subst doc.
  destruct (select_order_in _ _ _ _ Es) as (Ho & Ek & c & Hc & Ec & En & Ep & Ea).
  exists (o row), c. rewrite Ek, <- En, <- Ep, <- Ea.
  assert (R : OrderRow (o row) (cname row) (cphone row) (caddress row) = row)
    by (destruct row; reflexivity).
  rewrite R.
  split; [exact Ho|]. split; [reflexivity|]. split; [exact Hc|]. split; [exact Ec|].
  split; [reflexivity|]. split; [reflexivity|].
  assert (Pk : Forall persisted (select_items k (serve h log))).
  { rewrite (select_items_table _ _ Ai). apply Forall_filter_of, P. }
  destruct (render_run h row (select_items k (serve h log)))
    as (loop & foot & -> & L & _ & _ & _ & Tx & _).
  destruct (table_head_run h row) as (_ & _ & _ & _ & _ & _ & _ & H16 & _).
  unfold texts_of_size in *. rewrite !flat_map_app, H16.
  fold (texts_of_size 16 loop). rewrite (loop_has_no_text_of_16 _ _ _ _ _ L).
  cbn [app]. rewrite Tx, (persisted_total h _ _ Pk). reflexivity.
Qed.

(** ** The page breaks of an invoice *)

Lemma page_breaks_app (a b : list drawn) :
  page_breaks (a ++ b) = (page_breaks a + page_breaks b)%nat.
Proof. unfold page_breaks. rewrite filter_app. apply length_app. Qed.

Lemma no_page_break_none (a : list drawn) :
  no_page_break a = true -> page_breaks a = 0%nat.
Proof.
  unfold page_breaks, no_page_break. induction a as [|d a IH]; [reflexivity|].
  cbn [forallb filter]. intros N. apply andb_prop in N. destruct N as [Nd Na].
  destruct d; try discriminate; exact (IH Na).
Qed.

Lemma pages_from_length (out : list drawn) :
  forall cur, List.length (pages_from cur out) = S (page_breaks out).
Proof.
  unfold page_breaks. induction out as [|d out IH]; intros cur; [reflexivity|].
  destruct d; cbn [pages_from filter List.length]; rewrite IH; reflexivity.
Qed.

Lemma reach_nonneg (k : nat) : (0 <= reach k)%Q.
Proof. induction k as [|k IH]; cbn [reach]; lra. Qed.

Lemma items_loop_breaks (h : host) (days : Z) (rows : list order_item) :
  forall (y : Q) (grand : float) (g : gstate) (k : nat),
    between_rows g -> (k <= 6)%nat -> has_room y k ->
    (6 * page_breaks (drawn_by (items_loop h days rows y grand) g)
     <= List.length rows - k + 5)%nat.
Proof.
  induction rows as [|it rest IH]; intros y grand g k B K R.
  - cbn. lia.
  - cbn [items_loop]. rewrite drawn_by_bind.
    destruct (item_run h days it y grand g B)
      as (y' & before & Ev & Ed & Bs & _ & _ & Hb).
    rewrite Ev, Ed. cbn [fst snd]. rewrite !page_breaks_app.
    assert (Z0 : page_breaks (item_drawn h days it y' (g_lineWidth g)) = 0%nat)
      by reflexivity.
    rewrite Z0. cbn [List.length].
    destruct Hb as [(Le & -> & ->) | (Gt & -> & ->)].
    + assert (R' : has_room (below y) (Nat.pred k)).
      { destruct k as [|[|k]]; try exact I.
        cbn [Nat.pred has_room reach] in *. unfold below. lra. }
      specialize (IH (below y) (grand + amount_of h days it)%float
                     (state_after (item h days it y grand) g) (Nat.pred k) Bs
                     ltac:(lia) R').
      change (page_breaks []) with 0%nat. lia.
    + assert (k = 0%nat).
      { destruct k as [|k]; [reflexivity|]. cbn [has_room] in R.
        pose proof (reach_nonneg k) as N.
        assert (L : (y + 50 <= page_height - 60)%Q) by lra.
        apply Qle_bool_iff in L. congruence. }
      subst k.
      assert (R' : has_room (below (40 + 25)) 5).
      { cbn [has_room reach]. unfold below, page_height. lra. }
      specialize (IH (below (40 + 25)) (grand + amount_of h days it)%float
                     (state_after (item h days it y grand) g) 5%nat Bs
                     ltac:(lia) R').
      change (page_breaks (break_drawn (g_lineWidth g))) with 1%nat. lia.
Qed.

(** X16: an invoice of [n] items asks for at most one new page for every
    six items, rounded up, and none without items: after a page break the
    loop places six rows before it can break again.  The document has one
    page more than the breaks asked for. *)
Theorem invoice_breaks_once_in_six_rows (h : host) (order : order_row)
    (rows : list order_item) :
  (6 * page_breaks (output (render h order rows)) <= List.length rows + 5)%nat /\
  List.length (pages (output (render h order rows)))
  = S (page_breaks (output (render h order rows))).
Proof.
  split; [|apply pages_from_length].
  destruct (table_head_run h order) as (_ & Hb & _ & Np & _).
  rewrite output_drawn_by. unfold render.
  rewrite drawn_by_bind. cbv zeta. rewrite drawn_by_bind.
  set (g1 := state_after (table_head h order) initial) in *.
  set (dy := value_of (table_head h order) initial) in *.
  destruct (items_loop_run h (fst dy) rows (snd dy) 0%float g1 Hb)
    as (_ & _ & B & _).
  pose proof (items_loop_breaks h (fst dy) rows (snd dy) 0%float g1 0%nat Hb
                ltac:(lia) I) as L.
  rewrite !page_breaks_app, (no_page_break_none _ Np).
  match goal with
  | |- context [page_breaks (drawn_by (bind_pdf (total_box h ?y ?gr) ?k) ?g)] =>
      destruct (closing_run h y gr g B) as (Nf & _)
  end.
  rewrite (no_page_break_none _ Nf). lia.
Qed.

(** ** The worked cases *)


Lemma failed_write_changes_no_row_witness :
  fst (new_customer Fixture.host "2024-01-03" "tok-3" Cases.holed Cases.asha) = Thrown /\
  tables (snd (new_customer Fixture.host "2024-01-03" "tok-3" Cases.holed Cases.asha))
  = tables Cases.asha /\
  tables (snd (generate_bill Fixture.host "2024-01-03" "tok-3" Cases.holed Cases.asha))
  = tables Cases.asha /\
  fst (update_order Fixture.host Cases.holed_update Cases.asha) = Thrown /\
  tables (snd (update_order Fixture.host Cases.holed_update Cases.asha))
  = tables Cases.asha.
Proof.
  destruct (failed_write_changes_no_row Fixture.host "2024-01-03" "tok-3" Cases.holed
              Cases.asha) as (N & G & _).
  destruct (failed_write_changes_no_row Fixture.host "2024-01-03" "tok-3"
              Cases.holed_update Cases.asha) as (_ & _ & U).
  split; [reflexivity|]. split; [apply N; reflexivity|].
  split; [apply G; reflexivity|]. split; [reflexivity|]. apply U. reflexivity.
Defined.

Lemma items_read_back_in_request_order_witness :
  map (fun r => Some (item_content r)) (select_items 1 Cases.asha)
  = map (stored_content Fixture.host) (request_items Fixture.chair_and_table) /\
  map i_product (select_items 1 Cases.asha) = [VStr "Chair"; VStr "Table"].
Proof.
  assert (K : keys_in_use Store.empty) by (split; constructor).
  destruct (items_read_back_in_request_order Fixture.host "2024-01-01" "tok-1"
              Fixture.chair_and_table Store.empty K) as (N & _).
  split; [apply (N 1 1 Cases.asha); reflexivity | reflexivity].
Defined.

Lemma update_order_twice_witness :
  exists st2,
    update_order Fixture.host Fixture.stool_update
      (snd (update_order Fixture.host Fixture.stool_update Cases.asha))
    = (Replaced 60, st2) /\
    customers st2
    = customers (snd (update_order Fixture.host Fixture.stool_update Cases.asha)) /\
    orders st2
    = orders (snd (update_order Fixture.host Fixture.stool_update Cases.asha)) /\
    map (fun it => (i_order_id it, item_content it)) (order_items st2)
    = map (fun it => (i_order_id it, item_content it))
          (order_items (snd (update_order Fixture.host Fixture.stool_update
                               Cases.asha))).
Proof.
  apply (update_order_twice Fixture.host Fixture.stool_update Cases.asha).
  vm_compute. reflexivity.
Defined.

Lemma reply_decided_by_the_items_witness :
  (fst (new_customer Fixture.host "2024-01-03" "tok-3" Cases.holed Cases.asha) = Thrown /\
   fst (generate_bill Fixture.host "2024-01-03" "tok-3" Cases.holed Cases.asha) = Thrown) /\
  (fst (new_customer Fixture.host "2024-01-03" "tok-3" Cases.odd_price Cases.asha)
   = Thrown /\
   fst (generate_bill Fixture.host "2024-01-03" "tok-3" Cases.odd_price Cases.asha)
   = Thrown) /\
  (exists o inv,
     fst (generate_bill Fixture.host "2024-01-02" "tok-2" Cases.ravi_bill Cases.asha)
     = Billed o inv) /\
  (exists total,
     fst (update_order Fixture.host Fixture.stool_update Cases.asha) = Replaced total).
Proof.
  assert (N : forall A (x y : A), x :: y :: nil <> nil) by discriminate.
  assert (N1 : forall A (x : A), x :: nil <> nil) by discriminate.
  split; [|split; [|split]].
  - destruct (reply_decided_by_the_items Fixture.host "2024-01-03" "tok-3" Cases.holed
                Cases.asha _ eq_refl (N _ _ _)) as [C _].
    destruct (C eq_refl eq_refl eq_refl) as [T _]. exact (T eq_refl).
  - destruct (reply_decided_by_the_items Fixture.host "2024-01-03" "tok-3"
                Cases.odd_price Cases.asha _ eq_refl (N1 _ _)) as [C _].
    destruct (C eq_refl eq_refl eq_refl) as [T _]. exact (T eq_refl).
  - destruct (reply_decided_by_the_items Fixture.host "2024-01-02" "tok-2"
                Cases.ravi_bill Cases.asha _ eq_refl (N1 _ _)) as [C _].
    destruct (C eq_refl eq_refl eq_refl) as [_ S]. exact (proj2 (S eq_refl)).
  - destruct (reply_decided_by_the_items Fixture.host "2024-01-02" "tok-2"
                Fixture.stool_update Cases.asha _ eq_refl (N1 _ _)) as [_ U].
    destruct (U eq_refl eq_refl) as [_ S]. exact (S eq_refl).
Defined.

Lemma create_appends_one_order_witness :
  exists ord,
    orders Cases.asha_and_ravi = (orders Cases.asha ++ [ord])%list /\
    o_id ord = 2 /\ has_customer (o_customer_id ord) Cases.asha_and_ravi /\
    o_invoice_no ord = VStr "tok-2" /\
    o_order_date ord = VStr "2024-01-02" /\
    o_rent_start ord = or_else (lookup "rent_start" Cases.ravi_bill) VNull /\
    o_rent_end ord = or_else (lookup "rent_end" Cases.ravi_bill) VNull.
Proof.
  assert (K : keys_in_use Cases.asha) by (split; repeat constructor).
  destruct (create_appends_one_order Fixture.host "2024-01-02" "tok-2" Cases.ravi_bill
              Cases.asha K) as (_ & G).
  destruct (G 2 (VStr "tok-2") Cases.asha_and_ravi eq_refl) as (_ & H). exact H.
Defined.

Lemma update_order_touches_one_order_witness :
  exists id,
    pg_key Fixture.host (lookup "orderId" Fixture.stool_update) = Some id /\
    customers (snd (update_order Fixture.host Fixture.stool_update Cases.asha_and_ravi))
    = customers Cases.asha_and_ravi /\
    map o_id (orders (snd (update_order Fixture.host Fixture.stool_update
                             Cases.asha_and_ravi)))
    = map o_id (orders Cases.asha_and_ravi) /\
    map o_customer_id (orders (snd (update_order Fixture.host Fixture.stool_update
                                      Cases.asha_and_ravi)))
    = map o_customer_id (orders Cases.asha_and_ravi) /\
    forall j, j <> id ->
      items_of j (snd (update_order Fixture.host Fixture.stool_update
                         Cases.asha_and_ravi))
      = items_of j Cases.asha_and_ravi.
Proof.
  apply (update_order_touches_one_order Fixture.host Fixture.stool_update
           Cases.asha_and_ravi 60).
  vm_compute. reflexivity.
Defined.

Lemma customer_details_lists_the_orders_witness :
  customer_details Fixture.host VUndefined Cases.asha_and_ravi = Failed "Missing id" /\
  customer_details Fixture.host (VStr "7") Cases.asha_and_ravi
  = Failed "Customer not found" /\
  customer_orders Fixture.host (VStr "7") Cases.asha_and_ravi = Found [] /\
  exists k,
    pg_key Fixture.host (VStr "1") = Some k /\
    customer_orders Fixture.host (VStr "1") Cases.asha_and_ravi
    = Found [OrderSummary 1 (VStr "2024-01-01") (VStr "2024-01-01")
                          (VStr "2024-01-03") (VNum 400)].
Proof.
  destruct (customer_details_lists_the_orders Fixture.host VUndefined
              Cases.asha_and_ravi) as (G & _).
  destruct (customer_details_lists_the_orders Fixture.host (VStr "7")
              Cases.asha_and_ravi) as (_ & N & _).
  destruct (customer_details_lists_the_orders Fixture.host (VStr "1")
              Cases.asha_and_ravi) as (_ & _ & F).
  assert (S : sound Cases.asha_and_ravi).
  { apply generate_bill_sound, new_customer_sound, empty_sound. }
  assert (No : ~ has_customer 7 Cases.asha_and_ravi).
  { intros (c & Hc & E). vm_compute in Hc.
    destruct Hc as [<-|[<-|[]]]; discriminate E. }
  split; [exact (proj1 (G eq_refl))|].
  split; [exact (proj1 (N 7 eq_refl eq_refl No))|].
  split; [exact (proj2 (N 7 eq_refl eq_refl No) (proj1 S))|].
  destruct (F _ _ eq_refl) as (k & Ek & _ & _ & _ & _ & _ & Eo).
  exists k. split; [exact Ek | exact Eo].
Defined.

Lemma invoice_renders_the_order_details_witness :
  (order_full_details Fixture.host (VStr "abc") Cases.asha_and_ravi = Raised /\
   invoice Fixture.host "abc" Cases.asha_and_ravi = PdfError) /\
  (order_full_details Fixture.host (VStr "7") Cases.asha_and_ravi
   = Failed "Order not found" <->
   invoice Fixture.host "7" Cases.asha_and_ravi = NotFound) /\
  invoice Fixture.host "2" Cases.asha_and_ravi
  = Document "invoice-tok-2.pdf"
      (output (render Fixture.host
                 (OrderRow (Order 2 (VStr "tok-2") 2 (VStr "2024-01-02") VNull VNull
                                  (VNum 60))
                           (VStr "Ravi") (VStr "9000000002") (VStr "Sagara"))
                 [OrderItem 3 2 (VStr "Stool") (VNum 30) (VNum 2) (VNum 60)])).
Proof.
  assert (N : forall (c : ascii) (s : string), String c s <> "") by discriminate.
  destruct (invoice_renders_the_order_details Fixture.host "abc" Cases.asha_and_ravi
              (N _ _)) as (R & _).
  destruct (invoice_renders_the_order_details Fixture.host "7" Cases.asha_and_ravi
              (N _ _)) as (_ & A & _).
  destruct (invoice_renders_the_order_details Fixture.host "2" Cases.asha_and_ravi
              (N _ _)) as (_ & _ & B).
  split; [exact (R eq_refl)|].
  split; [exact (proj1 (A 7 eq_refl))|].
  exact (B _ _ eq_refl).
Defined.

Lemma update_status_relabels_the_customer_witness :
  update_status Fixture.host [("customerId", VNum 1)] Cases.asha_and_ravi
  = (Failed "Missing fields", Cases.asha_and_ravi) /\
  update_status Fixture.host [("customerId", VStr "abc"); ("status", VStr "RETURNED")]
    Cases.asha_and_ravi
  = (Raised, Cases.asha_and_ravi) /\
  exists st',
    update_status Fixture.host Cases.relabel_asha Cases.asha_and_ravi = (Found tt, st') /\
    orders st' = orders Cases.asha_and_ravi /\
    order_items st' = order_items Cases.asha_and_ravi /\
    map c_rent_status (customers st') = [VStr "RETURNED"; VStr "ACTIVE"].
Proof.
  destruct (update_status_relabels_the_customer Fixture.host [("customerId", VNum 1)]
              Cases.asha_and_ravi) as (G & _).
  destruct (update_status_relabels_the_customer Fixture.host
              [("customerId", VStr "abc"); ("status", VStr "RETURNED")]
              Cases.asha_and_ravi) as (_ & R & _).
  destruct (update_status_relabels_the_customer Fixture.host Cases.relabel_asha
              Cases.asha_and_ravi) as (_ & _ & U).
  split; [apply G; right; reflexivity|].
  split; [exact (R eq_refl eq_refl eq_refl)|].
  destruct (U 1 eq_refl eq_refl eq_refl) as (st' & E & Ho & Hi & _).
  exists st'. split; [exact E|]. split; [exact Ho|]. split; [exact Hi|].
  injection E as <-. reflexivity.
Defined.

Lemma delete_customer_cascades_witness :
  delete_customer Fixture.host [] Cases.asha_and_ravi
  = (Failed "Missing customerId", Cases.asha_and_ravi) /\
  delete_customer Fixture.host [("customerId", VStr "abc")] Cases.asha_and_ravi
  = (Raised, Cases.asha_and_ravi) /\
  exists st',
    delete_customer Fixture.host Cases.delete_asha Cases.asha_and_ravi = (Found tt, st') /\
    map c_id (customers st') = [2] /\ map o_id (orders st') = [2] /\
    map i_id (order_items st') = [3] /\
    customer_details Fixture.host (lookup "customerId" Cases.delete_asha) st'
    = Failed "Customer not found" /\
    invoice Fixture.host "1" st' = NotFound.
Proof.
  destruct (delete_customer_cascades Fixture.host [] Cases.asha_and_ravi) as (G & _).
  destruct (delete_customer_cascades Fixture.host [("customerId", VStr "abc")]
              Cases.asha_and_ravi) as (_ & R & _).
  destruct (delete_customer_cascades Fixture.host Cases.delete_asha Cases.asha_and_ravi)
    as (_ & _ & D).
  split; [exact (G eq_refl)|].
  split; [exact (R eq_refl eq_refl)|].
  destruct (D 1 eq_refl eq_refl) as (st' & E & Hc & Ho & _ & _ & Cd & _ & Inv & _).
  exists st'. split; [exact E|].
  split; [rewrite Hc; reflexivity|]. split; [rewrite Ho; reflexivity|].
  split; [injection E as <-; reflexivity|]. split; [exact Cd|].
  apply (Inv "1" 1 eq_refl). intros o Hin Eo. vm_compute in Hin.
  destruct Hin as [<-|[<-|[]]]; [reflexivity | discriminate Eo].
Defined.

Lemma served_invoice_totals_the_stored_lines_witness :
  exists ord c,
    In ord (orders (serve Fixture.host Cases.asha_log)) /\
    pg_key Fixture.host (VStr "1") = Some (o_id ord) /\
    In c (customers (serve Fixture.host Cases.asha_log)) /\
    c_id c = o_customer_id ord /\
    Cases.asha_document
    = output (render Fixture.host
                (OrderRow ord (c_name c) (c_phone c) (c_address c))
                (select_items (o_id ord) (serve Fixture.host Cases.asha_log))) /\
    "invoice-tok-1.pdf"
    = "invoice-" ++ ToString Fixture.host (or_else (o_invoice_no ord) (VStr "1"))
        ++ ".pdf" /\
    texts_of_size 16 Cases.asha_document
    = ["₹ " ++ toFixed Fixture.host
                 (rendered_total Fixture.host
                    (daysCount Fixture.host (o_rent_start ord) (o_rent_end ord))
                    (select_items (o_id ord) (serve Fixture.host Cases.asha_log))) 2].
Proof.
  apply (served_invoice_totals_the_stored_lines Fixture.host Cases.asha_log "1").
  vm_compute. reflexivity.
Defined.

Lemma writers_keep_the_store_sound_witness :
  sound Cases.asha /\
  sound (snd (generate_bill Fixture.host "2024-01-03" "tok-3" Cases.holed Cases.asha)) /\
  sound (snd (update_order Fixture.host Cases.holed_update Cases.asha)) /\
  sound (snd (update_status Fixture.host Cases.relabel_asha Cases.asha)) /\
  sound (snd (delete_customer Fixture.host Cases.delete_asha Cases.asha)).
Proof.
  destruct (writers_keep_the_store_sound Fixture.host "2024-01-01" "tok-1"
              Fixture.chair_and_table Store.empty) as (E & W).
  destruct (W E) as (S & _).
  split; [exact S|].
  destruct (writers_keep_the_store_sound Fixture.host "2024-01-03" "tok-3"
              Cases.holed Cases.asha) as (_ & W1).
  destruct (writers_keep_the_store_sound Fixture.host "2024-01-03" "tok-3"
              Cases.holed_update Cases.asha) as (_ & W2).
  destruct (writers_keep_the_store_sound Fixture.host "2024-01-03" "tok-3"
              Cases.relabel_asha Cases.asha) as (_ & W3).
  destruct (writers_keep_the_store_sound Fixture.host "2024-01-03" "tok-3"
              Cases.delete_asha Cases.asha) as (_ & W4).
  split; [exact (proj1 (proj2 (W1 S)))|].
  split; [exact (proj1 (proj2 (proj2 (W2 S))))|].
  split; [exact (proj1 (proj2 (proj2 (proj2 (W3 S)))))|].
  exact (proj2 (proj2 (proj2 (proj2 (W4 S))))).
Defined.
